(** * Human-in-the-loop social media agent: workflow model and properties

    A shallow embedding of the workflow core of the repository
    (src/agent/state.py, src/agent/nodes.py, src/agent/graph.py) and of the
    two endpoints of src/web/api.py that start and resume a thread,
    followed by the properties of the specification that are checked
    against it.

    Conventions.
    - A Python [str] is a [string]; a character is a code point in 0..255
      and the character classes below follow CPython on that range.
    - A Python [int] is a [Z].
    - A node returns a partial update (a Python dict): an [update] is the
      list of its entries, one constructor of [field_update] per key.
    - External collaborators (language model, clock, publish connector,
      human approver) are explicit inputs. *)

From Stdlib Require Import ZArith String Ascii List Lia DecimalString.
From stdpp Require Import base option gmap strings list fin_maps.

Local Open Scope Z_scope.
Local Open Scope string_scope.

(* ===================================================================== *)
(** ** Python string operations used by the nodes *)
(* ===================================================================== *)

Module PyStr.

Definition code (c : ascii) : N := N_of_ascii c.

(** [str.isspace] on a single character (the set stripped by
    [str.strip()] without argument). *)
Definition isspace (c : ascii) : bool :=
  let n := code c in
  (((9 <=? n) && (n <=? 13)) || ((28 <=? n) && (n <=? 32))
   || (n =? 133) || (n =? 160))%N.

(** [str.lower] on a single character of the modelled range, where it
    maps character by character (the context-sensitive cases of
    [str.lower] lie beyond that range). *)
Definition lower_char (c : ascii) : ascii :=
  let n := code c in
  if (((65 <=? n) && (n <=? 90))
      || ((192 <=? n) && (n <=? 222) && negb (n =? 215)))%N
  then ascii_of_N (n + 32) else c.

Fixpoint lower (s : string) : string :=
  match s with
  | EmptyString => EmptyString
  | String c s' => String (lower_char c) (lower s')
  end.

(** [s.lstrip()] *)
Fixpoint lstrip (s : string) : string :=
  match s with
  | EmptyString => EmptyString
  | String c s' => if isspace c then lstrip s' else s
  end.

(** [s.rstrip()] *)
Fixpoint rstrip (s : string) : string :=
  match s with
  | EmptyString => EmptyString
  | String c s' =>
      match rstrip s' with
      | EmptyString => if isspace c then EmptyString else String c EmptyString
      | r => String c r
      end
  end.

(** [s.strip()] *)
Definition strip (s : string) : string := rstrip (lstrip s).

(** [s.lstrip(c)] for a one-character argument. *)
Fixpoint lstrip_char (ch : ascii) (s : string) : string :=
  match s with
  | EmptyString => EmptyString
  | String c s' => if Ascii.eqb c ch then lstrip_char ch s' else s
  end.

(** [s.split(sep)] for a one-character separator: never the empty list. *)
Fixpoint split (sep : ascii) (s : string) : list string :=
  match s with
  | EmptyString => [EmptyString]
  | String c s' =>
      if Ascii.eqb c sep then EmptyString :: split sep s'
      else match split sep s' with
           | h :: t => String c h :: t
           | [] => [String c EmptyString]
           end
  end.

(** [s.startswith(p)] *)
Definition startswith (p s : string) : bool := String.prefix p s.

(** [s[n:]] for [n >= 0]. *)
Fixpoint slice_from (n : nat) (s : string) : string :=
  match n, s with
  | O, _ => s
  | S n', String _ s' => slice_from n' s'
  | S _, EmptyString => EmptyString
  end.

(** [sep.join(l)] *)
Definition join (sep : string) (l : list string) : string :=
  String.concat sep l.

(** [len(s)] *)
Definition len (s : string) : Z := Z.of_nat (String.length s).

(** Truthiness of a [str]: non-empty. *)
Definition truthy (s : string) : bool :=
  match s with EmptyString => false | _ => true end.

(** [str(n)] / [f"{n}"] for an [int]. *)
Definition of_int (n : Z) : string := NilZero.string_of_int (Z.to_int n).

Definition LF : ascii := ascii_of_N 10.
Definition nl : string := String LF EmptyString.

End PyStr.

(* ===================================================================== *)
(** ** src/agent/state.py *)
(* ===================================================================== *)

Inductive PostStatus :=
| DRAFT | PENDING_APPROVAL | APPROVED | REJECTED | PUBLISHED | FAILED.

Inductive Platform := TWITTER | LINKEDIN.

(** [Platform.value] *)
Definition platform_value (p : Platform) : string :=
  match p with TWITTER => "twitter" | LINKEDIN => "linkedin" end.

(** [PostStatus.value] *)
Definition status_value (s : PostStatus) : string :=
  match s with
  | DRAFT => "draft" | PENDING_APPROVAL => "pending_approval"
  | APPROVED => "approved" | REJECTED => "rejected"
  | PUBLISHED => "published" | FAILED => "failed"
  end.

#[global] Instance PostStatus_eq_dec : EqDecision PostStatus.
Proof. solve_decision. Defined.

#[global] Instance Platform_eq_dec : EqDecision Platform.
Proof. solve_decision. Defined.

Module PostContent.
Record t := mk {
  text : string;
  platform : Platform;
  hashtags : list string;
  created_at : Z  (* datetime.utcnow() at construction, read from the clock *)
}.

(** property [formatted_text] *)
Definition formatted_text (self : t) : string :=
  match hashtags self with
  | [] => text self
  | _ :: _ =>
      let hashtag_str := PyStr.join " " (map (fun tag => "#" +:+ tag) (hashtags self)) in
      text self +:+ PyStr.nl +:+ PyStr.nl +:+ hashtag_str
  end.

(** property [char_count] *)
Definition char_count (self : t) : Z := PyStr.len (formatted_text self).
End PostContent.

(** [Literal["approve", "reject", "edit"]] *)
Inductive Action := approve | reject | edit.

Definition action_value (a : Action) : string :=
  match a with approve => "approve" | reject => "reject" | edit => "edit" end.

(** Validation of a string against the literal type. *)
Definition action_of_string (s : string) : option Action :=
  if String.eqb s "approve" then Some approve
  else if String.eqb s "reject" then Some reject
  else if String.eqb s "edit" then Some edit
  else None.

Module HumanFeedback.
Record t := mk {
  action : Action;
  edited_text : option string;
  feedback_message : option string
}.
End HumanFeedback.

Inductive BaseMessage :=
| AIMessage (content : string)
| HumanMessage (content : string).

Module AgentState.
Record t := mk {
  messages : list BaseMessage;
  topic : string;
  platform : Platform;
  tone : string;
  additional_context : string;
  post_content : option PostContent.t;
  status : PostStatus;
  human_feedback : option HumanFeedback.t;
  generation_attempts : Z;
  max_attempts : Z;
  published_url : option string;
  error_message : option string;
  thread_id : string
}.

(** [AgentState(topic=.., platform=.., tone=.., additional_context=..,
    thread_id=..)]: every other field takes its declared default. *)
Definition create (topic : string) (platform : Platform) (tone : string)
    (additional_context : string) (thread_id : string) : t :=
  {| messages := [];
     topic := topic;
     platform := platform;
     tone := tone;
     additional_context := additional_context;
     post_content := None;
     status := DRAFT;
     human_feedback := None;
     generation_attempts := 0;
     max_attempts := 3;
     published_url := None;
     error_message := None;
     thread_id := thread_id |}.
End AgentState.

(* ===================================================================== *)
(** ** Partial updates returned by nodes, and how the graph merges them *)
(* ===================================================================== *)

(** One entry of the dict a node returns: the key and its value.  A value
    of [None] for an optional field is an explicit clearing, distinct from
    the key being absent. *)
Inductive field_update :=
| set_messages (v : list BaseMessage)
| set_topic (v : string)
| set_platform (v : Platform)
| set_tone (v : string)
| set_additional_context (v : string)
| set_post_content (v : option PostContent.t)
| set_status (v : PostStatus)
| set_human_feedback (v : option HumanFeedback.t)
| set_generation_attempts (v : Z)
| set_max_attempts (v : Z)
| set_published_url (v : option string)
| set_error_message (v : option string)
| set_thread_id (v : string).

(** The dict returned by a node, in the order its keys are written. *)
Definition update := list field_update.

(** Key of an entry, as spelled in the source. *)
Definition key (f : field_update) : string :=
  match f with
  | set_messages _ => "messages"
  | set_topic _ => "topic"
  | set_platform _ => "platform"
  | set_tone _ => "tone"
  | set_additional_context _ => "additional_context"
  | set_post_content _ => "post_content"
  | set_status _ => "status"
  | set_human_feedback _ => "human_feedback"
  | set_generation_attempts _ => "generation_attempts"
  | set_max_attempts _ => "max_attempts"
  | set_published_url _ => "published_url"
  | set_error_message _ => "error_message"
  | set_thread_id _ => "thread_id"
  end.

Definition keys (u : update) : list string := map key u.

(** Reducer of the [messages] channel ([add_messages]): the new messages
    are appended. *)
Definition add_messages (left right : list BaseMessage) : list BaseMessage :=
  left ++ right.

(** Writing one entry into the state: [messages] goes through its reducer,
    every other channel keeps the last value written. *)
Definition apply_field (s : AgentState.t) (f : field_update) : AgentState.t :=
  match f with
  | set_messages v =>
      AgentState.mk (add_messages (AgentState.messages s) v)
        (AgentState.topic s) (AgentState.platform s)
        (AgentState.tone s) (AgentState.additional_context s)
        (AgentState.post_content s) (AgentState.status s)
        (AgentState.human_feedback s)
        (AgentState.generation_attempts s)
        (AgentState.max_attempts s) (AgentState.published_url s)
        (AgentState.error_message s) (AgentState.thread_id s)
  | set_topic v =>
      AgentState.mk (AgentState.messages s) v (AgentState.platform s)
        (AgentState.tone s) (AgentState.additional_context s)
        (AgentState.post_content s) (AgentState.status s)
        (AgentState.human_feedback s)
        (AgentState.generation_attempts s)
        (AgentState.max_attempts s) (AgentState.published_url s)
        (AgentState.error_message s) (AgentState.thread_id s)
  | set_platform v =>
      AgentState.mk (AgentState.messages s) (AgentState.topic s) v
        (AgentState.tone s) (AgentState.additional_context s)
        (AgentState.post_content s) (AgentState.status s)
        (AgentState.human_feedback s)
        (AgentState.generation_attempts s)
        (AgentState.max_attempts s) (AgentState.published_url s)
        (AgentState.error_message s) (AgentState.thread_id s)
  | set_tone v =>
      AgentState.mk (AgentState.messages s) (AgentState.topic s)
        (AgentState.platform s) v (AgentState.additional_context s)
        (AgentState.post_content s) (AgentState.status s)
        (AgentState.human_feedback s)
        (AgentState.generation_attempts s)
        (AgentState.max_attempts s) (AgentState.published_url s)
        (AgentState.error_message s) (AgentState.thread_id s)
  | set_additional_context v =>
      AgentState.mk (AgentState.messages s) (AgentState.topic s)
        (AgentState.platform s) (AgentState.tone s) v
        (AgentState.post_content s) (AgentState.status s)
        (AgentState.human_feedback s)
        (AgentState.generation_attempts s)
        (AgentState.max_attempts s) (AgentState.published_url s)
        (AgentState.error_message s) (AgentState.thread_id s)
  | set_post_content v =>
      AgentState.mk (AgentState.messages s) (AgentState.topic s)
        (AgentState.platform s) (AgentState.tone s)
        (AgentState.additional_context s) v (AgentState.status s)
        (AgentState.human_feedback s)
        (AgentState.generation_attempts s)
        (AgentState.max_attempts s) (AgentState.published_url s)
        (AgentState.error_message s) (AgentState.thread_id s)
  | set_status v =>
      AgentState.mk (AgentState.messages s) (AgentState.topic s)
        (AgentState.platform s) (AgentState.tone s)
        (AgentState.additional_context s)
        (AgentState.post_content s) v (AgentState.human_feedback s)
        (AgentState.generation_attempts s)
        (AgentState.max_attempts s) (AgentState.published_url s)
        (AgentState.error_message s) (AgentState.thread_id s)
  | set_human_feedback v =>
      AgentState.mk (AgentState.messages s) (AgentState.topic s)
        (AgentState.platform s) (AgentState.tone s)
        (AgentState.additional_context s)
        (AgentState.post_content s) (AgentState.status s) v
        (AgentState.generation_attempts s)
        (AgentState.max_attempts s) (AgentState.published_url s)
        (AgentState.error_message s) (AgentState.thread_id s)
  | set_generation_attempts v =>
      AgentState.mk (AgentState.messages s) (AgentState.topic s)
        (AgentState.platform s) (AgentState.tone s)
        (AgentState.additional_context s)
        (AgentState.post_content s) (AgentState.status s)
        (AgentState.human_feedback s) v (AgentState.max_attempts s)
        (AgentState.published_url s) (AgentState.error_message s)
        (AgentState.thread_id s)
  | set_max_attempts v =>
      AgentState.mk (AgentState.messages s) (AgentState.topic s)
        (AgentState.platform s) (AgentState.tone s)
        (AgentState.additional_context s)
        (AgentState.post_content s) (AgentState.status s)
        (AgentState.human_feedback s)
        (AgentState.generation_attempts s) v
        (AgentState.published_url s) (AgentState.error_message s)
        (AgentState.thread_id s)
  | set_published_url v =>
      AgentState.mk (AgentState.messages s) (AgentState.topic s)
        (AgentState.platform s) (AgentState.tone s)
        (AgentState.additional_context s)
        (AgentState.post_content s) (AgentState.status s)
        (AgentState.human_feedback s)
        (AgentState.generation_attempts s)
        (AgentState.max_attempts s) v (AgentState.error_message s)
        (AgentState.thread_id s)
  | set_error_message v =>
      AgentState.mk (AgentState.messages s) (AgentState.topic s)
        (AgentState.platform s) (AgentState.tone s)
        (AgentState.additional_context s)
        (AgentState.post_content s) (AgentState.status s)
        (AgentState.human_feedback s)
        (AgentState.generation_attempts s)
        (AgentState.max_attempts s) (AgentState.published_url s) v
        (AgentState.thread_id s)
  | set_thread_id v =>
      AgentState.mk (AgentState.messages s) (AgentState.topic s)
        (AgentState.platform s) (AgentState.tone s)
        (AgentState.additional_context s)
        (AgentState.post_content s) (AgentState.status s)
        (AgentState.human_feedback s)
        (AgentState.generation_attempts s)
        (AgentState.max_attempts s) (AgentState.published_url s)
        (AgentState.error_message s) v
  end.

Definition apply_update (s : AgentState.t) (u : update) : AgentState.t :=
  fold_left apply_field u s.

(* ===================================================================== *)
(** ** External collaborators *)
(* ===================================================================== *)

(** Outcome of a fallible computation: a value or a raised exception
    (carried as its message, [str(e)]). *)
Inductive result (A : Type) :=
| Ok (a : A)
| Exception (msg : string).
Arguments Ok {A} a.
Arguments Exception {A} msg.

(** Reply of the language model to one chain invocation: the [content] of
    the response, or an exception. *)
Inductive llm_reply :=
| LlmContent (content : string)
| LlmError (msg : string).

(** Outcome of [get_connector(platform)] followed by
    [connector.publish(text)]: the returned dict, of which the node reads
    the [url] entry only (absent, [None], or a string), or an exception
    raised anywhere on the way. *)
Inductive publish_outcome :=
| PublishOk (url : option (option string))
| PublishError (msg : string).

(** [result.get("url")] *)
Definition result_get_url (url : option (option string)) : option string :=
  match url with
  | Some v => v
  | None => None
  end.

(** [result.get('url', 'N/A')] as printed inside an f-string. *)
Definition result_get_url_or_NA (url : option (option string)) : string :=
  match url with
  | Some (Some u) => u
  | Some None => "None"
  | None => "N/A"
  end.

(** A value of the dict form of a resume value: [None], a [str] or an
    [int] (the kinds of value that the two callers of the graph and a
    JSON client can put there are not all modelled). *)
Inductive PyVal :=
| PyNone
| PyStr (s : string)
| PyInt (n : Z).

(** The resume value handed to [interrupt]: [str | dict]. *)
Inductive resume_value :=
| ResumeStr (s : string)
| ResumeDict (d : gmap string PyVal).

(** The external inputs of one graph invocation, indexed by the superstep
    in which they are consumed. *)
Record world := {
  llm_post : nat -> llm_reply;      (* reply of the post chain *)
  llm_tags : nat -> llm_reply;      (* reply of the hashtag chain *)
  utcnow : nat -> Z;                (* clock *)
  connector : nat -> Platform -> string -> publish_outcome
}.

(** The payload passed to [interrupt] by the approval node. *)
Record approval_request := {
  type : string;
  post_text : string;
  platform : string;
  char_count : Z;
  generation_attempt : Z;
  instructions : string
}.

(** What running a node produces: a partial update, a suspension, or an
    exception. *)
Inductive node_result :=
| Return (u : update)
| Interrupt (payload : approval_request)
| Raise (msg : string).

(** The two pictographs of the publish messages lie outside the modelled
    character range and are carried as their UTF-8 bytes. *)
Definition check_mark : string :=
  String (ascii_of_N 226) (String (ascii_of_N 156) (String (ascii_of_N 133) "")).
Definition cross_mark : string :=
  String (ascii_of_N 226) (String (ascii_of_N 157) (String (ascii_of_N 140) "")).

(* ===================================================================== *)
(** ** src/agent/nodes.py *)
(* ===================================================================== *)

Module nodes.

(** [num_hashtags = 3 if state.platform == Platform.TWITTER else 5] *)
Definition num_hashtags (p : Platform) : nat :=
  match p with TWITTER => 3%nat | LINKEDIN => 5%nat end.

(** The list comprehension that turns the hashtag reply into tags. *)
Definition parse_hashtags (content : string) : list string :=
  map (fun tag => PyStr.lstrip_char "#" (PyStr.strip tag))
    (List.filter (fun tag => PyStr.truthy (PyStr.strip tag))
       (PyStr.split PyStr.LF (PyStr.strip content))).

(** [generate_post].  The prompts are arguments of the external model
    calls, whose replies [post_reply] and [hashtag_reply] are inputs;
    [now] is the clock read by the [PostContent] constructor. *)
Definition generate_post (post_reply hashtag_reply : llm_reply) (now : Z)
    (state : AgentState.t) : node_result :=
  match post_reply with
  | LlmError e => Raise e
  | LlmContent content =>
      let post_text := PyStr.strip content in
      let num_hashtags := num_hashtags (AgentState.platform state) in
      match hashtag_reply with
      | LlmError e => Raise e
      | LlmContent hashtag_content =>
          let hashtags := parse_hashtags hashtag_content in
          let post_content :=
            {| PostContent.text := post_text;
               PostContent.platform := AgentState.platform state;
               PostContent.hashtags := take num_hashtags hashtags;
               PostContent.created_at := now |} in
          Return
            [ set_post_content (Some post_content);
              set_status PENDING_APPROVAL;
              set_generation_attempts (AgentState.generation_attempts state + 1);
              set_messages
                [ AIMessage
                    ("Generated " +:+ platform_value (AgentState.platform state)
                     +:+ " post:" +:+ PyStr.nl +:+ PyStr.nl
                     +:+ PostContent.formatted_text post_content) ] ]
      end
  end.

(** Pydantic validation of an optional [str] field given by keyword. *)
Definition optional_str (v : option PyVal) : option (option string) :=
  match v with
  | None => Some None
  | Some PyNone => Some None
  | Some (PyStr s) => Some (Some s)
  | Some (PyInt _) => None
  end.

(** The constructor call of [HumanFeedback] on the unpacked dict:
    [action] is required and must be one of
    the three literals; the two other fields are optional strings; keys
    that are not fields are ignored.  A refusal raises pydantic's
    [ValidationError]; the text that pydantic composes for it (the field,
    the input and a link) is not modelled, and the exception is carried
    under the name of its class. *)
Definition HumanFeedback_of_dict (d : gmap string PyVal)
    : result HumanFeedback.t :=
  match d !! "action" with
  | Some (PyStr a) =>
      match action_of_string a,
            optional_str (d !! "edited_text"),
            optional_str (d !! "feedback_message") with
      | Some act, Some et, Some fm => Ok (HumanFeedback.mk act et fm)
      | _, _, _ => Exception "ValidationError"
      end
  | _ => Exception "ValidationError"
  end.

(** [_parse_human_response] *)
Definition _parse_human_response (response : resume_value)
    : result HumanFeedback.t :=
  match response with
  | ResumeDict d => HumanFeedback_of_dict d
  | ResumeStr response =>
      let response_str := PyStr.lower (PyStr.strip response) in
      if String.eqb response_str "approve" then
        Ok (HumanFeedback.mk approve None None)
      else if String.eqb response_str "reject" then
        Ok (HumanFeedback.mk reject None None)
      else if PyStr.startswith "edit:" response_str then
        let edited_text := PyStr.strip (PyStr.slice_from 5 response_str) in
        Ok (HumanFeedback.mk edit (Some edited_text) None)
      else
        Ok (HumanFeedback.mk approve None
              (Some ("Unclear response: " +:+ response)))
  end.

Definition approval_instructions : string :=
  "Please review this post and respond with one of:" +:+ PyStr.nl
  +:+ "- 'approve' to publish as-is" +:+ PyStr.nl
  +:+ "- 'reject' to regenerate" +:+ PyStr.nl
  +:+ "- 'edit: <your edited text>' to publish with modifications".

(** [request_approval].  [resume] is what [interrupt] finds: [None] when
    no resume value is waiting (the node suspends with the payload),
    [Some v] when the invocation resumes this node with [v]. *)
Definition request_approval (resume : option resume_value)
    (state : AgentState.t) : node_result :=
  match AgentState.post_content state with
  | None => Return [ set_error_message (Some "No post content to approve") ]
  | Some post_content =>
      let approval_request :=
        {| type := "approval_request";
           post_text := PostContent.formatted_text post_content;
           platform := platform_value (AgentState.platform state);
           char_count := PostContent.char_count post_content;
           generation_attempt := AgentState.generation_attempts state;
           instructions := approval_instructions |} in
      match resume with
      | None => Interrupt approval_request
      | Some human_response =>
          match _parse_human_response human_response with
          | Exception e => Raise e
          | Ok feedback =>
              Return
                [ set_human_feedback (Some feedback);
                  set_messages
                    [ HumanMessage
                        ("Human feedback: "
                         +:+ action_value (HumanFeedback.action feedback)) ] ]
          end
      end
  end.

(** Truthiness of [feedback.edited_text]: present and non-empty. *)
Definition truthy_text (t : option string) : option string :=
  match t with
  | Some s => if PyStr.truthy s then Some s else None
  | None => None
  end.

(** [process_feedback]; [now] is the clock read when the edited
    [PostContent] is constructed.  The last [return] of the source, after
    the three comparisons of [feedback.action], cannot be reached with a
    validated [HumanFeedback]. *)
Definition process_feedback (now : Z) (state : AgentState.t) : update :=
  match AgentState.human_feedback state with
  | None => [ set_status PENDING_APPROVAL ]
  | Some feedback =>
      match HumanFeedback.action feedback with
      | approve => [ set_status APPROVED ]
      | reject =>
          if (AgentState.generation_attempts state >=? AgentState.max_attempts state)%Z
          then
            [ set_status FAILED;
              set_error_message
                (Some ("Max generation attempts ("
                       +:+ PyStr.of_int (AgentState.max_attempts state)
                       +:+ ") reached")) ]
          else
            [ set_status DRAFT;
              set_human_feedback None ]
      | edit =>
          match AgentState.post_content state,
                truthy_text (HumanFeedback.edited_text feedback) with
          | Some post_content, Some edited_text =>
              let updated_content :=
                {| PostContent.text := edited_text;
                   PostContent.platform := AgentState.platform state;
                   PostContent.hashtags := PostContent.hashtags post_content;
                   PostContent.created_at := now |} in
              [ set_post_content (Some updated_content);
                set_status APPROVED ]
          | _, _ => [ set_status APPROVED ]
          end
      end
  end.

(** One call of the publish collaborator: the platform whose connector is
    used and the text handed to [publish]. *)
Definition publish_call : Type := Platform * string.

(** [publish_post]: the update, and the calls made to the connector. *)
Definition publish_post (connector : Platform -> string -> publish_outcome)
    (state : AgentState.t) : update * list publish_call :=
  match AgentState.post_content state with
  | None =>
      ([ set_status FAILED;
         set_error_message (Some "No post content to publish") ], [])
  | Some post_content =>
      let content := PostContent.formatted_text post_content in
      let calls := [ (AgentState.platform state, content) ] in
      match connector (AgentState.platform state) content with
      | PublishOk url =>
          ([ set_status PUBLISHED;
             set_published_url (result_get_url url);
             set_messages
               [ AIMessage
                   (check_mark +:+ " Successfully published to "
                    +:+ platform_value (AgentState.platform state) +:+ "!"
                    +:+ PyStr.nl +:+ "URL: " +:+ result_get_url_or_NA url) ] ],
           calls)
      | PublishError e =>
          ([ set_status FAILED;
             set_error_message (Some e);
             set_messages
               [ AIMessage (cross_mark +:+ " Failed to publish: " +:+ e) ] ],
           calls)
      end
  end.

(** [should_regenerate] *)
Definition should_regenerate (state : AgentState.t) : string :=
  match AgentState.status state with
  | APPROVED => "publish"
  | DRAFT => "generate"
  | _ => "end"
  end.

End nodes.

(* ===================================================================== *)
(** ** src/agent/graph.py, and the loop that executes the compiled graph *)
(* ===================================================================== *)

Module graph.

(** The names under which [create_graph] registers the four nodes. *)
Inductive node_name :=
| generate | request_approval | process_feedback | publish.

(** Where an edge leads: a node or the end marker. *)
Inductive target :=
| Node (n : node_name)
| END.

Definition entry_point : node_name := generate.

(** The mapping given to [add_conditional_edges]. *)
Definition path_map (k : string) : option target :=
  if String.eqb k "publish" then Some (Node publish)
  else if String.eqb k "generate" then Some (Node generate)
  else if String.eqb k "end" then Some END
  else None.

(** The edge taken after node [n] has run and its update was merged into
    [state]. *)
Definition next_target (n : node_name) (state : AgentState.t) : option target :=
  match n with
  | generate => Some (Node request_approval)
  | request_approval => Some (Node process_feedback)
  | process_feedback => path_map (nodes.should_regenerate state)
  | publish => Some END
  end.

(** What is observed of an invocation: completed node executions and
    calls to the publish collaborator. *)
Inductive event :=
| NodeRun (n : node_name)
| PublishCall (c : nodes.publish_call).

(** One node execution in superstep [step]; [resume] is the resume value
    available to [interrupt], if any. *)
Definition run_node (w : world) (step : nat) (resume : option resume_value)
    (n : node_name) (state : AgentState.t) : node_result * list event :=
  match n with
  | generate =>
      (nodes.generate_post (llm_post w step) (llm_tags w step) (utcnow w step) state, [])
  | request_approval => (nodes.request_approval resume state, [])
  | process_feedback => (Return (nodes.process_feedback (utcnow w step) state), [])
  | publish =>
      let '(u, calls) := nodes.publish_post (connector w step) state in
      (Return u, map PublishCall calls)
  end.

(** A checkpoint: the state values and the node to execute next.  A
    thread suspended by an interrupt has the interrupted node as [next],
    which is executed again from its first line on resume. *)
Record checkpoint := {
  values : AgentState.t;
  next : target
}.

Inductive ending :=
| Finished
| Interrupted (payload : approval_request)
| Raised (msg : string).

Record run_result := {
  final : checkpoint;   (* the last checkpoint written *)
  outcome : ending;
  trace : list event
}.

Definition observe (evs : list event) (r : run_result) : run_result :=
  {| final := final r; outcome := outcome r; trace := evs ++ trace r |}.

(** The execution loop: run the current node, merge its update, write the
    checkpoint, follow the edge; stop at the end marker, at an interrupt
    or at an exception.  [fuel] is the recursion limit of the library.
    A resume value is offered to the first superstep only. *)
Fixpoint run (fuel : nat) (w : world) (step : nat)
    (resume : option resume_value) (cur : target) (state : AgentState.t)
    : run_result :=
  match cur with
  | END => {| final := {| values := state; next := END |};
              outcome := Finished; trace := [] |}
  | Node n =>
      let here := {| values := state; next := Node n |} in
      match fuel with
      | O => {| final := here; outcome := Raised "GraphRecursionError"; trace := [] |}
      | S fuel' =>
          match run_node w step resume n state with
          | (Return u, evs) =>
              let state' := apply_update state u in
              match next_target n state' with
              | Some cur' =>
                  observe (NodeRun n :: evs) (run fuel' w (S step) None cur' state')
              | None =>
                  {| final := here; outcome := Raised "KeyError"; trace := [] |}
              end
          | (Interrupt payload, _) =>
              {| final := here; outcome := Interrupted payload; trace := [] |}
          | (Raise e, _) =>
              {| final := here; outcome := Raised e; trace := [] |}
          end
      end
  end.

(** Default recursion limit of a compiled graph. *)
Definition recursion_limit : nat := 25.

(** [ainvoke(initial_state.model_dump(), config)] on a new thread. *)
Definition ainvoke_input (w : world) (input : AgentState.t) : run_result :=
  run recursion_limit w 0 None (Node entry_point) input.

(** [ainvoke(Command(resume=v), config)] on a thread whose latest
    checkpoint is [ck]. *)
Definition ainvoke_resume (w : world) (v : resume_value) (ck : checkpoint)
    : run_result :=
  run recursion_limit w 0 (Some v) (next ck) (values ck).

#[global] Instance node_name_eq_dec : EqDecision node_name.
Proof. solve_decision. Defined.

(** Number of completed executions of node [n] in a trace. *)
Definition is_run (n : node_name) (e : event) : bool :=
  match e with
  | NodeRun m => bool_decide (m = n)
  | PublishCall _ => false
  end.

Definition executions (n : node_name) (evs : list event) : nat :=
  List.length (List.filter (is_run n) evs).

End graph.

(* ===================================================================== *)
(** ** src/web/api.py: the two endpoints that drive a thread *)
(* ===================================================================== *)

(** [status in [PostStatus.PUBLISHED.value, PostStatus.FAILED.value]] *)
Definition terminal (s : PostStatus) : bool :=
  match s with PUBLISHED | FAILED => true | _ => false end.

Module api.

(** An entry of the module-level dict [pending_threads]. *)
Record pending_thread := {
  topic : string;
  platform : string;
  result : AgentState.t
}.

(** The module-level state of the server: the checkpoints held by the
    [MemorySaver] of [compiled_graph], and [pending_threads]. *)
Record server := {
  checkpointer : gmap string graph.checkpoint;
  pending_threads : gmap string pending_thread
}.

Definition startup : server :=
  {| checkpointer := ∅; pending_threads := ∅ |}.

Record GeneratePostRequest := {
  gen_topic : string;
  gen_platform : Platform;
  gen_tone : string;
  gen_additional_context : string
}.

(** The request body of the approval endpoint, after validation of
    [action] against its pattern. *)
Record ApprovalRequest := {
  action : Action;
  edited_text : option string;
  feedback_message : option string
}.

Record PostResponse := {
  resp_thread_id : string;
  resp_status : string;
  resp_post_text : option string;
  resp_platform : string;
  resp_char_count : option Z;
  resp_published_url : option string;
  resp_error_message : option string
}.

(** What a handler produces: a response body or a raised
    [HTTPException(status_code, detail)]. *)
Inductive http (A : Type) :=
| Response (body : A)
| HTTPException (status_code : Z) (detail : string).
Arguments Response {A} body.
Arguments HTTPException {A} status_code detail.

Definition of_optional_str (v : option string) : PyVal :=
  match v with Some s => PyStr s | None => PyNone end.

(** The [feedback] dict built by [approve_post]. *)
Definition feedback_payload (request : ApprovalRequest) : gmap string PyVal :=
  <["action" := PyStr (action_value (action request))]>
    (<["edited_text" := of_optional_str (edited_text request)]>
       (<["feedback_message" := of_optional_str (feedback_message request)]> ∅)).

(** [generate_post] (POST /posts/generate); [thread_id] is the value
    drawn by [uuid.uuid4()].  The graph result holds the draft as a
    [PostContent] object, on which the [.get] of the response
    construction raises [AttributeError] inside the [try]. *)
Definition generate_post (w : world) (thread_id : string)
    (request : GeneratePostRequest) (srv : server)
    : http PostResponse * server :=
  let initial_state :=
    AgentState.create (gen_topic request) (gen_platform request)
      (gen_tone request) (gen_additional_context request) thread_id in
  let r := graph.ainvoke_input w initial_state in
  let saved := <[thread_id := graph.final r]> (checkpointer srv) in
  match graph.outcome r with
  | graph.Raised e =>
      (HTTPException 500 e,
       {| checkpointer := saved; pending_threads := pending_threads srv |})
  | _ =>
      let result := graph.values (graph.final r) in
      let pending :=
        <[thread_id := {| topic := gen_topic request;
                          platform := platform_value (gen_platform request);
                          result := result |}]> (pending_threads srv) in
      let srv' := {| checkpointer := saved; pending_threads := pending |} in
      match AgentState.post_content result with
      | Some _ =>
          (HTTPException 500 "'PostContent' object has no attribute 'get'", srv')
      | None =>
          (Response
             {| resp_thread_id := thread_id;
                resp_status := status_value (AgentState.status result);
                resp_post_text := None;
                resp_platform := platform_value (gen_platform request);
                resp_char_count := None;
                resp_published_url := None;
                resp_error_message := None |}, srv')
      end
  end.

(** [approve_post] (POST /posts/{thread_id}/approve) *)
Definition approve_post (w : world) (thread_id : string)
    (request : ApprovalRequest) (srv : server)
    : http PostResponse * server :=
  match pending_threads srv !! thread_id with
  | None => (HTTPException 404 "Thread not found", srv)
  | Some entry =>
      let feedback := feedback_payload request in
      match checkpointer srv !! thread_id with
      | None =>
          (* a pending thread always has a checkpoint, see
             [reachable_consistent]; the library call is taken to fail *)
          (HTTPException 500 "no checkpoint", srv)
      | Some ck =>
          let r := graph.ainvoke_resume w (ResumeDict feedback) ck in
          let saved := <[thread_id := graph.final r]> (checkpointer srv) in
          match graph.outcome r with
          | graph.Raised e =>
              (HTTPException 500 e,
               {| checkpointer := saved; pending_threads := pending_threads srv |})
          | _ =>
              let result := graph.values (graph.final r) in
              let pending :=
                if terminal (AgentState.status result)
                then delete thread_id (pending_threads srv)
                else <[thread_id := {| topic := topic entry;
                                       platform := platform entry;
                                       result := result |}]> (pending_threads srv) in
              (Response
                 {| resp_thread_id := thread_id;
                    resp_status := status_value (AgentState.status result);
                    resp_post_text :=
                      PostContent.formatted_text <$> AgentState.post_content result;
                    resp_platform :=
                      default "twitter" (platform <$> pending !! thread_id);
                    resp_char_count := None;
                    resp_published_url := AgentState.published_url result;
                    resp_error_message := AgentState.error_message result |},
               {| checkpointer := saved; pending_threads := pending |})
          end
      end
  end.

(** The servers that the two endpoints can produce from [startup]; the
    identifier drawn by [uuid4] is new. *)
Inductive reachable : server -> Prop :=
| reach_startup : reachable startup
| reach_generate srv w thread_id request :
    reachable srv ->
    checkpointer srv !! thread_id = None ->
    reachable (generate_post w thread_id request srv).2
| reach_approve srv w thread_id request :
    reachable srv ->
    reachable (approve_post w thread_id request srv).2.

(** Every pending thread has a checkpoint whose status is not terminal. *)
Definition consistent (srv : server) : Prop :=
  forall thread_id entry,
    pending_threads srv !! thread_id = Some entry ->
    exists ck, checkpointer srv !! thread_id = Some ck
               /\ terminal (AgentState.status (graph.values ck)) = false.

End api.

(* ===================================================================== *)
(** ** A thread driven through several approval rounds *)
(* ===================================================================== *)

Module thread.

(** One approval round: the value the human resumes with, and the
    external inputs of the invocation that the resume starts. *)
Definition round : Type := resume_value * world.

(** Resume the thread once per round, each time from the checkpoint the
    previous invocation left; the trace accumulates. *)
Fixpoint resume_all (rounds : list round) (r : graph.run_result)
    : graph.run_result :=
  match rounds with
  | [] => r
  | (v, w) :: rest =>
      resume_all rest
        (graph.observe (graph.trace r) (graph.ainvoke_resume w v (graph.final r)))
  end.

(** A new thread: the first invocation on the initial state, then the
    rounds. *)
Definition start_then_resume (w0 : world) (initial : AgentState.t)
    (rounds : list round) : graph.run_result :=
  resume_all rounds (graph.ainvoke_input w0 initial).

(** The language model answers every call of the invocation. *)
Definition llm_replies (w : world) : Prop :=
  forall k, exists c1 c2,
    llm_post w k = LlmContent c1 /\ llm_tags w k = LlmContent c2.

(** The resume value is normalized to a rejection. *)
Definition is_rejection (v : resume_value) : Prop :=
  exists fb, nodes._parse_human_response v = Ok fb
             /\ HumanFeedback.action fb = reject.

Definition rejecting_round (rd : round) : Prop :=
  is_rejection rd.1 /\ llm_replies rd.2.

(** The thread is suspended at the approval node after [k] executions of
    the draft node, [k] being also its attempt counter, with budget [m]. *)
Definition awaiting_approval (m k : Z) (r : graph.run_result) : Prop :=
  let s := graph.values (graph.final r) in
  graph.next (graph.final r) = graph.Node graph.request_approval
  /\ (exists p, graph.outcome r = graph.Interrupted p)
  /\ (exists pc, AgentState.post_content s = Some pc)
  /\ AgentState.status s = PENDING_APPROVAL
  /\ AgentState.generation_attempts s = k
  /\ AgentState.max_attempts s = m
  /\ 1 <= k
  /\ graph.executions graph.generate (graph.trace r) = Z.to_nat k.

End thread.

(* ===================================================================== *)
(** ** The specification's wording of the rendered text *)
(* ===================================================================== *)

(** The rendered text as the specification words it: the body, a blank
    line, then the hashtags, each prefixed with [#] and joined by single
    spaces. *)
Definition rendered_text_spec (draft : PostContent.t) : string :=
  PostContent.text draft +:+ PyStr.nl +:+ PyStr.nl
  +:+ PyStr.join " " (map (fun tag => "#" +:+ tag) (PostContent.hashtags draft)).

(** A resume value that is none of the literal forms the specification
    lists: not a dict, not the string [approve], not the string [reject],
    not a string that starts with [edit:]. *)
Definition unrecognized_literally (v : resume_value) : Prop :=
  match v with
  | ResumeDict _ => False
  | ResumeStr s =>
      s <> "approve" /\ s <> "reject" /\ PyStr.startswith "edit:" s = false
  end.

(** The fail-open result: action [approve] with a non-empty message. *)
Definition approves_with_diagnostic (r : result HumanFeedback.t) : Prop :=
  exists fb m,
    r = Ok fb /\ HumanFeedback.action fb = approve
    /\ HumanFeedback.feedback_message fb = Some m /\ m <> "".

(** The per-platform bound on the number of hashtags of a draft. *)
Definition hashtag_limit (p : Platform) : nat :=
  match p with TWITTER => 3%nat | LINKEDIN => 5%nat end.

(** The draft of a state, when present, is for the platform of the state
    and respects the bound of that platform. *)
Definition draft_within_limit (s : AgentState.t) : Prop :=
  forall pc, AgentState.post_content s = Some pc ->
    PostContent.platform pc = AgentState.platform s
    /\ (List.length (PostContent.hashtags pc) <= hashtag_limit (PostContent.platform pc))%nat.

(* ===================================================================== *)
(** ** src/config.py *)
(* ===================================================================== *)

Module config.

(** [Settings]; [llm_provider] is one of the two literals. *)
Inductive LlmProvider := openai | anthropic.

Record Settings := {
  openai_api_key : string;
  anthropic_api_key : string;
  llm_provider : LlmProvider;
  llm_model : string;
  twitter_api_key : string;
  twitter_api_secret : string;
  twitter_access_token : string;
  twitter_access_secret : string;
  twitter_bearer_token : string;
  linkedin_client_id : string;
  linkedin_client_secret : string;
  linkedin_access_token : string;
  database_url : string;
  host : string;
  port : Z;
  debug : bool
}.

(** property [twitter_configured] *)
Definition twitter_configured (self : Settings) : bool :=
  PyStr.truthy (twitter_api_key self)
  && PyStr.truthy (twitter_api_secret self)
  && PyStr.truthy (twitter_access_token self)
  && PyStr.truthy (twitter_access_secret self).

(** property [linkedin_configured] *)
Definition linkedin_configured (self : Settings) : bool :=
  PyStr.truthy (linkedin_access_token self).

End config.

(* ===================================================================== *)
(** ** src/connectors: base.py, twitter.py, linkedin.py, __init__.py *)
(* ===================================================================== *)

Module connectors.

(** Outcome of one call to a platform's web API: the value the connector
    reads from the reply, or an exception. *)
Inductive api_outcome (A : Type) :=
| Replied (a : A)
| Failed (msg : string).
Arguments Replied {A} a.
Arguments Failed {A} msg.

(** What the connectors depend on: the settings returned by
    [get_settings()] and the replies of the two web APIs. *)
Record environment := {
  settings : config.Settings;
  (* [client.create_tweet(text=content)]: [response.data["id"]] *)
  create_tweet : string -> api_outcome string;
  (* GET /userinfo: [data['sub']] *)
  linkedin_userinfo : api_outcome string;
  (* POST /ugcPosts with author and text: the [id] entry of the reply,
     when present *)
  linkedin_ugc_post : string -> string -> api_outcome (option string)
}.

(** property [platform_name] of the connector class of a platform *)
Definition platform_name (p : Platform) : string :=
  match p with TWITTER => "Twitter/X" | LINKEDIN => "LinkedIn" end.

(** property [max_length] of the connector class of a platform *)
Definition max_length (p : Platform) : Z :=
  match p with TWITTER => 280 | LINKEDIN => 3000 end.

(** [BaseConnector.validate_content] *)
Definition validate_content (p : Platform) (content : string) : bool * string :=
  if (PyStr.len content >? max_length p)%Z then
    (false,
     "Content exceeds " +:+ platform_name p +:+ " limit of "
     +:+ PyStr.of_int (max_length p) +:+ " characters")
  else if negb (PyStr.truthy (PyStr.strip content)) then
    (false, "Content cannot be empty")
  else (true, "").

Definition twitter_not_configured : string :=
  "Twitter credentials not configured. "
  +:+ "Please set TWITTER_API_KEY, TWITTER_API_SECRET, "
  +:+ "TWITTER_ACCESS_TOKEN, and TWITTER_ACCESS_SECRET.".

Definition linkedin_not_configured : string :=
  "LinkedIn credentials not configured. "
  +:+ "Please set LINKEDIN_ACCESS_TOKEN.".

(** [TwitterConnector.publish(content)] without keyword arguments, on a
    newly constructed connector. *)
Definition twitter_publish (env : environment) (content : string)
    : publish_outcome :=
  let '(is_valid, error) := validate_content TWITTER content in
  if negb is_valid then PublishError error
  else if negb (config.twitter_configured (settings env)) then
    PublishError twitter_not_configured
  else
    match create_tweet env content with
    | Failed e => PublishError e
    | Replied tweet_id =>
        let tweet_url := "https://twitter.com/user/status/" +:+ tweet_id in
        PublishOk (Some (Some tweet_url))
    end.

(** [LinkedInConnector.publish(content)] without keyword arguments, on a
    newly constructed connector (no cached user URN). *)
Definition linkedin_publish (env : environment) (content : string)
    : publish_outcome :=
  let '(is_valid, error) := validate_content LINKEDIN content in
  if negb is_valid then PublishError error
  else if negb (config.linkedin_configured (settings env)) then
    PublishError linkedin_not_configured
  else
    match linkedin_userinfo env with
    | Failed e => PublishError e
    | Replied sub =>
        let user_urn := "urn:li:person:" +:+ sub in
        match linkedin_ugc_post env user_urn content with
        | Failed e => PublishError e
        | Replied id =>
            let post_id := default "" id in
            let post_url := "https://www.linkedin.com/feed/update/" +:+ post_id in
            PublishOk (Some (Some post_url))
        end
    end.

(** [get_connector(platform)] followed by [publish(content)]. *)
Definition publish (env : environment) (p : Platform) (content : string)
    : publish_outcome :=
  match p with
  | TWITTER => twitter_publish env content
  | LINKEDIN => linkedin_publish env content
  end.

End connectors.

(* ===================================================================== *)
(** ** src/web/api.py: the listing of pending posts *)
(* ===================================================================== *)

Module api_pending.

Record PendingPost := {
  thread_id : string;
  topic : string;
  platform : string;
  post_text : string;
  char_count : Z;
  generation_attempt : Z
}.

(** The body of the loop of [list_pending_posts]: the entry appended for
    one item of [pending_threads], if any. *)
Definition pending_post (thread_id : string) (data : api.pending_thread)
    : option PendingPost :=
  let result := api.result data in
  match AgentState.post_content result with
  | Some post_content =>
      if decide (AgentState.status result = PENDING_APPROVAL) then
        Some {| thread_id := thread_id;
                topic := api.topic data;
                platform := api.platform data;
                post_text := PostContent.formatted_text post_content;
                char_count := PostContent.char_count post_content;
                generation_attempt := AgentState.generation_attempts result |}
      else None
  | None => None
  end.

(** [list_pending_posts] (GET /posts/pending).  The response follows the
    iteration order of the dict; the map used for [pending_threads] does
    not record insertion order, so only the contents of the list are
    meaningful here. *)
Definition list_pending_posts (srv : api.server) : list PendingPost :=
  omap (fun item => pending_post item.1 item.2)
    (map_to_list (api.pending_threads srv)).

(** The checkpoint of a thread that waits for the human's answer: it is
    at the approval node with a draft and the status [PENDING_APPROVAL]. *)
Definition suspended (ck : graph.checkpoint) : Prop :=
  graph.next ck = graph.Node graph.request_approval
  /\ (exists pc, AgentState.post_content (graph.values ck) = Some pc)
  /\ AgentState.status (graph.values ck) = PENDING_APPROVAL.

(** The checkpoint of a thread whose regeneration raised: it is at the
    draft node with the status [DRAFT]. *)
Definition stalled (ck : graph.checkpoint) : Prop :=
  graph.next ck = graph.Node graph.generate
  /\ AgentState.status (graph.values ck) = DRAFT.

(** Every pending thread is suspended or stalled, and the result stored
    with it has a draft and the status [PENDING_APPROVAL]. *)
Definition well_formed (srv : api.server) : Prop :=
  forall thread_id entry,
    api.pending_threads srv !! thread_id = Some entry ->
    (exists ck, api.checkpointer srv !! thread_id = Some ck
                /\ (suspended ck \/ stalled ck))
    /\ (exists pc, AgentState.post_content (api.result entry) = Some pc)
    /\ AgentState.status (api.result entry) = PENDING_APPROVAL.

End api_pending.

(** A trace holds a call of the publish collaborator. *)
Definition publishes (evs : list graph.event) : Prop :=
  exists c, In (graph.PublishCall c) evs.

(** The calls of the publish collaborator in a trace, in order. *)
Definition publish_calls (evs : list graph.event) : list nodes.publish_call :=
  omap (fun e => match e with
                 | graph.PublishCall c => Some c
                 | graph.NodeRun _ => None
                 end) evs.

(** The fields of a state that are set when the thread is created. *)
Definition inputs (s : AgentState.t)
    : string * Platform * string * string * Z * string :=
  (AgentState.topic s, AgentState.platform s, AgentState.tone s,
   AgentState.additional_context s, AgentState.max_attempts s,
   AgentState.thread_id s).

(** The state after the approval node has stored the feedback [fb]. *)
Definition with_feedback (s : AgentState.t) (fb : HumanFeedback.t) : AgentState.t :=
  apply_update s
    [ set_human_feedback (Some fb);
      set_messages
        [ HumanMessage ("Human feedback: " +:+ action_value (HumanFeedback.action fb)) ] ].

(** The message of the validation for content over the limit. *)
Definition exceeds_message (p : Platform) : string :=
  "Content exceeds " +:+ connectors.platform_name p +:+ " limit of "
  +:+ PyStr.of_int (connectors.max_length p) +:+ " characters".

(** The credentials that the connector of a platform needs are set. *)
Definition configured (env : connectors.environment) (p : Platform) : bool :=
  match p with
  | TWITTER => config.twitter_configured (connectors.settings env)
  | LINKEDIN => config.linkedin_configured (connectors.settings env)
  end.

(** The message a connector raises when they are not. *)
Definition not_configured_message (p : Platform) : string :=
  match p with
  | TWITTER => connectors.twitter_not_configured
  | LINKEDIN => connectors.linkedin_not_configured
  end.

(** A round is answered by a rejection, whatever the model does in the
    invocation that the resume starts. *)
Definition rejected (rd : thread.round) : Prop := thread.is_rejection rd.1.

(** The thread is stalled at the draft node: its last invocation raised
    there, after [k] completed executions of the draft node, [k] being
    also its attempt counter, below the budget [m]; its status is
    [DRAFT], or still the one it was created with. *)
Definition stalled_at_draft (created : PostStatus) (m k : Z)
    (r : graph.run_result) : Prop :=
  let s := graph.values (graph.final r) in
  graph.next (graph.final r) = graph.Node graph.generate
  /\ (exists e, graph.outcome r = graph.Raised e)
  /\ (AgentState.status s = DRAFT \/ AgentState.status s = created)
  /\ AgentState.generation_attempts s = k
  /\ AgentState.max_attempts s = m
  /\ 0 <= k < m
  /\ graph.executions graph.generate (graph.trace r) = Z.to_nat k.

(** The thread has finished in failure with its budget [m] used up. *)
Definition failed_at_budget (m : Z) (r : graph.run_result) : Prop :=
  let s := graph.values (graph.final r) in
  graph.outcome r = graph.Finished
  /\ graph.next (graph.final r) = graph.END
  /\ AgentState.status s = FAILED
  /\ AgentState.error_message s
     = Some ("Max generation attempts (" +:+ PyStr.of_int m +:+ ") reached")
  /\ AgentState.generation_attempts s = m
  /\ graph.executions graph.generate (graph.trace r) = Z.to_nat m.

(** Where a thread that is only ever rejected can be. *)
Definition within_budget (created : PostStatus) (m : Z)
    (r : graph.run_result) : Prop :=
  (exists k, thread.awaiting_approval m k r /\ k <= m)
  \/ (exists k, stalled_at_draft created m k r)
  \/ failed_at_budget m r.

(* ===================================================================== *)
(** ** Properties *)
(* ===================================================================== *)

Section execution_loop.

(** At the end marker the loop stops without running anything. *)
Lemma run_END fuel w step resume s :
  graph.run fuel w step resume graph.END s
  = {| graph.final := {| graph.values := s; graph.next := graph.END |};
       graph.outcome := graph.Finished;
       graph.trace := [] |}.
Proof. destruct fuel; reflexivity. Qed.

(** One superstep of the loop, by the result of the node. *)
Lemma run_step fuel w step resume n s :
  graph.run (S fuel) w step resume (graph.Node n) s
  = match graph.run_node w step resume n s with
    | (Return u, evs) =>
        match graph.next_target n (apply_update s u) with
        | Some cur' =>
            graph.observe (graph.NodeRun n :: evs)
              (graph.run fuel w (S step) None cur' (apply_update s u))
        | None =>
            {| graph.final := {| graph.values := s; graph.next := graph.Node n |};
               graph.outcome := graph.Raised "KeyError"; graph.trace := [] |}
        end
    | (Interrupt payload, _) =>
        {| graph.final := {| graph.values := s; graph.next := graph.Node n |};
           graph.outcome := graph.Interrupted payload; graph.trace := [] |}
    | (Raise e, _) =>
        {| graph.final := {| graph.values := s; graph.next := graph.Node n |};
           graph.outcome := graph.Raised e; graph.trace := [] |}
    end.
Proof. reflexivity. Qed.

End execution_loop.

Section rendered_text.

(** C8, counterexample: a draft without hashtags is rendered as its body
    alone, without the blank line of the specification's wording. *)
Lemma formatted_text_without_hashtags_has_no_blank_line :
  let draft := PostContent.mk "Hi" TWITTER [] 0 in
  PostContent.formatted_text draft = "Hi"
  /\ rendered_text_spec draft = "Hi" +:+ PyStr.nl +:+ PyStr.nl
  /\ PostContent.formatted_text draft <> rendered_text_spec draft
  /\ PostContent.char_count draft = 2
  /\ PyStr.len (rendered_text_spec draft) = 4.
Proof. repeat split; discriminate. Qed.

(** C8, amended: with at least one hashtag the rendered text is the body,
    a blank line and the [#]-prefixed hashtags joined by single spaces;
    with no hashtag it is the body alone; in both cases the length is the
    number of characters of the rendered text. *)
Theorem formatted_text_char_count (draft : PostContent.t) :
  PostContent.formatted_text draft
  = (if decide (PostContent.hashtags draft = [])
     then PostContent.text draft
     else rendered_text_spec draft)
  /\ PostContent.char_count draft
     = Z.of_nat (String.length (PostContent.formatted_text draft)).
Proof.
  split; [|reflexivity].
  unfold PostContent.formatted_text, rendered_text_spec.
  destruct (PostContent.hashtags draft) as [|tag tags]; reflexivity.
Qed.

End rendered_text.

Section normalizer.

(** C3, at the failing input: the replacement text of the string form is
    cut from the lower-cased response, so its capitals are lost. *)
Lemma parse_edit_string_lowercases_replacement :
  nodes._parse_human_response (ResumeStr "edit: Hello World")
  = Ok (HumanFeedback.mk edit (Some "hello world") None)
  /\ PyStr.strip (PyStr.slice_from 5 "edit: Hello World") = "Hello World"
  /\ "hello world" <> "Hello World".
Proof. repeat split; discriminate. Qed.

(** The two literal strings and the structured form are normalized as
    the specification says. *)
Lemma parse_literal_approve :
  nodes._parse_human_response (ResumeStr "approve")
  = Ok (HumanFeedback.mk approve None None).
Proof. reflexivity. Qed.

Lemma parse_literal_reject :
  nodes._parse_human_response (ResumeStr "reject")
  = Ok (HumanFeedback.mk reject None None).
Proof. reflexivity. Qed.

Lemma parse_structured (d : gmap string PyVal) (a : Action)
    (et fm : option string) :
  d !! "action" = Some (PyStr (action_value a)) ->
  nodes.optional_str (d !! "edited_text") = Some et ->
  nodes.optional_str (d !! "feedback_message") = Some fm ->
  nodes._parse_human_response (ResumeDict d) = Ok (HumanFeedback.mk a et fm).
Proof.
  intros Ha Het Hfm. cbn. unfold nodes.HumanFeedback_of_dict.
  rewrite Ha, Het, Hfm. destruct a; reflexivity.
Qed.

(** C6, counterexample: the string [REJECT] is none of the literal forms,
    yet it is normalized to a rejection without any message. *)
Lemma parse_uppercase_reject_is_a_rejection :
  unrecognized_literally (ResumeStr "REJECT")
  /\ nodes._parse_human_response (ResumeStr "REJECT")
     = Ok (HumanFeedback.mk reject None None)
  /\ ~ approves_with_diagnostic (nodes._parse_human_response (ResumeStr "REJECT")).
Proof.
  split; [repeat split; discriminate|]. split; [reflexivity|].
  intros (fb & m & Heq & Hact & _). cbn in Heq.
  injection Heq as <-. discriminate.
Qed.

(** C6, amended: a string whose trimmed, lower-cased form is neither
    [approve] nor [reject] and does not start with [edit:] is normalized,
    without failure, to action [approve] carrying the message
    [Unclear response: ] followed by the string as received. *)
Theorem parse_unclear_response_approves (response : string) :
  PyStr.lower (PyStr.strip response) <> "approve" ->
  PyStr.lower (PyStr.strip response) <> "reject" ->
  PyStr.startswith "edit:" (PyStr.lower (PyStr.strip response)) = false ->
  nodes._parse_human_response (ResumeStr response)
  = Ok (HumanFeedback.mk approve None (Some ("Unclear response: " +:+ response)))
  /\ approves_with_diagnostic (nodes._parse_human_response (ResumeStr response)).
Proof.
  intros Ha Hr He.
  assert (Heq : nodes._parse_human_response (ResumeStr response)
                = Ok (HumanFeedback.mk approve None
                        (Some ("Unclear response: " +:+ response)))).
  { unfold nodes._parse_human_response.
    apply String.eqb_neq in Ha, Hr. rewrite Ha, Hr, He. reflexivity. }
  split; [exact Heq|].
  rewrite Heq. eexists _, _. repeat split. discriminate.
Qed.

Lemma parse_unclear_response_approves_witness :
  nodes._parse_human_response (ResumeStr "Maybe later")
  = Ok (HumanFeedback.mk approve None (Some "Unclear response: Maybe later"))
  /\ approves_with_diagnostic (nodes._parse_human_response (ResumeStr "Maybe later")).
Proof.
  apply (parse_unclear_response_approves "Maybe later");
    [discriminate | discriminate | reflexivity].
Defined.

End normalizer.

Section feedback_node.

(** C10: without feedback the node returns the single entry
    [status := PENDING_APPROVAL]; the merged state differs from the old
    one in [status] only; the branch function answers [end], which the
    graph maps to the end marker, so the invocation finishes (it neither
    raises nor suspends) with the non-terminal status
    [PENDING_APPROVAL]. *)
Theorem process_feedback_without_feedback_ends_pending
    (w : world) (step : nat) (fuel : nat) (resume : option resume_value)
    (now : Z) (s : AgentState.t) :
  AgentState.human_feedback s = None ->
  let u := nodes.process_feedback now s in
  let r := graph.run (S fuel) w step resume (graph.Node graph.process_feedback) s in
  u = [ set_status PENDING_APPROVAL ]
  /\ apply_update s u
     = AgentState.mk (AgentState.messages s) (AgentState.topic s)
         (AgentState.platform s) (AgentState.tone s)
         (AgentState.additional_context s) (AgentState.post_content s)
         PENDING_APPROVAL (AgentState.human_feedback s)
         (AgentState.generation_attempts s) (AgentState.max_attempts s)
         (AgentState.published_url s) (AgentState.error_message s)
         (AgentState.thread_id s)
  /\ nodes.should_regenerate (apply_update s u) = "end"
  /\ graph.next_target graph.process_feedback (apply_update s u) = Some graph.END
  /\ graph.outcome r = graph.Finished
  /\ graph.next (graph.final r) = graph.END
  /\ AgentState.status (graph.values (graph.final r)) = PENDING_APPROVAL
  /\ terminal (AgentState.status (graph.values (graph.final r))) = false
  /\ graph.trace r = [ graph.NodeRun graph.process_feedback ].
Proof.
  intros Hfb u r.
  assert (Hu : forall t, nodes.process_feedback t s = [ set_status PENDING_APPROVAL ]).
  { intros t. unfold nodes.process_feedback. rewrite Hfb. reflexivity. }
  subst u r. rewrite run_step. cbn [graph.run_node]. rewrite !Hu.
  cbn. rewrite run_END. cbn. repeat split.
Qed.

Lemma process_feedback_without_feedback_ends_pending_witness :
  let s := AgentState.create "AI safety" TWITTER "casual" "" "t1" in
  let w := {| llm_post := fun _ => LlmError "down";
              llm_tags := fun _ => LlmError "down";
              utcnow := fun _ => 0;
              connector := fun _ _ _ => PublishError "down" |} in
  let r := graph.run 25 w 0 None (graph.Node graph.process_feedback) s in
  nodes.process_feedback 0 s = [ set_status PENDING_APPROVAL ]
  /\ graph.outcome r = graph.Finished
  /\ AgentState.status (graph.values (graph.final r)) = PENDING_APPROVAL.
Proof.
  intros s w r.
  pose proof (process_feedback_without_feedback_ends_pending
                w 0 24 None 0 s eq_refl) as H.
  cbv zeta in H. destruct H as (H1 & _ & _ & _ & H5 & _ & H7 & _).
  exact (conj H1 (conj H5 H7)).
Defined.

(** C5: with a draft present and [edit] feedback carrying a non-empty
    text, the node returns exactly the two entries [post_content] and
    [status]; the new draft has the edited text and the hashtags of the
    old draft, in the same order; the status is [APPROVED]; every other
    field of the merged state is as before. *)
Theorem edit_feedback_replaces_text_keeps_hashtags
    (now : Z) (s : AgentState.t) (pc : PostContent.t)
    (fb : HumanFeedback.t) (txt : string) :
  AgentState.post_content s = Some pc ->
  AgentState.human_feedback s = Some fb ->
  HumanFeedback.action fb = edit ->
  HumanFeedback.edited_text fb = Some txt ->
  txt <> "" ->
  let u := nodes.process_feedback now s in
  exists pc',
    u = [ set_post_content (Some pc'); set_status APPROVED ]
    /\ keys u = [ "post_content"; "status" ]
    /\ PostContent.text pc' = txt
    /\ PostContent.hashtags pc' = PostContent.hashtags pc
    /\ apply_update s u
       = AgentState.mk (AgentState.messages s) (AgentState.topic s)
           (AgentState.platform s) (AgentState.tone s)
           (AgentState.additional_context s) (Some pc')
           APPROVED (AgentState.human_feedback s)
           (AgentState.generation_attempts s) (AgentState.max_attempts s)
           (AgentState.published_url s) (AgentState.error_message s)
           (AgentState.thread_id s).
Proof.
  intros Hpc Hfb Hact Htxt Hne u.
  set (pc' := {| PostContent.text := txt;
                 PostContent.platform := AgentState.platform s;
                 PostContent.hashtags := PostContent.hashtags pc;
                 PostContent.created_at := now |}).
  assert (Hu : u = [ set_post_content (Some pc'); set_status APPROVED ]).
  { subst u pc'. unfold nodes.process_feedback.
    rewrite Hfb, Hact, Hpc, Htxt.
    destruct txt as [|c txt]; [congruence|]. reflexivity. }
  exists pc'. rewrite Hu. repeat split.
Qed.

Lemma edit_feedback_replaces_text_keeps_hashtags_witness :
  let pc := PostContent.mk "Hello World" TWITTER ["ai"; "safety"] 7 in
  let fb := HumanFeedback.mk edit (Some "New copy") None in
  let s := AgentState.mk [] "AI safety" TWITTER "casual" "" (Some pc)
             PENDING_APPROVAL (Some fb) 1 3 None None "t1" in
  exists pc',
    nodes.process_feedback 9 s
    = [ set_post_content (Some pc'); set_status APPROVED ]
    /\ PostContent.text pc' = "New copy"
    /\ PostContent.hashtags pc' = ["ai"; "safety"].
Proof.
  intros pc fb s.
  destruct (edit_feedback_replaces_text_keeps_hashtags
              9 s pc fb "New copy" eq_refl eq_refl eq_refl eq_refl
              ltac:(discriminate))
    as (pc' & H1 & _ & H3 & H4 & _).
  exists pc'. exact (conj H1 (conj H3 H4)).
Defined.

End feedback_node.

Section publish_node.

(** C7: on a state with a draft the publish node calls the connector of
    the state's platform once, with the rendered text of the draft; on
    success the merged state has status [PUBLISHED] and, as its url, the
    [url] entry of the connector's result: that string when the entry
    holds one, [None] when the entry holds [None] or the result has no
    such entry; on an exception it has status [FAILED] and the message
    of the exception, and the url is left as it was; in neither case
    does the status stay [APPROVED]; the edge after the node leads to
    the end marker, so an invocation that reaches the node runs it once
    and finishes. *)
Theorem publish_post_publishes_or_fails
    (w : world) (step fuel : nat) (resume : option resume_value)
    (s : AgentState.t) (pc : PostContent.t) :
  AgentState.post_content s = Some pc ->
  let conn := connector w step in
  let content := PostContent.formatted_text pc in
  let res := nodes.publish_post conn s in
  let s' := apply_update s res.1 in
  let r := graph.run (S fuel) w step resume (graph.Node graph.publish) s in
  res.2 = [ (AgentState.platform s, content) ]
  /\ match conn (AgentState.platform s) content with
     | PublishOk (Some (Some u)) =>
         AgentState.status s' = PUBLISHED
         /\ AgentState.published_url s' = Some u
         /\ AgentState.error_message s' = AgentState.error_message s
     | PublishOk (Some None) | PublishOk None =>
         AgentState.status s' = PUBLISHED
         /\ AgentState.published_url s' = None
         /\ AgentState.error_message s' = AgentState.error_message s
     | PublishError e =>
         AgentState.status s' = FAILED
         /\ AgentState.error_message s' = Some e
         /\ AgentState.published_url s' = AgentState.published_url s
     end
  /\ AgentState.status s' <> APPROVED
  /\ terminal (AgentState.status s') = true
  /\ graph.next_target graph.publish s' = Some graph.END
  /\ graph.outcome r = graph.Finished
  /\ graph.values (graph.final r) = s'
  /\ graph.trace r
     = [ graph.NodeRun graph.publish;
         graph.PublishCall (AgentState.platform s, content) ].
Proof.
  intros Hpc conn content res s' r. subst conn content res s' r.
  rewrite run_step. cbn [graph.run_node].
  unfold nodes.publish_post. rewrite Hpc.
  destruct (connector w step (AgentState.platform s)
              (PostContent.formatted_text pc)) as [[[u|]|]|e]; cbn;
    rewrite run_END; cbn; repeat split; discriminate.
Qed.

Lemma publish_post_publishes_or_fails_witness :
  let pc := PostContent.mk "Hello World" TWITTER ["ai"; "safety"] 7 in
  let s := AgentState.mk [] "AI safety" TWITTER "casual" "" (Some pc)
             APPROVED None 1 3 None None "t1" in
  let w := {| llm_post := fun _ => LlmError "down";
              llm_tags := fun _ => LlmError "down";
              utcnow := fun _ => 0;
              connector := fun step _ _ =>
                match step with
                | O => PublishOk (Some (Some "https://twitter.com/i/status/42"))
                | 1%nat => PublishOk (Some None)
                | 2%nat => PublishOk None
                | _ => PublishError "rate limited"
                end |} in
  let run step := graph.run 25 w step None (graph.Node graph.publish) s in
  (graph.outcome (run 0%nat) = graph.Finished
   /\ AgentState.status (graph.values (graph.final (run 0%nat))) = PUBLISHED
   /\ AgentState.published_url (graph.values (graph.final (run 0%nat)))
      = Some "https://twitter.com/i/status/42"
   /\ AgentState.error_message (graph.values (graph.final (run 0%nat))) = None)
  /\ (AgentState.status (graph.values (graph.final (run 1%nat))) = PUBLISHED
      /\ AgentState.published_url (graph.values (graph.final (run 1%nat))) = None)
  /\ (AgentState.status (graph.values (graph.final (run 2%nat))) = PUBLISHED
      /\ AgentState.published_url (graph.values (graph.final (run 2%nat))) = None)
  /\ (graph.outcome (run 3%nat) = graph.Finished
      /\ AgentState.status (graph.values (graph.final (run 3%nat))) = FAILED
      /\ AgentState.error_message (graph.values (graph.final (run 3%nat)))
         = Some "rate limited"
      /\ AgentState.published_url (graph.values (graph.final (run 3%nat))) = None).
Proof.
  intros pc s w run.
  pose proof (publish_post_publishes_or_fails w 0 24 None s pc eq_refl) as H0.
  pose proof (publish_post_publishes_or_fails w 1 24 None s pc eq_refl) as H1.
  pose proof (publish_post_publishes_or_fails w 2 24 None s pc eq_refl) as H2.
  pose proof (publish_post_publishes_or_fails w 3 24 None s pc eq_refl) as H3.
  cbv zeta in H0, H1, H2, H3.
  destruct H0 as (_ & (A1 & A2 & A3) & _ & _ & _ & A6 & A7 & _).
  destruct H1 as (_ & (B1 & B2 & _) & _ & _ & _ & _ & B7 & _).
  destruct H2 as (_ & (C1 & C2 & _) & _ & _ & _ & _ & C7 & _).
  destruct H3 as (_ & (D1 & D2 & D3) & _ & _ & _ & D6 & D7 & _).
  subst run. cbv beta. rewrite A7, B7, C7, D7.
  exact (conj (conj A6 (conj A1 (conj A2 A3)))
           (conj (conj B1 B2)
              (conj (conj C1 C2) (conj D6 (conj D1 (conj D2 D3)))))).
Defined.

End publish_node.

Section attempts.

Local Abbreviation attempts := AgentState.generation_attempts.

(** The events a node reports besides its own completion are calls of
    the publish collaborator. *)
Lemma run_node_events_no_run w step resume n s res evs m :
  graph.run_node w step resume n s = (res, evs) ->
  graph.executions m evs = 0%nat.
Proof.
  destruct n; cbn; try (intros [= _ <-]; reflexivity).
  unfold nodes.publish_post.
  destruct (AgentState.post_content s) as [pc|]; [|intros [= _ <-]; reflexivity].
  destruct (connector w step _ _); intros [= _ <-]; reflexivity.
Qed.

(** The effect of one node execution on the attempt counter. *)
Local Ltac untouched :=
  cbn; split; [reflexivity | intuition discriminate].

Lemma run_node_attempts w step resume n s u evs :
  graph.run_node w step resume n s = (Return u, evs) ->
  if decide (n = graph.generate)
  then attempts (apply_update s u) = attempts s + 1
  else attempts (apply_update s u) = attempts s
       /\ ~ In "generation_attempts" (keys u).
Proof.
  destruct n; cbn.
  - destruct (llm_post w step); [|discriminate].
    destruct (llm_tags w step); [|discriminate].
    intros [= <- _]. reflexivity.
  - unfold nodes.request_approval.
    destruct (AgentState.post_content s); [|intros [= <- _]; untouched].
    destruct resume as [v|]; [|discriminate].
    destruct (nodes._parse_human_response v); [|discriminate].
    intros [= <- _]; untouched.
  - intros [= <- _]. unfold nodes.process_feedback.
    destruct (AgentState.human_feedback s) as [fb|]; [|untouched].
    destruct (HumanFeedback.action fb).
    + untouched.
    + destruct (_ >=? _)%Z; untouched.
    + destruct (AgentState.post_content s); [|untouched].
      destruct (nodes.truthy_text _); untouched.
  - unfold nodes.publish_post.
    destruct (AgentState.post_content s); [|intros [= <- _]; untouched].
    destruct (connector w step _ _); intros [= <- _]; untouched.
Qed.

Lemma executions_cons n e evs :
  graph.executions n (e :: evs)
  = ((if graph.is_run n e then 1 else 0) + graph.executions n evs)%nat.
Proof. unfold graph.executions. cbn. destruct (graph.is_run n e); reflexivity. Qed.

Lemma executions_app n evs1 evs2 :
  graph.executions n (evs1 ++ evs2)
  = (graph.executions n evs1 + graph.executions n evs2)%nat.
Proof.
  unfold graph.executions. rewrite List.filter_app, List.length_app. reflexivity.
Qed.

(** Over an invocation the counter grows by the number of completed
    executions of the draft node. *)
Lemma run_attempts fuel : forall w step resume cur s,
  let r := graph.run fuel w step resume cur s in
  attempts (graph.values (graph.final r))
  = attempts s + Z.of_nat (graph.executions graph.generate (graph.trace r)).
Proof.
  induction fuel as [|fuel IH]; intros w step resume [n|] s; cbn zeta;
    rewrite ?run_END; try (cbn; lia).
  rewrite run_step.
  destruct (graph.run_node w step resume n s) as [[u|p|e] evs] eqn:Hn;
    try (cbn; lia).
  destruct (graph.next_target n (apply_update s u)) as [cur'|]; [|cbn; lia].
  pose proof (run_node_attempts _ _ _ _ _ _ _ Hn) as Hu.
  pose proof (run_node_events_no_run _ _ _ _ _ _ _ graph.generate Hn) as Hev.
  specialize (IH w (S step) None cur' (apply_update s u)). cbn zeta in IH.
  cbn [graph.observe graph.final graph.trace]. rewrite IH.
  rewrite <- app_comm_cons, executions_cons, executions_app, Hev.
  cbn [graph.is_run].
  destruct (decide (n = graph.generate)) as [->|Hne].
  - rewrite Hu. rewrite bool_decide_eq_true_2 by reflexivity. lia.
  - destruct Hu as [-> _]. rewrite bool_decide_eq_false_2 by exact Hne. lia.
Qed.

(** The same over any number of resumes of a thread. *)
Lemma resume_all_attempts rounds : forall r,
  attempts (graph.values (graph.final (thread.resume_all rounds r)))
  - Z.of_nat (graph.executions graph.generate (graph.trace (thread.resume_all rounds r)))
  = attempts (graph.values (graph.final r))
    - Z.of_nat (graph.executions graph.generate (graph.trace r)).
Proof.
  induction rounds as [|[v w] rounds IH]; intros r; [reflexivity|].
  cbn [thread.resume_all]. rewrite IH.
  cbn [graph.observe graph.final graph.trace]. rewrite executions_app.
  unfold graph.ainvoke_resume.
  pose proof (run_attempts graph.recursion_limit w 0 (Some v)
                (graph.next (graph.final r)) (graph.values (graph.final r))) as H.
  cbn zeta in H. rewrite H. lia.
Qed.

(** C2: one execution of a node changes [generation_attempts] by exactly
    one when the node is the draft node and leaves it unchanged (the key
    is not even in the returned update) for the three other nodes; over
    an invocation, and over any sequence of resumes, the counter grows by
    the number of completed executions of the draft node, so it never
    decreases. *)
Theorem generation_attempts_counts_draft_executions
    (fuel : nat) (w : world) (step : nat) (resume : option resume_value)
    (cur : graph.target) (n : graph.node_name) (s : AgentState.t)
    (rounds : list thread.round) (r0 : graph.run_result) :
  let r := graph.run fuel w step resume cur s in
  let rn := thread.resume_all rounds r0 in
  match graph.run_node w step resume n s with
  | (Return u, _) =>
      if decide (n = graph.generate)
      then attempts (apply_update s u) = attempts s + 1
      else attempts (apply_update s u) = attempts s
           /\ ~ In "generation_attempts" (keys u)
  | (_, _) => True
  end
  /\ attempts (graph.values (graph.final r))
     = attempts s + Z.of_nat (graph.executions graph.generate (graph.trace r))
  /\ attempts s <= attempts (graph.values (graph.final r))
  /\ attempts (graph.values (graph.final rn))
     = attempts (graph.values (graph.final r0))
       + (Z.of_nat (graph.executions graph.generate (graph.trace rn))
          - Z.of_nat (graph.executions graph.generate (graph.trace r0)))
  /\ attempts (graph.values (graph.final r0))
     <= attempts (graph.values (graph.final rn)).
Proof.
  intros r rn. subst r rn.
  pose proof (run_attempts fuel w step resume cur s) as Hrun. cbn zeta in Hrun.
  pose proof (resume_all_attempts rounds r0) as Hres.
  assert (Hmono : (graph.executions graph.generate (graph.trace r0)
                   <= graph.executions graph.generate
                        (graph.trace (thread.resume_all rounds r0)))%nat).
  { clear. revert r0. induction rounds as [|[v w] rounds IH]; intros r0; [done|].
    cbn [thread.resume_all]. etransitivity; [|apply IH].
    cbn [graph.observe graph.trace]. rewrite executions_app. lia. }
  repeat split; try lia.
  destruct (graph.run_node w step resume n s) as [[u|p|e] evs] eqn:Hn; [|exact I..].
  exact (run_node_attempts _ _ _ _ _ _ _ Hn).
Qed.

End attempts.

Section hashtag_bound.

(** The draft node keeps at most [num_hashtags] tags, which is the bound
    of the platform. *)
Lemma generate_post_draft r1 r2 now s :
  match nodes.generate_post r1 r2 now s with
  | Return u =>
      exists pc,
        AgentState.post_content (apply_update s u) = Some pc
        /\ PostContent.platform pc = AgentState.platform s
        /\ (List.length (PostContent.hashtags pc)
            <= hashtag_limit (AgentState.platform s))%nat
  | _ => True
  end.
Proof.
  unfold nodes.generate_post.
  destruct r1 as [c1|e1]; [|exact I]. destruct r2 as [c2|e2]; [|exact I].
  eexists. split; [reflexivity|]. split; [reflexivity|].
  cbn [PostContent.hashtags]. rewrite length_take.
  destruct (AgentState.platform s); cbn [nodes.num_hashtags hashtag_limit]; lia.
Qed.

(** No node changes the platform of the state. *)
Lemma run_node_platform w step resume n s u evs :
  graph.run_node w step resume n s = (Return u, evs) ->
  AgentState.platform (apply_update s u) = AgentState.platform s.
Proof.
  destruct n; cbn.
  - destruct (llm_post w step); [|discriminate].
    destruct (llm_tags w step); [|discriminate].
    intros [= <- _]. reflexivity.
  - unfold nodes.request_approval.
    destruct (AgentState.post_content s); [|intros [= <- _]; reflexivity].
    destruct resume as [v|]; [|discriminate].
    destruct (nodes._parse_human_response v); [|discriminate].
    intros [= <- _]; reflexivity.
  - intros [= <- _]. unfold nodes.process_feedback.
    destruct (AgentState.human_feedback s) as [fb|]; [|reflexivity].
    destruct (HumanFeedback.action fb); [reflexivity| |].
    + destruct (_ >=? _)%Z; reflexivity.
    + destruct (AgentState.post_content s); [|reflexivity].
      destruct (nodes.truthy_text _); reflexivity.
  - unfold nodes.publish_post.
    destruct (AgentState.post_content s); [|intros [= <- _]; reflexivity].
    destruct (connector w step _ _); intros [= <- _]; reflexivity.
Qed.

(** Every node execution preserves the bound. *)
Lemma run_node_draft w step resume n s u evs :
  draft_within_limit s ->
  graph.run_node w step resume n s = (Return u, evs) ->
  draft_within_limit (apply_update s u).
Proof.
  intros Hs Hn pc'.
  rewrite (run_node_platform _ _ _ _ _ _ _ Hn).
  revert Hn. destruct n; cbn.
  - intros [= Hn _].
    pose proof (generate_post_draft (llm_post w step) (llm_tags w step)
                  (utcnow w step) s) as Hg.
    rewrite Hn in Hg. destruct Hg as (pc & Hpc & Hpl & Hlen).
    rewrite Hpc. intros [= <-]. rewrite Hpl. auto.
  - unfold nodes.request_approval.
    destruct (AgentState.post_content s) eqn:Hpc; [|intros [= <- _]; cbn; congruence].
    destruct resume as [v|]; [|discriminate].
    destruct (nodes._parse_human_response v); [|discriminate].
    intros [= <- _]; cbn. rewrite Hpc. intros [= <-]. auto.
  - intros [= <- _]. unfold nodes.process_feedback.
    destruct (AgentState.human_feedback s) as [fb|]; [|cbn; auto].
    destruct (HumanFeedback.action fb); [cbn; auto| |].
    + destruct (_ >=? _)%Z; cbn; auto.
    + destruct (AgentState.post_content s) as [pc|] eqn:Hpc; [|cbn; congruence].
      destruct (Hs pc Hpc) as [Hpl Hlen].
      destruct (nodes.truthy_text _); cbn;
        [|rewrite Hpc; intros [= <-]; auto].
      intros [= <-]. cbn. rewrite Hpl in Hlen. auto.
  - unfold nodes.publish_post.
    destruct (AgentState.post_content s) eqn:Hpc; [|intros [= <- _]; cbn; congruence].
    destruct (connector w step _ _); intros [= <- _]; cbn; rewrite Hpc;
      intros [= <-]; auto.
Qed.

Lemma run_draft fuel : forall w step resume cur s,
  draft_within_limit s ->
  draft_within_limit (graph.values (graph.final (graph.run fuel w step resume cur s))).
Proof.
  induction fuel as [|fuel IH]; intros w step resume [n|] s Hs;
    rewrite ?run_END; try exact Hs.
  rewrite run_step.
  destruct (graph.run_node w step resume n s) as [[u|p|e] evs] eqn:Hn;
    try exact Hs.
  destruct (graph.next_target n (apply_update s u)) as [cur'|]; [|exact Hs].
  cbn [graph.observe graph.final].
  apply IH. exact (run_node_draft _ _ _ _ _ _ _ Hs Hn).
Qed.

Lemma resume_all_draft rounds : forall r,
  draft_within_limit (graph.values (graph.final r)) ->
  draft_within_limit (graph.values (graph.final (thread.resume_all rounds r))).
Proof.
  induction rounds as [|[v w] rounds IH]; intros r Hr; [exact Hr|].
  cbn [thread.resume_all]. apply IH.
  cbn [graph.observe graph.final]. apply run_draft. exact Hr.
Qed.

(** C9: the draft produced by the draft node has at most 3 hashtags on
    Twitter and at most 5 on LinkedIn; every node execution (applying an
    edit included), every invocation and every sequence of resumes keeps
    a state whose draft respects the bound in that condition; a thread
    driven from a newly created state is always in that condition. *)
Theorem hashtags_within_platform_limit
    (fuel : nat) (w : world) (step : nat) (resume : option resume_value)
    (cur : graph.target) (n : graph.node_name) (s : AgentState.t)
    (rounds : list thread.round) (r0 : graph.run_result) :
  draft_within_limit s ->
  draft_within_limit (graph.values (graph.final r0)) ->
  match nodes.generate_post (llm_post w step) (llm_tags w step) (utcnow w step) s with
  | Return u =>
      exists pc,
        AgentState.post_content (apply_update s u) = Some pc
        /\ PostContent.platform pc = AgentState.platform s
        /\ (List.length (PostContent.hashtags pc)
            <= match AgentState.platform s with
               | TWITTER => 3 | LINKEDIN => 5
               end)%nat
  | _ => True
  end
  /\ match graph.run_node w step resume n s with
     | (Return u, _) => draft_within_limit (apply_update s u)
     | (_, _) => True
     end
  /\ draft_within_limit (graph.values (graph.final (graph.run fuel w step resume cur s)))
  /\ draft_within_limit (graph.values (graph.final (thread.resume_all rounds r0)))
  /\ draft_within_limit
       (graph.values
          (graph.final
             (thread.start_then_resume w
                (AgentState.create (AgentState.topic s) (AgentState.platform s)
                   (AgentState.tone s) (AgentState.additional_context s)
                   (AgentState.thread_id s))
                rounds))).
Proof.
  intros Hs Hr0. split; [|split; [|split; [|split]]].
  - exact (generate_post_draft _ _ _ s).
  - destruct (graph.run_node w step resume n s) as [[u|p|e] evs] eqn:Hn; [|exact I..].
    exact (run_node_draft _ _ _ _ _ _ _ Hs Hn).
  - apply run_draft, Hs.
  - apply resume_all_draft, Hr0.
  - apply resume_all_draft, run_draft. intros pc. discriminate.
Qed.

Lemma hashtags_within_platform_limit_witness :
  let pc := PostContent.mk "Hello World" TWITTER ["ai"; "safety"; "x"] 7 in
  let fb := HumanFeedback.mk edit (Some "New copy") None in
  let s := AgentState.mk [] "AI safety" TWITTER "casual" "" (Some pc)
             PENDING_APPROVAL (Some fb) 1 3 None None "t1" in
  let w := {| llm_post := fun _ => LlmContent "Post";
              llm_tags := fun _ => LlmContent "a";
              utcnow := fun _ => 0;
              connector := fun _ _ _ => PublishOk None |} in
  draft_within_limit (apply_update s (nodes.process_feedback 0 s)).
Proof.
  intros pc fb s w.
  assert (Hs : draft_within_limit s).
  { intros pc0 [= <-]. split; [reflexivity | cbn; lia]. }
  pose proof (hashtags_within_platform_limit 25 w 0 None
                (graph.Node graph.process_feedback) graph.process_feedback s []
                (graph.run 0 w 0 None graph.END s) Hs Hs) as H.
  exact (proj1 (proj2 H)).
Defined.

End hashtag_bound.

Section bounded_regeneration.

Local Arguments graph.run : simpl never.
Local Arguments PyStr.of_int : simpl never.
Local Arguments String.append : simpl never.
Local Arguments PostContent.formatted_text : simpl never.
Local Arguments PostContent.char_count : simpl never.
Local Arguments nodes.parse_hashtags : simpl never.
Local Arguments PyStr.strip : simpl never.
Local Arguments Z.add : simpl never.
Local Arguments Z.geb : simpl never.

(** What the feedback node returns on a rejection. *)
Lemma process_feedback_reject now s fb :
  AgentState.human_feedback s = Some fb ->
  HumanFeedback.action fb = reject ->
  nodes.process_feedback now s
  = if decide (AgentState.generation_attempts s < AgentState.max_attempts s)
    then [ set_status DRAFT; set_human_feedback None ]
    else [ set_status FAILED;
           set_error_message
             (Some ("Max generation attempts ("
                    +:+ PyStr.of_int (AgentState.max_attempts s)
                    +:+ ") reached")) ].
Proof.
  intros Hfb Hact. unfold nodes.process_feedback. rewrite Hfb, Hact.
  rewrite Z.geb_leb.
  destruct (decide _) as [Hlt|Hge].
  - rewrite (proj2 (Z.leb_gt _ _)) by lia. reflexivity.
  - rewrite (proj2 (Z.leb_le _ _)) by lia. reflexivity.
Qed.

(** The first invocation of a thread suspends after one draft, when the
    model answers its two calls. *)
Lemma start_awaiting w0 s0 c1 c2 :
  AgentState.generation_attempts s0 = 0 ->
  llm_post w0 0 = LlmContent c1 ->
  llm_tags w0 0 = LlmContent c2 ->
  thread.awaiting_approval (AgentState.max_attempts s0) 1 (graph.ainvoke_input w0 s0).
Proof.
  intros H0 Hc1 Hc2.
  unfold graph.ainvoke_input, graph.recursion_limit, graph.entry_point.
  rewrite run_step. cbn [graph.run_node]. unfold nodes.generate_post.
  rewrite Hc1, Hc2. cbn [graph.next_target].
  rewrite run_step. cbn [graph.run_node]. unfold nodes.request_approval.
  cbn. rewrite H0. repeat split; eauto. lia.
Qed.

(** The first invocation raises at the draft node, without counting an
    attempt, when a model call raises. *)
Lemma start_stalled w0 s0 e :
  AgentState.generation_attempts s0 = 0 ->
  1 <= AgentState.max_attempts s0 ->
  (forall now s, nodes.generate_post (llm_post w0 0) (llm_tags w0 0) now s = Raise e) ->
  stalled_at_draft (AgentState.status s0) (AgentState.max_attempts s0) 0
    (graph.ainvoke_input w0 s0).
Proof.
  intros H0 Hm He.
  unfold graph.ainvoke_input, graph.recursion_limit, graph.entry_point.
  rewrite run_step. cbn [graph.run_node]. rewrite He.
  unfold stalled_at_draft. cbn. repeat split; eauto; lia.
Qed.

(** The draft node raises exactly when one of the two model calls does. *)
Lemma generate_post_raises_or_returns r1 r2 :
  (exists e, forall now s, nodes.generate_post r1 r2 now s = Raise e)
  \/ (exists c1 c2, r1 = LlmContent c1 /\ r2 = LlmContent c2).
Proof.
  destruct r1 as [c1|e]; [|left; exists e; reflexivity].
  destruct r2 as [c2|e]; [|left; exists e; reflexivity].
  right. eauto.
Qed.

(** A rejection below the budget leads to one more draft and a new
    suspension, when the model answers the two calls of the draft. *)
Lemma reject_below_budget m k r v w c1 c2 :
  thread.awaiting_approval m k r ->
  k < m ->
  thread.is_rejection v ->
  llm_post w 2 = LlmContent c1 ->
  llm_tags w 2 = LlmContent c2 ->
  thread.awaiting_approval m (k + 1)
    (graph.observe (graph.trace r) (graph.ainvoke_resume w v (graph.final r))).
Proof.
  intros (Hnext & _ & [pc Hpc] & Hst & Hk & Hm & H1 & Hex) Hlt (fb & Hv & Hact) Hc1 Hc2.
  unfold graph.ainvoke_resume, graph.recursion_limit. rewrite Hnext.
  set (s := graph.values (graph.final r)) in *.
  rewrite run_step. cbn [graph.run_node]. unfold nodes.request_approval.
  rewrite Hpc, Hv. cbn [graph.next_target].
  set (s1 := apply_update s _).
  rewrite run_step. cbn [graph.run_node].
  rewrite (process_feedback_reject _ s1 fb eq_refl Hact).
  assert (Hlt1 : AgentState.generation_attempts s1 < AgentState.max_attempts s1).
  { subst s1. cbn. lia. }
  rewrite decide_True by exact Hlt1.
  cbn [graph.next_target]. set (s2 := apply_update s1 _).
  change (graph.path_map (nodes.should_regenerate s2))
    with (Some (graph.Node graph.generate)).
  cbv beta iota.
  rewrite run_step. cbn [graph.run_node]. unfold nodes.generate_post.
  rewrite Hc1, Hc2. cbn [graph.next_target]. set (s3 := apply_update s2 _).
  rewrite run_step. cbn [graph.run_node]. unfold nodes.request_approval.
  change (AgentState.post_content s3) with (Some
    {| PostContent.text := PyStr.strip c1;
       PostContent.platform := AgentState.platform s2;
       PostContent.hashtags :=
         take (nodes.num_hashtags (AgentState.platform s2)) (nodes.parse_hashtags c2);
       PostContent.created_at := utcnow w 2 |}).
  cbv beta iota.
  unfold thread.awaiting_approval.
  cbn [graph.observe graph.final graph.outcome graph.trace graph.values graph.next].
  repeat split; eauto.
  - subst s3 s2 s1. cbn. lia.
  - lia.
  - rewrite executions_app, Hex.
    replace (graph.executions _ _) with 1%nat by reflexivity. lia.
Qed.

(** A rejection below the budget whose regeneration raises leaves the
    thread stalled at the draft node, with status [DRAFT] and no attempt
    counted. *)
Lemma reject_below_budget_stalls created m k r v w e :
  thread.awaiting_approval m k r ->
  k < m ->
  thread.is_rejection v ->
  (forall now s, nodes.generate_post (llm_post w 2) (llm_tags w 2) now s = Raise e) ->
  stalled_at_draft created m k
    (graph.observe (graph.trace r) (graph.ainvoke_resume w v (graph.final r))).
Proof.
  intros (Hnext & _ & [pc Hpc] & Hst & Hk & Hm & H1 & Hex) Hlt (fb & Hv & Hact) He.
  unfold graph.ainvoke_resume, graph.recursion_limit. rewrite Hnext.
  set (s := graph.values (graph.final r)) in *.
  rewrite run_step. cbn [graph.run_node]. unfold nodes.request_approval.
  rewrite Hpc, Hv. cbn [graph.next_target].
  set (s1 := apply_update s _).
  rewrite run_step. cbn [graph.run_node].
  rewrite (process_feedback_reject _ s1 fb eq_refl Hact).
  assert (Hlt1 : AgentState.generation_attempts s1 < AgentState.max_attempts s1).
  { subst s1. cbn. lia. }
  rewrite decide_True by exact Hlt1.
  cbn [graph.next_target]. set (s2 := apply_update s1 _).
  change (graph.path_map (nodes.should_regenerate s2))
    with (Some (graph.Node graph.generate)).
  cbv beta iota.
  rewrite run_step. cbn [graph.run_node]. rewrite He.
  unfold stalled_at_draft.
  cbn [graph.observe graph.final graph.outcome graph.trace graph.values graph.next].
  split; [reflexivity|]. split; [eauto|]. split; [left; reflexivity|].
  split; [exact Hk|]. split; [exact Hm|]. split; [lia|].
  rewrite executions_app, Hex.
  replace (graph.executions _ _) with 0%nat by reflexivity. lia.
Qed.

(** A rejection at the budget ends the thread in failure, without a new
    draft. *)
Lemma reject_at_budget m k r v w :
  thread.awaiting_approval m k r ->
  m <= k ->
  thread.is_rejection v ->
  let r' := graph.observe (graph.trace r) (graph.ainvoke_resume w v (graph.final r)) in
  let s' := graph.values (graph.final r') in
  graph.outcome r' = graph.Finished
  /\ graph.next (graph.final r') = graph.END
  /\ AgentState.status s' = FAILED
  /\ AgentState.error_message s'
     = Some ("Max generation attempts (" +:+ PyStr.of_int m +:+ ") reached")
  /\ AgentState.generation_attempts s' = k
  /\ graph.executions graph.generate (graph.trace r') = Z.to_nat k.
Proof.
  intros (Hnext & _ & [pc Hpc] & Hst & Hk & Hm & H1 & Hex) Hle (fb & Hv & Hact).
  cbv zeta.
  unfold graph.ainvoke_resume, graph.recursion_limit. rewrite Hnext.
  set (s := graph.values (graph.final r)) in *.
  rewrite run_step. cbn [graph.run_node]. unfold nodes.request_approval.
  rewrite Hpc, Hv. cbn [graph.next_target].
  set (s1 := apply_update s _).
  rewrite run_step. cbn [graph.run_node].
  rewrite (process_feedback_reject _ s1 fb eq_refl Hact).
  assert (Hge : ~ AgentState.generation_attempts s1 < AgentState.max_attempts s1).
  { subst s1. cbn. lia. }
  rewrite decide_False by exact Hge.
  cbn [graph.next_target]. set (s2 := apply_update s1 _).
  change (graph.path_map (nodes.should_regenerate s2)) with (Some graph.END).
  cbv beta iota.
  rewrite run_END.
  cbn [graph.observe graph.final graph.outcome graph.trace graph.values graph.next].
  repeat split.
  - subst s2 s1. cbn. rewrite Hm. reflexivity.
  - subst s2 s1. cbn. exact Hk.
  - rewrite executions_app, Hex.
    replace (graph.executions _ _) with 0%nat by reflexivity. lia.
Qed.

(** Resuming a thread that is stalled at the draft node runs the draft
    node again; the resume value is not consumed.  The thread stalls
    again, or suspends with one more draft. *)
Lemma resume_stalled created m k r v w :
  stalled_at_draft created m k r ->
  stalled_at_draft created m k
    (graph.observe (graph.trace r) (graph.ainvoke_resume w v (graph.final r)))
  \/ thread.awaiting_approval m (k + 1)
       (graph.observe (graph.trace r) (graph.ainvoke_resume w v (graph.final r))).
Proof.
  intros (Hnext & _ & Hst & Hk & Hm & Hkm & Hex).
  unfold graph.ainvoke_resume, graph.recursion_limit. rewrite Hnext.
  set (s := graph.values (graph.final r)) in *.
  rewrite run_step. cbn [graph.run_node].
  destruct (generate_post_raises_or_returns (llm_post w 0) (llm_tags w 0))
    as [[e He]|(c1 & c2 & Hc1 & Hc2)].
  - left. rewrite He. unfold stalled_at_draft.
    cbn [graph.observe graph.final graph.outcome graph.trace graph.values graph.next].
    rewrite app_nil_r. fold s. repeat split; eauto; lia.
  - right. unfold nodes.generate_post. rewrite Hc1, Hc2.
    cbn [graph.next_target]. set (s1 := apply_update s _).
    rewrite run_step. cbn [graph.run_node]. unfold nodes.request_approval.
    change (AgentState.post_content s1) with (Some
      {| PostContent.text := PyStr.strip c1;
         PostContent.platform := AgentState.platform s;
         PostContent.hashtags :=
           take (nodes.num_hashtags (AgentState.platform s)) (nodes.parse_hashtags c2);
         PostContent.created_at := utcnow w 0 |}).
    cbv beta iota.
    unfold thread.awaiting_approval.
    cbn [graph.observe graph.final graph.outcome graph.trace graph.values graph.next].
    repeat split; eauto.
    + subst s1. cbn. lia.
    + lia.
    + rewrite executions_app, Hex.
      replace (graph.executions _ _) with 1%nat by reflexivity. lia.
Qed.

Lemma resume_all_app rounds1 rounds2 r :
  thread.resume_all (rounds1 ++ rounds2) r
  = thread.resume_all rounds2 (thread.resume_all rounds1 r).
Proof.
  revert r. induction rounds1 as [|[v w] rounds1 IH]; intros r; [reflexivity|].
  cbn [thread.resume_all app]. apply IH.
Qed.

(** Rejections that stay within the budget leave the thread suspended,
    one draft further each, when the model answers. *)
Lemma rejections_within_budget m rounds : forall r k,
  thread.awaiting_approval m k r ->
  Forall thread.rejecting_round rounds ->
  k + Z.of_nat (List.length rounds) <= m ->
  thread.awaiting_approval m (k + Z.of_nat (List.length rounds))
    (thread.resume_all rounds r).
Proof.
  induction rounds as [|[v w] rounds IH]; intros r k Hr Hall Hle.
  - cbn [thread.resume_all List.length]. replace (k + Z.of_nat 0) with k by lia.
    exact Hr.
  - apply Forall_cons in Hall as [[Hv Hllm] Hall]. cbn [List.length] in *.
    cbn [thread.resume_all]. cbn in Hv, Hllm.
    destruct (Hllm 2%nat) as (c1 & c2 & Hc1 & Hc2).
    replace (k + Z.of_nat (S (List.length rounds)))
      with ((k + 1) + Z.of_nat (List.length rounds)) by lia.
    apply IH; [|exact Hall|lia].
    apply (reject_below_budget m k r v w c1 c2); [exact Hr|lia|exact Hv|exact Hc1|exact Hc2].
Qed.

(** Resuming a thread whose checkpoint is at the end marker runs no node. *)
Lemma resume_at_end w v r :
  graph.next (graph.final r) = graph.END ->
  graph.ainvoke_resume w v (graph.final r)
  = {| graph.final := graph.final r;
       graph.outcome := graph.Finished;
       graph.trace := [] |}.
Proof.
  intros Hnext. unfold graph.ainvoke_resume. rewrite Hnext, run_END.
  destruct (graph.final r) as [vals nxt]. cbn in Hnext. subst nxt. reflexivity.
Qed.

Lemma resume_all_at_end n rounds : forall r,
  graph.next (graph.final r) = graph.END ->
  graph.outcome r = graph.Finished ->
  graph.final (thread.resume_all rounds r) = graph.final r
  /\ graph.outcome (thread.resume_all rounds r) = graph.Finished
  /\ graph.executions n (graph.trace (thread.resume_all rounds r))
     = graph.executions n (graph.trace r).
Proof.
  induction rounds as [|[v w] rounds IH]; intros r Hnext Hout; [auto|].
  cbn [thread.resume_all].
  rewrite (resume_at_end w v r Hnext).
  destruct (IH (graph.observe (graph.trace r)
                  {| graph.final := graph.final r;
                     graph.outcome := graph.Finished;
                     graph.trace := [] |}) Hnext eq_refl) as (Hf & Ho & He).
  rewrite Hf, Ho, He. cbn [graph.observe graph.final graph.trace].
  rewrite app_nil_r. auto.
Qed.

(** Exactly as many rejections as the budget end the thread in failure,
    when the model answers. *)
Lemma rejections_exhaust_budget w0 s0 rounds :
  AgentState.generation_attempts s0 = 0 ->
  1 <= AgentState.max_attempts s0 ->
  thread.llm_replies w0 ->
  Forall thread.rejecting_round rounds ->
  Z.of_nat (List.length rounds) = AgentState.max_attempts s0 ->
  let m := AgentState.max_attempts s0 in
  let r := thread.start_then_resume w0 s0 rounds in
  let sf := graph.values (graph.final r) in
  graph.outcome r = graph.Finished
  /\ graph.next (graph.final r) = graph.END
  /\ AgentState.status sf = FAILED
  /\ AgentState.error_message sf
     = Some ("Max generation attempts (" +:+ PyStr.of_int m +:+ ") reached")
  /\ AgentState.generation_attempts sf = m
  /\ Z.of_nat (graph.executions graph.generate (graph.trace r)) = m.
Proof.
  intros H0 Hm Hllm Hall Hlen m r sf.
  destruct (Hllm 0%nat) as (c1 & c2 & Hc1 & Hc2).
  pose proof (start_awaiting w0 s0 c1 c2 H0 Hc1 Hc2) as Hstart. fold m in Hstart, Hlen.
  destruct (exists_last (l := rounds)) as (init & [v w] & Hrounds).
  { intros ->. cbn in Hlen. lia. }
  subst r sf. rewrite Hrounds in *. clear Hrounds.
  rewrite List.length_app in Hlen. cbn [List.length] in Hlen.
  apply Forall_app in Hall as [Hinit Hlast].
  apply Forall_cons in Hlast as [[Hlast _] _].
  pose proof (rejections_within_budget m init _ 1 Hstart Hinit ltac:(lia)) as Hr.
  unfold thread.start_then_resume. rewrite resume_all_app.
  cbn [thread.resume_all].
  pose proof (reject_at_budget m _ _ v w Hr ltac:(lia) Hlast) as Hend.
  cbv zeta in Hend.
  destruct Hend as (Hout & Hnext & Hst & Herr & Hga & Hex).
  repeat split; try assumption; lia.
Qed.

(** One rejected round keeps the thread within its budget, whatever the
    model does. *)
Lemma rejected_round_within_budget created m r v w :
  within_budget created m r ->
  thread.is_rejection v ->
  within_budget created m
    (graph.observe (graph.trace r) (graph.ainvoke_resume w v (graph.final r))).
Proof.
  intros [(k & Hr & Hle)|[[k Hr]|Hr]] Hv.
  - destruct (Z_lt_le_dec k m) as [Hlt|Hge].
    + destruct (generate_post_raises_or_returns (llm_post w 2) (llm_tags w 2))
        as [[e He]|(c1 & c2 & Hc1 & Hc2)].
      * right; left. exists k.
        exact (reject_below_budget_stalls created m k r v w e Hr Hlt Hv He).
      * left. exists (k + 1). split; [|lia].
        exact (reject_below_budget m k r v w c1 c2 Hr Hlt Hv Hc1 Hc2).
    + right; right.
      pose proof (reject_at_budget m k r v w Hr Hge Hv) as Hend. cbv zeta in Hend.
      assert (k = m) as -> by lia. exact Hend.
  - destruct (resume_stalled created m k r v w Hr) as [Hs|Ha].
    + right; left. eauto.
    + left. exists (k + 1). split; [exact Ha|].
      destruct Hr as (_ & _ & _ & _ & _ & Hkm & _). lia.
  - right; right. destruct Hr as (Hout & Hnext & Hrest).
    rewrite (resume_at_end w v r Hnext). unfold failed_at_budget.
    cbn [graph.observe graph.final graph.outcome graph.trace].
    rewrite app_nil_r. split; [reflexivity|]. split; [exact Hnext|]. exact Hrest.
Qed.

(** A thread that starts without attempt and is rejected in every round
    stays within its budget, whatever the model does. *)
Lemma rejected_thread_within_budget w0 s0 rounds :
  AgentState.generation_attempts s0 = 0 ->
  1 <= AgentState.max_attempts s0 ->
  Forall rejected rounds ->
  within_budget (AgentState.status s0) (AgentState.max_attempts s0)
    (thread.start_then_resume w0 s0 rounds).
Proof.
  intros H0 Hm Hall. unfold thread.start_then_resume.
  assert (Hstart : within_budget (AgentState.status s0) (AgentState.max_attempts s0)
                     (graph.ainvoke_input w0 s0)).
  { destruct (generate_post_raises_or_returns (llm_post w0 0) (llm_tags w0 0))
      as [[e He]|(c1 & c2 & Hc1 & Hc2)].
    - right; left. exists 0. exact (start_stalled w0 s0 e H0 Hm He).
    - left. exists 1. split; [|exact Hm].
      exact (start_awaiting w0 s0 c1 c2 H0 Hc1 Hc2). }
  revert Hstart. generalize (graph.ainvoke_input w0 s0).
  induction rounds as [|[v w] rounds IH]; intros r Hr; [exact Hr|].
  apply Forall_cons in Hall as [Hv Hall]. cbn [thread.resume_all].
  apply (IH Hall). exact (rejected_round_within_budget _ _ r v w Hr Hv).
Qed.

(** C1, counterexample: with the budget of three, a thread whose three
    approval rounds are all answered by a rejection is not failed when
    one model call has raised on the way.  The first rejection starts a
    regeneration whose model call raises: the invocation raises at the
    draft node and no attempt is counted.  The second resume runs the
    draft node again and suspends, its rejection being not consumed; the
    third rejection regenerates once more.  The thread is then suspended
    with status [PENDING_APPROVAL] after three completed executions of
    the draft node, which has been entered four times; only a fourth
    rejection fails it.  When the model raises at every regeneration, no
    number of rejections fails the thread. *)
Lemma rejected_thread_with_failed_model_call_is_not_failed :
  let w := {| llm_post := fun _ => LlmContent "Hello World";
              llm_tags := fun _ => LlmContent "ai";
              utcnow := fun _ => 0;
              connector := fun _ _ _ => PublishOk None |} in
  let wf := {| llm_post := fun _ => LlmError "model unavailable";
               llm_tags := fun _ => LlmContent "ai";
               utcnow := fun _ => 0;
               connector := fun _ _ _ => PublishOk None |} in
  let s0 := AgentState.create "AI safety" TWITTER "casual" "" "t1" in
  let v := ResumeStr "reject" in
  let r1 := thread.start_then_resume w s0 [(v, wf)] in
  let r3 := thread.start_then_resume w s0 [(v, wf); (v, w); (v, w)] in
  let r4 := thread.start_then_resume w s0 [(v, wf); (v, w); (v, w); (v, w)] in
  let rf := thread.start_then_resume w s0 [(v, wf); (v, wf); (v, wf); (v, wf); (v, wf)] in
  AgentState.max_attempts s0 = 3
  /\ nodes._parse_human_response v = Ok (HumanFeedback.mk reject None None)
  /\ (graph.outcome r1 = graph.Raised "model unavailable"
      /\ graph.next (graph.final r1) = graph.Node graph.generate
      /\ graph.executions graph.generate (graph.trace r1) = 1%nat)
  /\ ((exists p, graph.outcome r3 = graph.Interrupted p)
      /\ AgentState.status (graph.values (graph.final r3)) = PENDING_APPROVAL
      /\ AgentState.error_message (graph.values (graph.final r3)) = None
      /\ graph.executions graph.generate (graph.trace r3) = 3%nat)
  /\ (graph.outcome r4 = graph.Finished
      /\ AgentState.status (graph.values (graph.final r4)) = FAILED
      /\ graph.executions graph.generate (graph.trace r4) = 3%nat)
  /\ (graph.outcome rf = graph.Raised "model unavailable"
      /\ AgentState.status (graph.values (graph.final rf)) = DRAFT
      /\ graph.executions graph.generate (graph.trace rf) = 1%nat).
Proof.
  cbv zeta. split; [reflexivity|]. split; [reflexivity|].
  split; [vm_compute; auto|]. split; [vm_compute; eauto|].
  split; vm_compute; auto.
Qed.

(** C1, amended: a new thread (no attempt yet, budget [m >= 1]) whose
    every round is answered by a rejection.  Whatever the model calls
    do, the draft node never completes more than [m] times and the
    attempt counter is the number of its completed executions; the
    thread finishes only in status [FAILED], with the error message that
    names [m], and then the counter and the number of completed
    executions of the draft node are exactly [m]; a thread that was not
    created failed is failed only so.  When every model call answers,
    the thread is still suspended at the approval node, with one draft
    more than rounds, after fewer than [m] rounds, and it has finished,
    failed, after [m] rounds.  On a rejection the feedback node returns
    status [DRAFT] (clearing the feedback) while the counter is below the
    budget, and status [FAILED] with the message naming the budget once
    the counter has reached it. *)
Theorem always_rejected_thread_fails_only_at_budget
    (w0 : world) (s0 : AgentState.t) (rounds : list thread.round)
    (now : Z) (s : AgentState.t) (fb : HumanFeedback.t) :
  AgentState.generation_attempts s0 = 0 ->
  1 <= AgentState.max_attempts s0 ->
  Forall rejected rounds ->
  AgentState.human_feedback s = Some fb ->
  HumanFeedback.action fb = reject ->
  let m := AgentState.max_attempts s0 in
  let r := thread.start_then_resume w0 s0 rounds in
  let sf := graph.values (graph.final r) in
  Z.of_nat (graph.executions graph.generate (graph.trace r)) <= m
  /\ AgentState.generation_attempts sf
     = Z.of_nat (graph.executions graph.generate (graph.trace r))
  /\ (graph.outcome r = graph.Finished ->
        graph.next (graph.final r) = graph.END
        /\ AgentState.status sf = FAILED
        /\ AgentState.error_message sf
           = Some ("Max generation attempts (" +:+ PyStr.of_int m +:+ ") reached")
        /\ AgentState.generation_attempts sf = m
        /\ Z.of_nat (graph.executions graph.generate (graph.trace r)) = m)
  /\ (AgentState.status s0 <> FAILED ->
      AgentState.status sf = FAILED ->
        graph.outcome r = graph.Finished)
  /\ (thread.llm_replies w0 ->
      Forall (fun rd => thread.llm_replies rd.2) rounds ->
        (Z.of_nat (List.length rounds) < m ->
           (exists p, graph.outcome r = graph.Interrupted p)
           /\ AgentState.status sf = PENDING_APPROVAL
           /\ graph.executions graph.generate (graph.trace r) = S (List.length rounds))
        /\ (m <= Z.of_nat (List.length rounds) ->
              graph.outcome r = graph.Finished))
  /\ nodes.process_feedback now s
     = if decide (AgentState.generation_attempts s < AgentState.max_attempts s)
       then [ set_status DRAFT; set_human_feedback None ]
       else [ set_status FAILED;
              set_error_message
                (Some ("Max generation attempts ("
                       +:+ PyStr.of_int (AgentState.max_attempts s)
                       +:+ ") reached")) ].
Proof.
  intros H0 Hm Hall Hfb Hact m r sf.
  pose proof (rejected_thread_within_budget w0 s0 rounds H0 Hm Hall) as Hin.
  fold m r in Hin.
  split; [|split; [|split; [|split; [|split]]]].
  - destruct Hin as [(k & Hr & Hle)|[[k Hr]|Hr]].
    + destruct Hr as (_ & _ & _ & _ & _ & _ & H1 & ->). lia.
    + destruct Hr as (_ & _ & _ & _ & _ & Hkm & ->). lia.
    + destruct Hr as (_ & _ & _ & _ & _ & ->). lia.
  - fold sf in Hin. destruct Hin as [(k & Hr & Hle)|[[k Hr]|Hr]].
    + destruct Hr as (_ & _ & _ & _ & Hk & _ & H1 & ->). fold sf in Hk. lia.
    + destruct Hr as (_ & _ & _ & Hk & _ & Hkm & ->). fold sf in Hk. lia.
    + destruct Hr as (_ & _ & _ & _ & Hk & ->). fold sf in Hk. lia.
  - intros Hout. destruct Hin as [(k & Hr & Hle)|[[k Hr]|Hr]].
    + destruct Hr as (_ & [p Hp] & _). congruence.
    + destruct Hr as (_ & [e He] & _). congruence.
    + destruct Hr as (_ & Hnext & Hst & Herr & Hk & Hex).
      repeat split; try assumption. rewrite Hex. lia.
  - intros Hs0 Hsf. destruct Hin as [(k & Hr & Hle)|[[k Hr]|Hr]].
    + destruct Hr as (_ & _ & _ & Hst & _). fold sf in Hst. congruence.
    + destruct Hr as (_ & _ & [Hst|Hst] & _); fold sf in Hst; congruence.
    + exact (proj1 Hr).
  - intros Hllm Hllms.
    assert (Hrej : Forall thread.rejecting_round rounds).
    { apply Forall_forall. intros rd Hrd. split.
      - exact (proj1 (Forall_forall _ _) Hall rd Hrd).
      - exact (proj1 (Forall_forall _ _) Hllms rd Hrd). }
    destruct (Hllm 0%nat) as (c1 & c2 & Hc1 & Hc2).
    pose proof (start_awaiting w0 s0 c1 c2 H0 Hc1 Hc2) as Hstart. fold m in Hstart.
    split.
    + intros Hlt.
      pose proof (rejections_within_budget m rounds _ 1 Hstart Hrej ltac:(lia)) as Hr.
      fold (thread.start_then_resume w0 s0 rounds) in Hr. fold r in Hr.
      destruct Hr as (_ & Hp & _ & Hst & _ & _ & _ & Hex).
      split; [exact Hp|]. split; [exact Hst|]. rewrite Hex. lia.
    + intros Hle. subst r.
      rewrite <- (take_drop (Z.to_nat m) rounds) in Hrej |- *.
      apply Forall_app in Hrej as [Htake _].
      assert (Hlen : Z.of_nat (List.length (take (Z.to_nat m) rounds)) = m).
      { rewrite length_take. lia. }
      destruct (rejections_exhaust_budget w0 s0 _ H0 Hm Hllm Htake Hlen)
        as (Hout & Hnext & _).
      unfold thread.start_then_resume in *. rewrite resume_all_app.
      exact (proj1 (proj2 (resume_all_at_end graph.generate
                             (drop (Z.to_nat m) rounds) _ Hnext Hout))).
  - exact (process_feedback_reject now s fb Hfb Hact).
Qed.

Lemma always_rejected_thread_fails_only_at_budget_witness :
  let w := {| llm_post := fun _ => LlmContent "Hello World";
              llm_tags := fun _ => LlmContent "ai";
              utcnow := fun _ => 0;
              connector := fun _ _ _ => PublishOk None |} in
  let wf := {| llm_post := fun _ => LlmError "model unavailable";
               llm_tags := fun _ => LlmContent "ai";
               utcnow := fun _ => 0;
               connector := fun _ _ _ => PublishOk None |} in
  let s0 := AgentState.create "AI safety" TWITTER "casual" "" "t1" in
  let v := ResumeStr "reject" in
  let r := thread.start_then_resume w s0 [(v, w); (v, w); (v, w)] in
  let r' := thread.start_then_resume w s0 [(v, wf); (v, w); (v, w); (v, w)] in
  (graph.outcome r = graph.Finished
   /\ graph.next (graph.final r) = graph.END
   /\ AgentState.status (graph.values (graph.final r)) = FAILED
   /\ AgentState.error_message (graph.values (graph.final r))
      = Some "Max generation attempts (3) reached"
   /\ AgentState.generation_attempts (graph.values (graph.final r)) = 3
   /\ Z.of_nat (graph.executions graph.generate (graph.trace r)) = 3)
  /\ (graph.next (graph.final r') = graph.END
      /\ AgentState.status (graph.values (graph.final r')) = FAILED
      /\ AgentState.error_message (graph.values (graph.final r'))
         = Some "Max generation attempts (3) reached"
      /\ AgentState.generation_attempts (graph.values (graph.final r')) = 3
      /\ Z.of_nat (graph.executions graph.generate (graph.trace r')) = 3).
Proof.
  intros w wf s0 v r r'.
  assert (Hllm : thread.llm_replies w).
  { intros k. eexists _, _. split; reflexivity. }
  assert (Hrej : forall w', rejected (v, w')).
  { intros w'. eexists. split; reflexivity. }
  assert (Hall : Forall rejected [(v, w); (v, w); (v, w)]).
  { repeat (constructor; [apply Hrej|]). constructor. }
  assert (Hall' : Forall rejected [(v, wf); (v, w); (v, w); (v, w)]).
  { repeat (constructor; [apply Hrej|]). constructor. }
  assert (Hllms : Forall (fun rd : thread.round => thread.llm_replies rd.2)
                    [(v, w); (v, w); (v, w)]).
  { repeat (constructor; [exact Hllm|]). constructor. }
  pose (sr := AgentState.mk [] "" TWITTER "" "" None PENDING_APPROVAL
                (Some (HumanFeedback.mk reject None None)) 3 3 None None "").
  pose proof (always_rejected_thread_fails_only_at_budget w s0
                [(v, w); (v, w); (v, w)] 0 sr (HumanFeedback.mk reject None None)
                eq_refl ltac:(cbn; lia) Hall eq_refl eq_refl) as H.
  pose proof (always_rejected_thread_fails_only_at_budget w s0
                [(v, wf); (v, w); (v, w); (v, w)] 0 sr
                (HumanFeedback.mk reject None None)
                eq_refl ltac:(cbn; lia) Hall' eq_refl eq_refl) as H'.
  cbv zeta in H, H'.
  destruct H as (_ & _ & Hfin & _ & Hlive & _).
  destruct H' as (_ & _ & Hfin' & _).
  pose proof (proj2 (Hlive Hllm Hllms) ltac:(cbn; lia)) as Hout.
  split; [exact (conj Hout (Hfin Hout))|].
  exact (Hfin' eq_refl).
Defined.

End bounded_regeneration.

Section resume_endpoint.

(** A status written by a node is terminal only if the edge that follows
    leads to the end marker. *)
Lemma run_node_terminal_ends w step resume n s u evs cur' :
  terminal (AgentState.status s) = false ->
  graph.run_node w step resume n s = (Return u, evs) ->
  graph.next_target n (apply_update s u) = Some cur' ->
  terminal (AgentState.status (apply_update s u)) = false \/ cur' = graph.END.
Proof.
  intros Hs. destruct n; cbn.
  - destruct (llm_post w step); [|discriminate].
    destruct (llm_tags w step); [|discriminate].
    intros [= <- _] _. left. reflexivity.
  - unfold nodes.request_approval.
    destruct (AgentState.post_content s); [|intros [= <- _] _; left; exact Hs].
    destruct resume as [v|]; [|discriminate].
    destruct (nodes._parse_human_response v); [|discriminate].
    intros [= <- _] _; left; exact Hs.
  - intros [= <- _]. unfold nodes.process_feedback.
    destruct (AgentState.human_feedback s) as [fb|]; [|intros _; left; reflexivity].
    destruct (HumanFeedback.action fb); [intros _; left; reflexivity| |].
    + destruct (_ >=? _)%Z; [|intros _; left; reflexivity].
      cbn. intros [= <-]. right. reflexivity.
    + destruct (AgentState.post_content s); [|intros _; left; reflexivity].
      destruct (nodes.truthy_text _); intros _; left; reflexivity.
  - intros _ [= <-]. right. reflexivity.
Qed.

(** An invocation that raises leaves a checkpoint whose status is not
    terminal, when it started from such a state. *)
Lemma run_raised_not_terminal fuel : forall w step resume cur s e,
  terminal (AgentState.status s) = false ->
  graph.outcome (graph.run fuel w step resume cur s) = graph.Raised e ->
  terminal (AgentState.status
              (graph.values (graph.final (graph.run fuel w step resume cur s))))
  = false.
Proof.
  induction fuel as [|fuel IH]; intros w step resume [n|] s e Hs;
    rewrite ?run_END; try (cbn; intros; first [assumption|discriminate]).
  rewrite run_step.
  destruct (graph.run_node w step resume n s) as [[u|p|e'] evs] eqn:Hn;
    try (cbn; intros; assumption).
  destruct (graph.next_target n (apply_update s u)) as [cur'|] eqn:Hnext;
    [|cbn; intros; assumption].
  cbn [graph.observe graph.final graph.outcome].
  destruct (run_node_terminal_ends _ _ _ _ _ _ _ _ Hs Hn Hnext) as [Hs'| ->].
  - apply IH. exact Hs'.
  - rewrite run_END. discriminate.
Qed.

(** The first invocation of a thread either raises or suspends with the
    status [PENDING_APPROVAL]. *)
Lemma ainvoke_input_suspends w s :
  let r := graph.ainvoke_input w s in
  (exists e, graph.outcome r = graph.Raised e /\ graph.values (graph.final r) = s)
  \/ AgentState.status (graph.values (graph.final r)) = PENDING_APPROVAL.
Proof.
  cbv zeta. unfold graph.ainvoke_input, graph.recursion_limit, graph.entry_point.
  rewrite run_step. cbn [graph.run_node]. unfold nodes.generate_post.
  destruct (llm_post w 0) as [c1|e1]; [|left; eexists; split; reflexivity].
  destruct (llm_tags w 0) as [c2|e2]; [|left; eexists; split; reflexivity].
  right. cbn [graph.next_target]. rewrite run_step. reflexivity.
Qed.

(** Every pending thread has a checkpoint, and its status there is not
    terminal. *)
Lemma generate_post_consistent w thread_id request srv :
  api.consistent srv ->
  api.consistent (api.generate_post w thread_id request srv).2.
Proof.
  intros Hsrv tid entry. unfold api.generate_post.
  set (s0 := AgentState.create _ _ _ _ _).
  pose proof (ainvoke_input_suspends w s0) as Hrun. cbv zeta in Hrun.
  destruct (graph.outcome (graph.ainvoke_input w s0)) eqn:Hout.
  1,2: destruct (AgentState.post_content _); cbn [snd api.pending_threads api.checkpointer];
       (destruct (decide (tid = thread_id)) as [->|Hne];
        [ rewrite !lookup_insert_eq; intros _; eexists; split; [reflexivity|];
          destruct Hrun as [(e & He & _)| ->]; [congruence|reflexivity]
        | rewrite !lookup_insert_ne by congruence; apply Hsrv ]).
  cbn [snd api.pending_threads api.checkpointer]. intros Hp.
  destruct (Hsrv tid entry Hp) as (ck & Hck & Hterm).
  destruct (decide (tid = thread_id)) as [->|Hne].
  - rewrite lookup_insert_eq. eexists; split; [reflexivity|].
    destruct Hrun as [(e & He & ->)| ->]; reflexivity.
  - rewrite lookup_insert_ne by congruence. eauto.
Qed.

Lemma approve_post_consistent w thread_id request srv :
  api.consistent srv ->
  api.consistent (api.approve_post w thread_id request srv).2.
Proof.
  intros Hsrv. unfold api.approve_post.
  destruct (api.pending_threads srv !! thread_id) as [entry|] eqn:Hp; [|exact Hsrv].
  destruct (Hsrv _ _ Hp) as (ck & Hck & Hterm). rewrite Hck.
  set (r := graph.ainvoke_resume w _ ck).
  assert (Hraised : forall e, graph.outcome r = graph.Raised e ->
            terminal (AgentState.status (graph.values (graph.final r))) = false).
  { intros e. apply run_raised_not_terminal. exact Hterm. }
  assert (Hdone : forall tid entry',
    (if terminal (AgentState.status (graph.values (graph.final r)))
     then delete thread_id (api.pending_threads srv)
     else <[thread_id := {| api.topic := api.topic entry;
                            api.platform := api.platform entry;
                            api.result := graph.values (graph.final r) |}]>
            (api.pending_threads srv)) !! tid = Some entry' ->
    exists ck', <[thread_id := graph.final r]> (api.checkpointer srv) !! tid = Some ck'
                /\ terminal (AgentState.status (graph.values ck')) = false).
  { intros tid entry'.
    destruct (decide (tid = thread_id)) as [->|Hne].
    - rewrite lookup_insert_eq.
      destruct (terminal (AgentState.status (graph.values (graph.final r)))) eqn:Ht;
        cbv beta iota.
      + rewrite lookup_delete_eq. discriminate.
      + intros _. eauto.
    - destruct (terminal (AgentState.status (graph.values (graph.final r))));
        cbv beta iota.
      + rewrite lookup_delete_ne, lookup_insert_ne by congruence. apply Hsrv.
      + rewrite !lookup_insert_ne by congruence. apply Hsrv. }
  destruct (graph.outcome r) eqn:Hout; cbn [snd];
    intros tid entry'; cbn [api.pending_threads api.checkpointer];
    try apply Hdone.
  intros Hp'. destruct (decide (tid = thread_id)) as [->|Hne].
  - rewrite lookup_insert_eq. eauto.
  - rewrite lookup_insert_ne by congruence. eauto.
Qed.

Lemma reachable_consistent srv : api.reachable srv -> api.consistent srv.
Proof.
  induction 1 as [|srv w tid request _ IH _|srv w tid request _ IH].
  - intros tid entry. cbn. rewrite lookup_empty. discriminate.
  - apply generate_post_consistent, IH.
  - apply approve_post_consistent, IH.
Qed.

(** C4: on a server reached through the two endpoints, resuming a thread
    that is not pending, that has no checkpoint, or whose checkpointed
    status is [PUBLISHED] or [FAILED], is refused with
    [HTTPException(404, Thread not found)], and the server state (the
    checkpoints and the pending entries of all threads) is unchanged: in
    particular nothing is created for an unknown thread. *)
Theorem approve_post_refuses_unknown_or_terminal_thread
    (srv : api.server) (w : world) (thread_id : string)
    (request : api.ApprovalRequest) :
  api.reachable srv ->
  (api.pending_threads srv !! thread_id = None
   \/ api.checkpointer srv !! thread_id = None
   \/ exists ck, api.checkpointer srv !! thread_id = Some ck
                 /\ terminal (AgentState.status (graph.values ck)) = true) ->
  api.approve_post w thread_id request srv
  = (api.HTTPException 404 "Thread not found", srv).
Proof.
  intros Hreach Hcase.
  assert (Hp : api.pending_threads srv !! thread_id = None).
  { destruct (api.pending_threads srv !! thread_id) as [entry|] eqn:Hp; [|reflexivity].
    destruct (reachable_consistent _ Hreach _ _ Hp) as (ck & Hck & Hterm).
    destruct Hcase as [Hc|[Hc|(ck' & Hc & Ht)]]; congruence. }
  unfold api.approve_post. rewrite Hp. reflexivity.
Qed.

Lemma approve_post_refuses_unknown_or_terminal_thread_witness :
  let w := {| llm_post := fun _ => LlmContent "Hello World";
              llm_tags := fun _ => LlmContent "ai";
              utcnow := fun _ => 0;
              connector := fun _ _ _ => PublishOk (Some (Some "https://twitter.com/user/status/1")) |} in
  let generate := {| api.gen_topic := "AI safety"; api.gen_platform := TWITTER;
                     api.gen_tone := "casual"; api.gen_additional_context := "" |} in
  let approval := {| api.action := approve; api.edited_text := None;
                     api.feedback_message := None |} in
  let srv1 := (api.generate_post w "t1" generate api.startup).2 in
  let srv2 := (api.approve_post w "t1" approval srv1).2 in
  api.approve_post w "unknown-thread" approval srv1
  = (api.HTTPException 404 "Thread not found", srv1)
  /\ api.approve_post w "t1" approval srv2
     = (api.HTTPException 404 "Thread not found", srv2).
Proof.
  intros w generate approval srv1 srv2.
  assert (H1 : api.reachable srv1).
  { apply api.reach_generate; [apply api.reach_startup | reflexivity]. }
  assert (H2 : api.reachable srv2).
  { apply api.reach_approve. exact H1. }
  split.
  - apply (approve_post_refuses_unknown_or_terminal_thread srv1 w
             "unknown-thread" approval H1).
    right. left. vm_compute. reflexivity.
  - apply (approve_post_refuses_unknown_or_terminal_thread srv2 w
             "t1" approval H2).
    right. right. eexists. split; [vm_compute; reflexivity | reflexivity].
Defined.

End resume_endpoint.

(* ===================================================================== *)
(** ** Further properties of the modelled code *)
(* ===================================================================== *)

Section python_strings.

(** A string that starts with a non-space character keeps it under
    [rstrip]. *)
Lemma rstrip_cons_nonspace c s :
  PyStr.isspace c = false ->
  exists s', PyStr.rstrip (String c s) = String c s'.
Proof.
  intros Hc. cbn. destruct (PyStr.rstrip s); [rewrite Hc|]; eauto.
Qed.

Lemma rstrip_idemp s : PyStr.rstrip (PyStr.rstrip s) = PyStr.rstrip s.
Proof.
  induction s as [|c s IH]; cbn; [reflexivity|].
  destruct (PyStr.rstrip s) as [|c' r] eqn:Hr.
  - destruct (PyStr.isspace c) eqn:Hc; cbn; [reflexivity|]. rewrite Hc. reflexivity.
  - change (PyStr.rstrip (String c (String c' r)))
      with (match PyStr.rstrip (String c' r) with
            | EmptyString => if PyStr.isspace c then EmptyString else String c EmptyString
            | r0 => String c r0
            end).
    rewrite IH. reflexivity.
Qed.

Lemma lstrip_nonspace s :
  PyStr.lstrip s = EmptyString
  \/ exists c s', PyStr.lstrip s = String c s' /\ PyStr.isspace c = false.
Proof.
  induction s as [|c s IH]; cbn; [auto|].
  destruct (PyStr.isspace c) eqn:Hc; [exact IH|]. right. eauto.
Qed.

Lemma strip_idemp s : PyStr.strip (PyStr.strip s) = PyStr.strip s.
Proof.
  unfold PyStr.strip.
  destruct (lstrip_nonspace s) as [->|(c & s' & -> & Hc)]; [reflexivity|].
  destruct (rstrip_cons_nonspace c s' Hc) as [r Hr]. rewrite Hr.
  cbn [PyStr.lstrip]. rewrite Hc, <- Hr. apply rstrip_idemp.
Qed.

Lemma lstrip_char_idemp ch s :
  PyStr.lstrip_char ch (PyStr.lstrip_char ch s) = PyStr.lstrip_char ch s.
Proof.
  induction s as [|c s IH]; cbn; [reflexivity|].
  destruct (Ascii.eqb c ch) eqn:Hc; [exact IH|]. cbn. rewrite Hc. reflexivity.
Qed.

Lemma length_append s1 s2 :
  String.length (s1 +:+ s2) = (String.length s1 + String.length s2)%nat.
Proof.
  induction s1 as [|c s1 IH]; [reflexivity|].
  change (S (String.length (s1 +:+ s2)) = S (String.length s1 + String.length s2)).
  rewrite IH. reflexivity.
Qed.

(** A string that starts with [p] is [p] followed by its slice from
    [len(p)]. *)
Lemma startswith_slice_from p : forall s,
  PyStr.startswith p s = true ->
  s = p +:+ PyStr.slice_from (String.length p) s.
Proof.
  unfold PyStr.startswith.
  induction p as [|a p IH]; intros s Hp; [reflexivity|].
  destruct s as [|b s]; [discriminate Hp|].
  cbn in Hp. destruct (ascii_dec a b) as [->|]; [|discriminate Hp].
  change (String b s = String b (p +:+ PyStr.slice_from (String.length p) s)).
  f_equal. exact (IH s Hp).
Qed.

(** A trimmed string is empty or starts with a character that is not
    white space. *)
Lemma strip_nonspace s :
  PyStr.strip s = EmptyString
  \/ exists c s', PyStr.strip s = String c s' /\ PyStr.isspace c = false.
Proof.
  unfold PyStr.strip.
  destruct (lstrip_nonspace s) as [->|(c & s' & -> & Hc)]; [left; reflexivity|].
  destruct (rstrip_cons_nonspace c s' Hc) as [r Hr]. rewrite Hr. right. eauto.
Qed.

End python_strings.

Section normalizer_more.

Lemma action_of_string_value a : action_of_string (action_value a) = Some a.
Proof. destruct a; reflexivity. Qed.

Lemma action_of_string_Some s a :
  action_of_string s = Some a -> s = action_value a.
Proof.
  unfold action_of_string.
  destruct (String.eqb s "approve") eqn:H1; [apply String.eqb_eq in H1; intros [= <-]; exact H1|].
  destruct (String.eqb s "reject") eqn:H2; [apply String.eqb_eq in H2; intros [= <-]; exact H2|].
  destruct (String.eqb s "edit") eqn:H3; [apply String.eqb_eq in H3; intros [= <-]; exact H3|].
  discriminate.
Qed.

(** X1: the string form of a resume value never fails, and it is decided
    by the trimmed, lower-cased response alone: a rejection exactly when
    that is [reject], an edit exactly when it starts with [edit:], an
    approval otherwise; a message is attached exactly when the response is
    none of the three forms. *)
Theorem parse_string_form_decided_by_normalized_response (response : string) :
  let r := PyStr.lower (PyStr.strip response) in
  exists fb,
    nodes._parse_human_response (ResumeStr response) = Ok fb
    /\ (HumanFeedback.action fb = reject <-> r = "reject")
    /\ (HumanFeedback.action fb = edit <-> PyStr.startswith "edit:" r = true)
    /\ (HumanFeedback.edited_text fb <> None <-> HumanFeedback.action fb = edit)
    /\ (HumanFeedback.feedback_message fb <> None
        <-> r <> "approve" /\ r <> "reject" /\ PyStr.startswith "edit:" r = false).
Proof.
  intros r. unfold nodes._parse_human_response. fold r.
  destruct (String.eqb r "approve") eqn:Ha.
  { apply String.eqb_eq in Ha. eexists. split; [reflexivity|]. cbn. rewrite Ha.
    repeat split; try discriminate; try tauto; intros; intuition congruence. }
  destruct (String.eqb r "reject") eqn:Hr.
  { apply String.eqb_eq in Hr. eexists. split; [reflexivity|]. cbn. rewrite Hr.
    repeat split; try discriminate; try tauto; intros; intuition congruence. }
  apply String.eqb_neq in Ha, Hr.
  destruct (PyStr.startswith "edit:" r) eqn:He.
  - eexists. split; [reflexivity|]. cbn.
    repeat split; try discriminate; try tauto; intros; intuition congruence.
  - eexists. split; [reflexivity|]. cbn.
    repeat split; try discriminate; try tauto; intros; intuition congruence.
Qed.

(** X2: for a response whose trimmed, lower-cased form starts with
    [edit:], the resume value is an edit without message whose text is
    cut out of that normalized form, as the code does it: the normalized
    form is [edit:] followed by a rest, and the edited text is the trim of
    that rest.  The text is therefore empty or starts with a character
    that is not white space, and a further trim changes nothing. *)
Theorem parse_edit_text_is_trimmed_rest_of_normalized_response (response : string) :
  let r := PyStr.lower (PyStr.strip response) in
  PyStr.startswith "edit:" r = true ->
  exists rest,
    r = "edit:" +:+ rest
    /\ nodes._parse_human_response (ResumeStr response)
       = Ok (HumanFeedback.mk edit (Some (PyStr.strip rest)) None)
    /\ PyStr.strip (PyStr.strip rest) = PyStr.strip rest
    /\ (PyStr.strip rest = ""
        \/ exists c s', PyStr.strip rest = String c s' /\ PyStr.isspace c = false).
Proof.
  intros r He. exists (PyStr.slice_from 5 r).
  split; [exact (startswith_slice_from "edit:" r He)|].
  split; [|split; [apply strip_idemp|apply strip_nonspace]].
  unfold nodes._parse_human_response. fold r.
  destruct (String.eqb r "approve") eqn:Ha.
  { apply String.eqb_eq in Ha. rewrite Ha in He. discriminate. }
  destruct (String.eqb r "reject") eqn:Hr.
  { apply String.eqb_eq in Hr. rewrite Hr in He. discriminate. }
  rewrite He. reflexivity.
Qed.

Lemma parse_edit_text_is_trimmed_rest_of_normalized_response_witness :
  exists rest,
    PyStr.lower (PyStr.strip "  Edit:  Launch day ") = "edit:" +:+ rest
    /\ nodes._parse_human_response (ResumeStr "  Edit:  Launch day ")
       = Ok (HumanFeedback.mk edit (Some (PyStr.strip rest)) None)
    /\ PyStr.strip (PyStr.strip rest) = PyStr.strip rest
    /\ (PyStr.strip rest = ""
        \/ exists c s', PyStr.strip rest = String c s' /\ PyStr.isspace c = false).
Proof.
  exact (parse_edit_text_is_trimmed_rest_of_normalized_response
           "  Edit:  Launch day " eq_refl).
Defined.

(** X3: for a dict whose values are [None], strings or integers, the dict
    form is accepted exactly when [action] holds one of the three literal
    strings and each of [edited_text] and [feedback_message] is absent,
    holds [None] or holds a string; the record then has that action and,
    for each of the two optional fields, the string that the dict holds
    there, [None] when it holds [None] or nothing; any other key of the
    dict is ignored. *)
Theorem parse_dict_form_validation (d : gmap string PyVal) (k : string) (v : PyVal) :
  ((exists fb, nodes._parse_human_response (ResumeDict d) = Ok fb)
   <-> (d !! "action" = Some (PyStr "approve")
        \/ d !! "action" = Some (PyStr "reject")
        \/ d !! "action" = Some (PyStr "edit"))
       /\ (d !! "edited_text" = None
           \/ d !! "edited_text" = Some PyNone
           \/ exists t, d !! "edited_text" = Some (PyStr t))
       /\ (d !! "feedback_message" = None
           \/ d !! "feedback_message" = Some PyNone
           \/ exists t, d !! "feedback_message" = Some (PyStr t)))
  /\ (forall fb, nodes._parse_human_response (ResumeDict d) = Ok fb ->
        match HumanFeedback.action fb with
        | approve => d !! "action" = Some (PyStr "approve")
        | reject => d !! "action" = Some (PyStr "reject")
        | edit => d !! "action" = Some (PyStr "edit")
        end
        /\ HumanFeedback.edited_text fb
           = match d !! "edited_text" with
             | Some (PyStr t) => Some t
             | _ => None
             end
        /\ HumanFeedback.feedback_message fb
           = match d !! "feedback_message" with
             | Some (PyStr t) => Some t
             | _ => None
             end)
  /\ (if decide (k = "action" \/ k = "edited_text" \/ k = "feedback_message")
      then True
      else nodes._parse_human_response (ResumeDict (<[k := v]> d))
           = nodes._parse_human_response (ResumeDict d)).
Proof.
  assert (Hfields : forall fb, nodes._parse_human_response (ResumeDict d) = Ok fb ->
        d !! "action" = Some (PyStr (action_value (HumanFeedback.action fb)))
        /\ (d !! "edited_text" = None
            \/ d !! "edited_text" = Some PyNone
            \/ exists t, d !! "edited_text" = Some (PyStr t))
        /\ (d !! "feedback_message" = None
            \/ d !! "feedback_message" = Some PyNone
            \/ exists t, d !! "feedback_message" = Some (PyStr t))
        /\ HumanFeedback.edited_text fb
           = match d !! "edited_text" with
             | Some (PyStr t) => Some t
             | _ => None
             end
        /\ HumanFeedback.feedback_message fb
           = match d !! "feedback_message" with
             | Some (PyStr t) => Some t
             | _ => None
             end).
  { intros fb. cbn. unfold nodes.HumanFeedback_of_dict.
    destruct (d !! "action") as [[|a|]|]; try discriminate.
    destruct (action_of_string a) as [act|] eqn:Hact; [|discriminate].
    apply action_of_string_Some in Hact. subst a.
    destruct (d !! "edited_text") as [[|et|]|];
      destruct (d !! "feedback_message") as [[|fm|]|];
      cbn; try discriminate; intros [= <-]; cbn;
      repeat split; eauto. }
  split; [|split].
  - split.
    + intros [fb Hfb]. destruct (Hfields fb Hfb) as (Ha & He & Hm & _).
      split; [|split; assumption].
      rewrite Ha. destruct (HumanFeedback.action fb); cbn; auto.
    + intros (Ha & He & Hm). cbn. unfold nodes.HumanFeedback_of_dict.
      destruct Ha as [-> | [-> | ->]];
        destruct He as [-> | [-> | [t ->]]];
        destruct Hm as [-> | [-> | [t' ->]]]; cbn; eauto.
  - intros fb Hfb. destruct (Hfields fb Hfb) as (Ha & _ & _ & He & Hm).
    split; [|split; assumption].
    destruct (HumanFeedback.action fb); exact Ha.
  - destruct (decide _) as [|Hk]; [exact I|].
    unfold nodes._parse_human_response, nodes.HumanFeedback_of_dict.
    rewrite !lookup_insert_ne by (intros ->; tauto). reflexivity.
Qed.

Lemma feedback_payload_round_trip_run (request : api.ApprovalRequest) :
  nodes._parse_human_response (ResumeDict (api.feedback_payload request))
  = Ok (HumanFeedback.mk (api.action request) (api.edited_text request)
          (api.feedback_message request)).
Proof.
  unfold nodes._parse_human_response, nodes.HumanFeedback_of_dict, api.feedback_payload.
  rewrite lookup_insert_eq, action_of_string_value.
  rewrite (lookup_insert_ne _ "action" "edited_text"),
    (lookup_insert_ne _ "action" "feedback_message"),
    (lookup_insert_ne _ "edited_text" "feedback_message") by discriminate.
  rewrite !lookup_insert_eq.
  destruct (api.edited_text request), (api.feedback_message request); reflexivity.
Qed.

(** X4: the dict that the approval endpoint builds from a request is
    always accepted by the normalizer and yields the request's three
    fields. *)
Theorem feedback_payload_round_trip (request : api.ApprovalRequest) :
  nodes._parse_human_response (ResumeDict (api.feedback_payload request))
  = Ok (HumanFeedback.mk (api.action request) (api.edited_text request)
          (api.feedback_message request)).
Proof. exact (feedback_payload_round_trip_run request). Qed.

End normalizer_more.

Section draft_content.

Lemma length_concat_hashtags tag tags :
  (String.length (String.concat " " (map (fun t => "#" +:+ t) (tag :: tags))) + 1
   = sum_list_with (fun t => String.length t + 2) (tag :: tags))%nat.
Proof.
  revert tag. induction tags as [|tag' tags IH]; intros tag.
  - change (String.concat " " (map (fun t => "#" +:+ t) [tag])) with ("#" +:+ tag).
    rewrite length_append. cbn. lia.
  - change (String.concat " " (map (fun t => "#" +:+ t) (tag :: tag' :: tags)))
      with (("#" +:+ tag) +:+ " "
            +:+ String.concat " " (map (fun t => "#" +:+ t) (tag' :: tags))).
    rewrite !length_append. specialize (IH tag').
    change (sum_list_with (fun t => String.length t + 2) (tag :: tag' :: tags))%nat
      with (String.length tag + 2
            + sum_list_with (fun t => String.length t + 2) (tag' :: tags))%nat.
    cbn [String.length] in *. lia.
Qed.

(** X5: the character count of a draft is the length of its text when it
    has no hashtag, and otherwise the length of its text, plus one, plus
    for every hashtag its length plus two; it is never smaller than the
    length of the text. *)
Theorem char_count_by_parts (draft : PostContent.t) :
  PostContent.char_count draft
  = Z.of_nat
      (String.length (PostContent.text draft)
       + match PostContent.hashtags draft with
         | [] => 0
         | _ :: _ =>
             1 + sum_list_with (fun tag => String.length tag + 2)
                   (PostContent.hashtags draft)
         end)%nat
  /\ PyStr.len (PostContent.text draft) <= PostContent.char_count draft.
Proof.
  assert (H : PostContent.char_count draft
  = Z.of_nat
      (String.length (PostContent.text draft)
       + match PostContent.hashtags draft with
         | [] => 0
         | _ :: _ =>
             1 + sum_list_with (fun tag => String.length tag + 2)
                   (PostContent.hashtags draft)
         end)%nat).
  { unfold PostContent.char_count, PostContent.formatted_text, PyStr.len, PyStr.join.
    destruct (PostContent.hashtags draft) as [|tag tags]; [f_equal; lia|].
    rewrite !length_append.
    pose proof (length_concat_hashtags tag tags) as Hsum.
    change (String.length PyStr.nl) with 1%nat. lia. }
  split; [exact H|]. rewrite H. unfold PyStr.len. lia.
Qed.

Lemma startswith_lstrip_char s :
  PyStr.startswith "#" (PyStr.lstrip_char "#" s) = false.
Proof.
  induction s as [|c s IH]; [reflexivity|]. cbn [PyStr.lstrip_char].
  destruct (Ascii.eqb c "#") eqn:Hc; [exact IH|].
  clear IH. destruct c as [[] [] [] [] [] [] [] []];
    first [discriminate Hc | reflexivity].
Qed.

Lemma parse_hashtags_no_hash content :
  Forall (fun tag => PyStr.startswith "#" tag = false) (nodes.parse_hashtags content).
Proof.
  unfold nodes.parse_hashtags. apply Forall_forall. intros tag Hin.
  apply list_elem_of_In, in_map_iff in Hin as (raw & <- & _).
  apply startswith_lstrip_char.
Qed.

(** X6: the draft node never suspends; it raises exactly when one of the
    two model calls raises, with that call's message (the second call is
    not consulted when the first fails); otherwise the merged state has a
    draft whose text is the trimmed reply (a further trim changes
    nothing), whose platform is the state's, none of whose hashtags starts
    with [#], the status [PENDING_APPROVAL], and one more message, which
    shows the rendered draft. *)
Theorem generate_post_result (r1 r2 : llm_reply) (now : Z) (s : AgentState.t) :
  match nodes.generate_post r1 r2 now s with
  | Return u =>
      exists c1 c2 pc,
        r1 = LlmContent c1 /\ r2 = LlmContent c2
        /\ AgentState.post_content (apply_update s u) = Some pc
        /\ PostContent.text pc = PyStr.strip c1
        /\ PyStr.strip (PostContent.text pc) = PostContent.text pc
        /\ PostContent.platform pc = AgentState.platform s
        /\ PostContent.created_at pc = now
        /\ Forall (fun tag => PyStr.startswith "#" tag = false) (PostContent.hashtags pc)
        /\ AgentState.status (apply_update s u) = PENDING_APPROVAL
        /\ AgentState.messages (apply_update s u)
           = (AgentState.messages s
              ++ [ AIMessage ("Generated " +:+ platform_value (AgentState.platform s)
                              +:+ " post:" +:+ PyStr.nl +:+ PyStr.nl
                              +:+ PostContent.formatted_text pc) ])%list
  | Interrupt _ => False
  | Raise e => r1 = LlmError e \/ (exists c1, r1 = LlmContent c1 /\ r2 = LlmError e)
  end.
Proof.
  unfold nodes.generate_post.
  destruct r1 as [c1|e1]; [|auto]. destruct r2 as [c2|e2]; [|eauto].
  eexists c1, c2, _. split; [reflexivity|]. split; [reflexivity|].
  split; [reflexivity|]. split; [reflexivity|].
  split; [apply strip_idemp|]. split; [reflexivity|]. split; [reflexivity|].
  split; [|split; reflexivity].
  cbn [PostContent.hashtags]. apply Forall_take, parse_hashtags_no_hash.
Qed.

End draft_content.

Section node_updates.

(** The updates a node can return. *)
Lemma run_node_return w step resume n s u evs :
  graph.run_node w step resume n s = (Return u, evs) ->
  (exists pc msg,
     u = [ set_post_content (Some pc); set_status PENDING_APPROVAL;
           set_generation_attempts (AgentState.generation_attempts s + 1);
           set_messages [msg] ])
  \/ (exists m, u = [ set_error_message (Some m) ])
  \/ (exists fb msg, u = [ set_human_feedback (Some fb); set_messages [msg] ])
  \/ u = [ set_status PENDING_APPROVAL ]
  \/ u = [ set_status APPROVED ]
  \/ (exists m, u = [ set_status FAILED; set_error_message (Some m) ])
  \/ u = [ set_status DRAFT; set_human_feedback None ]
  \/ (exists pc, u = [ set_post_content (Some pc); set_status APPROVED ])
  \/ (exists url msg,
        u = [ set_status PUBLISHED; set_published_url url; set_messages [msg] ])
  \/ (exists e msg,
        u = [ set_status FAILED; set_error_message (Some e); set_messages [msg] ]).
Proof.
  destruct n; cbn [graph.run_node].
  - unfold nodes.generate_post.
    destruct (llm_post w step); [|discriminate].
    destruct (llm_tags w step); [|discriminate].
    intros [= <- _]. left. eauto.
  - unfold nodes.request_approval.
    destruct (AgentState.post_content s); [|intros [= <- _]; right; left; eauto].
    destruct resume as [v|]; [|discriminate].
    destruct (nodes._parse_human_response v); [|discriminate].
    intros [= <- _]. do 2 right. left. eauto.
  - intros [= <- _]. unfold nodes.process_feedback.
    destruct (AgentState.human_feedback s) as [fb|]; [|tauto].
    destruct (HumanFeedback.action fb); [tauto| |].
    + destruct (_ >=? _)%Z; [|tauto]. do 5 right. left. eauto.
    + destruct (AgentState.post_content s); [|tauto].
      destruct (nodes.truthy_text _); [|tauto]. do 7 right. left. eauto.
  - unfold nodes.publish_post.
    destruct (AgentState.post_content s); [|intros [= <- _]; do 5 right; left; eauto].
    destruct (connector w step _ _); intros [= <- _].
    + do 8 right. left. eauto.
    + do 9 right. eauto.
Qed.

End node_updates.

Section preserved_relations.

(** A relation between the state before and after that every node
    execution respects is respected by every invocation and by every
    sequence of resumes. *)
Variable R : AgentState.t -> AgentState.t -> Prop.
Hypothesis R_refl : forall s, R s s.
Hypothesis R_trans : forall s1 s2 s3, R s1 s2 -> R s2 s3 -> R s1 s3.
Hypothesis R_step : forall w step resume n s u evs,
  graph.run_node w step resume n s = (Return u, evs) -> R s (apply_update s u).

Lemma run_respects fuel : forall w step resume cur s,
  R s (graph.values (graph.final (graph.run fuel w step resume cur s))).
Proof using R R_refl R_trans R_step.
  induction fuel as [|fuel IH]; intros w step resume [n|] s;
    rewrite ?run_END; try apply R_refl.
  rewrite run_step.
  destruct (graph.run_node w step resume n s) as [[u|p|e] evs] eqn:Hn;
    try apply R_refl.
  destruct (graph.next_target n (apply_update s u)) as [cur'|]; [|apply R_refl].
  cbn [graph.observe graph.final].
  eapply R_trans; [exact (R_step _ _ _ _ _ _ _ Hn)|apply IH].
Qed.

Lemma resume_all_respects rounds : forall r,
  R (graph.values (graph.final r))
    (graph.values (graph.final (thread.resume_all rounds r))).
Proof using R R_refl R_trans R_step.
  induction rounds as [|[v w] rounds IH]; intros r; [apply R_refl|].
  cbn [thread.resume_all]. eapply R_trans; [|apply IH].
  cbn [graph.observe graph.final]. apply run_respects.
Qed.

End preserved_relations.

Section thread_invariants.

Local Ltac by_update H :=
  destruct (run_node_return _ _ _ _ _ _ _ H)
    as [(?&?&->)|[(?&->)|[(?&?&->)|[->|[->|[(?&->)|[->|[(?&->)|[(?&?&->)|(?&?&->)]]]]]]]]].

(** X7: the inputs of a thread (topic, platform, tone, additional context,
    budget and thread id) are never changed: not by a node execution, not
    by an invocation, not by any sequence of resumes. *)
Theorem thread_inputs_never_change
    (fuel : nat) (w : world) (step : nat) (resume : option resume_value)
    (cur : graph.target) (s : AgentState.t)
    (rounds : list thread.round) (r0 : graph.run_result) :
  inputs (graph.values (graph.final (graph.run fuel w step resume cur s))) = inputs s
  /\ inputs (graph.values (graph.final (thread.resume_all rounds r0)))
     = inputs (graph.values (graph.final r0)).
Proof.
  assert (Hstep : forall w step resume n s u evs,
    graph.run_node w step resume n s = (Return u, evs) ->
    inputs (apply_update s u) = inputs s).
  { intros ? ? ? ? ? ? ? H. by_update H; reflexivity. }
  split.
  - apply (run_respects (fun s s' => inputs s' = inputs s)); [done|congruence|exact Hstep].
  - apply (resume_all_respects (fun s s' => inputs s' = inputs s));
      [done|congruence|exact Hstep].
Qed.

(** X8: the message log only grows: the messages of the state before an
    invocation, or before a sequence of resumes, are a prefix of the
    messages after it. *)
Theorem messages_are_append_only
    (fuel : nat) (w : world) (step : nat) (resume : option resume_value)
    (cur : graph.target) (s : AgentState.t)
    (rounds : list thread.round) (r0 : graph.run_result) :
  AgentState.messages s
    `prefix_of` AgentState.messages
                  (graph.values (graph.final (graph.run fuel w step resume cur s)))
  /\ AgentState.messages (graph.values (graph.final r0))
       `prefix_of` AgentState.messages
                     (graph.values (graph.final (thread.resume_all rounds r0))).
Proof.
  assert (Hstep : forall w step resume n s u evs,
    graph.run_node w step resume n s = (Return u, evs) ->
    AgentState.messages s `prefix_of` AgentState.messages (apply_update s u)).
  { intros ? ? ? ? ? ? ? H. by_update H; cbn; unfold add_messages;
      first [reflexivity | apply prefix_app_r; reflexivity]. }
  split.
  - apply (run_respects
             (fun s s' => AgentState.messages s `prefix_of` AgentState.messages s'));
      [done|intros; etransitivity; eauto|exact Hstep].
  - apply (resume_all_respects
             (fun s s' => AgentState.messages s `prefix_of` AgentState.messages s'));
      [done|intros; etransitivity; eauto|exact Hstep].
Qed.

(** X9: no node writes the status [REJECTED]: a thread whose status is not
    [REJECTED] never gets it, through any invocation or sequence of
    resumes. *)
Theorem status_is_never_rejected
    (fuel : nat) (w : world) (step : nat) (resume : option resume_value)
    (cur : graph.target) (s : AgentState.t)
    (rounds : list thread.round) (r0 : graph.run_result) :
  AgentState.status s <> REJECTED ->
  AgentState.status (graph.values (graph.final r0)) <> REJECTED ->
  AgentState.status (graph.values (graph.final (graph.run fuel w step resume cur s)))
    <> REJECTED
  /\ AgentState.status (graph.values (graph.final (thread.resume_all rounds r0)))
       <> REJECTED.
Proof.
  intros Hs Hr0.
  assert (Hstep : forall w step resume n s u evs,
    graph.run_node w step resume n s = (Return u, evs) ->
    AgentState.status s <> REJECTED -> AgentState.status (apply_update s u) <> REJECTED).
  { intros ? ? ? ? ? ? ? H. by_update H; cbn; auto; discriminate. }
  split.
  - apply (run_respects
             (fun s s' => AgentState.status s <> REJECTED ->
                          AgentState.status s' <> REJECTED));
      [auto|auto|exact Hstep|exact Hs].
  - apply (resume_all_respects
             (fun s s' => AgentState.status s <> REJECTED ->
                          AgentState.status s' <> REJECTED));
      [auto|auto|exact Hstep|exact Hr0].
Qed.

Lemma status_is_never_rejected_witness :
  let w := {| llm_post := fun _ => LlmContent "Hello World";
              llm_tags := fun _ => LlmContent "ai";
              utcnow := fun _ => 0;
              connector := fun _ _ _ => PublishOk None |} in
  let s := AgentState.create "AI safety" TWITTER "casual" "" "t1" in
  let r0 := graph.ainvoke_input w s in
  AgentState.status
    (graph.values (graph.final (thread.resume_all [(ResumeStr "reject", w)] r0)))
  <> REJECTED /\ True.
Proof.
  intros w s r0. split; [|exact I].
  exact (proj2 (status_is_never_rejected 0 w 0 None graph.END s
                  [(ResumeStr "reject", w)] r0
                  ltac:(discriminate) ltac:(discriminate))).
Defined.

End thread_invariants.

Section invocations.

Local Arguments graph.run : simpl never.

Lemma run_O w step resume n s :
  graph.run 0 w step resume (graph.Node n) s
  = {| graph.final := {| graph.values := s; graph.next := graph.Node n |};
       graph.outcome := graph.Raised "GraphRecursionError";
       graph.trace := [] |}.
Proof. reflexivity. Qed.

Lemma publish_calls_app evs1 evs2 :
  publish_calls (evs1 ++ evs2) = (publish_calls evs1 ++ publish_calls evs2)%list.
Proof. unfold publish_calls. apply omap_app. Qed.

Lemma publish_calls_run n evs :
  publish_calls (graph.NodeRun n :: evs) = publish_calls evs.
Proof. reflexivity. Qed.


(** When the approval node is reached without a resume value and with a
    draft, the invocation suspends there. *)
Lemma run_approval_suspends fuel w step s pc :
  AgentState.post_content s = Some pc ->
  graph.run (S fuel) w step None (graph.Node graph.request_approval) s
  = graph.run 1 w step None (graph.Node graph.request_approval) s.
Proof.
  intros Hpc. rewrite !run_step. cbn [graph.run_node].
  unfold nodes.request_approval. rewrite Hpc. reflexivity.
Qed.

Lemma run_generate_fuel fuel w step resume s :
  graph.run (S (S fuel)) w step resume (graph.Node graph.generate) s
  = graph.run 2 w step resume (graph.Node graph.generate) s.
Proof.
  rewrite !(run_step _ w step resume graph.generate). cbn [graph.run_node].
  unfold nodes.generate_post.
  destruct (llm_post w step); [|reflexivity].
  destruct (llm_tags w step); [|reflexivity].
  cbn [graph.next_target]. f_equal;
    try (eapply run_approval_suspends; reflexivity).
Qed.

Lemma run_publish_fuel fuel w step resume s :
  graph.run (S fuel) w step resume (graph.Node graph.publish) s
  = graph.run 1 w step resume (graph.Node graph.publish) s.
Proof.
  rewrite !run_step. cbn [graph.run_node].
  destruct (nodes.publish_post (connector w step) s) as [u calls].
  cbn [graph.next_target]. rewrite !run_END. reflexivity.
Qed.

Lemma run_feedback_fuel fuel w step resume s :
  graph.run (S (S (S fuel))) w step resume (graph.Node graph.process_feedback) s
  = graph.run 3 w step resume (graph.Node graph.process_feedback) s.
Proof.
  rewrite !(run_step _ w step resume graph.process_feedback). cbn [graph.run_node].
  cbn [graph.next_target]. unfold nodes.should_regenerate.
  destruct (AgentState.status (apply_update s _)); cbn [graph.path_map String.eqb];
    cbn; f_equal;
    first [ apply run_generate_fuel
          | rewrite (run_publish_fuel (S fuel)), (run_publish_fuel 1); reflexivity
          | rewrite !run_END; reflexivity ].
Qed.

Lemma run_approval_fuel fuel w step resume s :
  graph.run (S (S (S (S fuel)))) w step resume (graph.Node graph.request_approval) s
  = graph.run 4 w step resume (graph.Node graph.request_approval) s.
Proof.
  rewrite !(run_step _ w step resume graph.request_approval).
  destruct (graph.run_node w step resume graph.request_approval s) as [[u|p|e] evs];
    [|reflexivity..].
  cbn [graph.next_target]. f_equal. apply run_feedback_fuel.
Qed.

(** X11: an invocation never needs more than four supersteps, wherever it
    starts and whatever the collaborators answer: with any larger limit
    (the default of 25 included) it gives the result it gives with 4, so
    the recursion limit is never what ends it. *)
Theorem invocation_needs_at_most_four_supersteps
    (fuel : nat) (w : world) (step : nat) (resume : option resume_value)
    (cur : graph.target) (s : AgentState.t) (v : resume_value)
    (ck : graph.checkpoint) :
  graph.run (4 + fuel) w step resume cur s = graph.run 4 w step resume cur s
  /\ graph.ainvoke_input w s = graph.run 4 w 0 None (graph.Node graph.generate) s
  /\ graph.ainvoke_resume w v ck
     = graph.run 4 w 0 (Some v) (graph.next ck) (graph.values ck).
Proof.
  assert (H : forall fuel w step resume cur s,
    graph.run (4 + fuel) w step resume cur s = graph.run 4 w step resume cur s).
  { clear. intros fuel w step resume [n|] s; [|rewrite !run_END; reflexivity].
    change (4 + fuel)%nat with (S (S (S (S fuel)))).
    destruct n.
    - rewrite (run_generate_fuel (S (S fuel))), (run_generate_fuel 2). reflexivity.
    - apply run_approval_fuel.
    - rewrite (run_feedback_fuel (S fuel)), (run_feedback_fuel 1). reflexivity.
    - rewrite (run_publish_fuel (S (S (S fuel)))), (run_publish_fuel 3). reflexivity. }
  split; [apply H|]. split.
  - exact (H 21%nat w 0%nat None (graph.Node graph.generate) s).
  - exact (H 21%nat w 0%nat (Some v) (graph.next ck) (graph.values ck)).
Qed.

(** X12: an invocation calls the publish collaborator at most once; when
    it does, the call is for the platform and the rendered draft of the
    final state, and the invocation has finished with a terminal status. *)
Theorem invocation_publishes_at_most_once
    (fuel : nat) (w : world) (step : nat) (resume : option resume_value)
    (cur : graph.target) (s : AgentState.t) :
  let r := graph.run fuel w step resume cur s in
  let sf := graph.values (graph.final r) in
  publish_calls (graph.trace r) = []
  \/ exists pc,
       AgentState.post_content sf = Some pc
       /\ publish_calls (graph.trace r)
          = [ (AgentState.platform sf, PostContent.formatted_text pc) ]
       /\ graph.outcome r = graph.Finished
       /\ terminal (AgentState.status sf) = true.
Proof.
  cbv zeta. revert w step resume cur s.
  induction fuel as [|fuel IH]; intros w step resume [n|] s;
    rewrite ?run_END, ?run_O; try (left; reflexivity).
  rewrite run_step.
  destruct (graph.run_node w step resume n s) as [[u|p|e] evs] eqn:Hn;
    try (left; reflexivity).
  destruct (graph.next_target n (apply_update s u)) as [cur'|] eqn:Hnext;
    [|left; reflexivity].
  cbn [graph.observe graph.final graph.outcome graph.trace].
  destruct n; cbn [graph.run_node] in Hn.
  1-3: (assert (evs = []) as -> by
         (first [ injection Hn as _ <-; reflexivity ]);
        cbn [app]; rewrite publish_calls_run; apply IH).
  clear IH. cbn in Hnext. injection Hnext as <-. rewrite run_END.
  cbn [graph.final graph.values graph.outcome graph.trace].
  unfold nodes.publish_post in Hn.
  destruct (AgentState.post_content s) as [pc|] eqn:Hpc.
  - right. exists pc.
    destruct (connector w step _ _); injection Hn as <- <-; cbn; rewrite Hpc; auto.
  - left. injection Hn as <- <-. reflexivity.
Qed.

End invocations.

Section resumes_by_answer.

Local Arguments graph.run : simpl never.
Local Arguments PyStr.of_int : simpl never.
Local Arguments String.append : simpl never.
Local Arguments PostContent.formatted_text : simpl never.
Local Arguments PostContent.char_count : simpl never.
Local Arguments nodes.parse_hashtags : simpl never.
Local Arguments PyStr.strip : simpl never.
Local Arguments Z.add : simpl never.
Local Arguments Z.geb : simpl never.

(** Resuming a thread suspended at the approval node with an accepted
    value stores the feedback and moves on to the feedback node. *)
Lemma resume_reaches_feedback w v ck pc fb :
  graph.next ck = graph.Node graph.request_approval ->
  AgentState.post_content (graph.values ck) = Some pc ->
  nodes._parse_human_response v = Ok fb ->
  graph.ainvoke_resume w v ck
  = graph.observe [ graph.NodeRun graph.request_approval ]
      (graph.run 24 w 1 None (graph.Node graph.process_feedback)
         (with_feedback (graph.values ck) fb)).
Proof.
  intros Hnext Hpc Hv.
  unfold graph.ainvoke_resume, graph.recursion_limit. rewrite Hnext.
  rewrite run_step. cbn [graph.run_node]. unfold nodes.request_approval.
  rewrite Hpc, Hv. reflexivity.
Qed.

Lemma approval_publishes_the_pending_draft_run
    (w : world) (v : resume_value) (ck : graph.checkpoint)
    (pc : PostContent.t) (fb : HumanFeedback.t) :
  graph.next ck = graph.Node graph.request_approval ->
  AgentState.post_content (graph.values ck) = Some pc ->
  nodes._parse_human_response v = Ok fb ->
  (HumanFeedback.action fb = approve
   \/ (HumanFeedback.action fb = edit
       /\ nodes.truthy_text (HumanFeedback.edited_text fb) = None)) ->
  let s := graph.values ck in
  let r := graph.ainvoke_resume w v ck in
  let sf := graph.values (graph.final r) in
  graph.outcome r = graph.Finished
  /\ graph.next (graph.final r) = graph.END
  /\ graph.trace r
     = [ graph.NodeRun graph.request_approval;
         graph.NodeRun graph.process_feedback;
         graph.NodeRun graph.publish;
         graph.PublishCall (AgentState.platform s, PostContent.formatted_text pc) ]
  /\ AgentState.post_content sf = Some pc
  /\ match connector w 2 (AgentState.platform s) (PostContent.formatted_text pc) with
     | PublishOk url =>
         AgentState.status sf = PUBLISHED
         /\ AgentState.published_url sf = result_get_url url
     | PublishError e =>
         AgentState.status sf = FAILED /\ AgentState.error_message sf = Some e
     end.
Proof.
  intros Hnext Hpc Hv Hact s r sf. subst r sf.
  rewrite (resume_reaches_feedback w v ck pc fb Hnext Hpc Hv). fold s.
  set (s1 := with_feedback s fb).
  assert (Hpc1 : AgentState.post_content s1 = Some pc) by exact Hpc.
  assert (Hu : nodes.process_feedback (utcnow w 1) s1 = [ set_status APPROVED ]).
  { unfold nodes.process_feedback.
    change (AgentState.human_feedback s1) with (Some fb). cbv beta iota.
    destruct Hact as [->|[-> Hnone]]; [reflexivity|]. rewrite Hpc1, Hnone. reflexivity. }
  rewrite run_step. cbn [graph.run_node]. rewrite Hu.
  cbn [graph.next_target]. set (s2 := apply_update s1 _).
  change (graph.path_map (nodes.should_regenerate s2))
    with (Some (graph.Node graph.publish)).
  cbv beta iota.
  rewrite run_step. cbn [graph.run_node]. unfold nodes.publish_post.
  change (AgentState.post_content s2) with (AgentState.post_content s1).
  rewrite Hpc1.
  change (AgentState.platform s2) with (AgentState.platform s).
  destruct (connector w 2 (AgentState.platform s) (PostContent.formatted_text pc));
    cbn [graph.next_target]; rewrite run_END;
    cbn [graph.observe graph.final graph.outcome graph.trace graph.values
           graph.next app map];
    repeat split; cbn; exact Hpc.
Qed.

(** X13: when a suspended thread is resumed with an approval, or with an
    edit that carries no text, the draft is published as it is: the
    invocation runs the approval, feedback and publish nodes, calls the
    collaborator once with the rendered pending draft, and finishes
    with [PUBLISHED] and the [url] entry of the collaborator's result
    (that string when the entry holds one, [None] when it holds [None]
    or is absent), or with [FAILED] and the collaborator's message; the
    draft itself is unchanged. *)
Theorem approval_publishes_the_pending_draft
    (w : world) (v : resume_value) (ck : graph.checkpoint)
    (pc : PostContent.t) (fb : HumanFeedback.t) :
  graph.next ck = graph.Node graph.request_approval ->
  AgentState.post_content (graph.values ck) = Some pc ->
  nodes._parse_human_response v = Ok fb ->
  (HumanFeedback.action fb = approve
   \/ (HumanFeedback.action fb = edit
       /\ nodes.truthy_text (HumanFeedback.edited_text fb) = None)) ->
  let s := graph.values ck in
  let r := graph.ainvoke_resume w v ck in
  let sf := graph.values (graph.final r) in
  graph.outcome r = graph.Finished
  /\ graph.next (graph.final r) = graph.END
  /\ graph.trace r
     = [ graph.NodeRun graph.request_approval;
         graph.NodeRun graph.process_feedback;
         graph.NodeRun graph.publish;
         graph.PublishCall (AgentState.platform s, PostContent.formatted_text pc) ]
  /\ AgentState.post_content sf = Some pc
  /\ match connector w 2 (AgentState.platform s) (PostContent.formatted_text pc) with
     | PublishOk (Some (Some u)) =>
         AgentState.status sf = PUBLISHED
         /\ AgentState.published_url sf = Some u
     | PublishOk (Some None) | PublishOk None =>
         AgentState.status sf = PUBLISHED
         /\ AgentState.published_url sf = None
     | PublishError e =>
         AgentState.status sf = FAILED /\ AgentState.error_message sf = Some e
     end.
Proof.
  intros Hnext Hpc Hv Hact s r sf.
  pose proof (approval_publishes_the_pending_draft_run w v ck pc fb
                Hnext Hpc Hv Hact) as H.
  cbv zeta in H. fold s r sf in H.
  destruct H as (H1 & H2 & H3 & H4 & H5).
  split; [exact H1|]. split; [exact H2|]. split; [exact H3|].
  split; [exact H4|].
  destruct (connector w 2 (AgentState.platform s) (PostContent.formatted_text pc))
    as [[[u|]|]|e]; exact H5.
Qed.

Lemma approval_publishes_the_pending_draft_witness :
  let w := {| llm_post := fun _ => LlmContent "Hello World";
              llm_tags := fun _ => LlmContent "ai";
              utcnow := fun _ => 0;
              connector := fun _ p _ =>
                match p with
                | TWITTER => PublishOk (Some (Some "https://twitter.com/i/status/42"))
                | LINKEDIN => PublishError "rate limited"
                end |} in
  let pc p := PostContent.mk "Hello World" p ["ai"] 0 in
  let s p := AgentState.mk [] "AI safety" p "casual" "" (Some (pc p))
               PENDING_APPROVAL None 1 3 None None "t1" in
  let ck p := {| graph.values := s p;
                 graph.next := graph.Node graph.request_approval |} in
  let r1 := graph.ainvoke_resume w (ResumeStr "approve") (ck TWITTER) in
  let r2 := graph.ainvoke_resume w (ResumeStr "edit:   ") (ck LINKEDIN) in
  (graph.outcome r1 = graph.Finished
   /\ publish_calls (graph.trace r1)
      = [ (TWITTER, PostContent.formatted_text (pc TWITTER)) ]
   /\ AgentState.post_content (graph.values (graph.final r1)) = Some (pc TWITTER)
   /\ AgentState.status (graph.values (graph.final r1)) = PUBLISHED
   /\ AgentState.published_url (graph.values (graph.final r1))
      = Some "https://twitter.com/i/status/42")
  /\ (graph.outcome r2 = graph.Finished
      /\ publish_calls (graph.trace r2)
         = [ (LINKEDIN, PostContent.formatted_text (pc LINKEDIN)) ]
      /\ AgentState.status (graph.values (graph.final r2)) = FAILED
      /\ AgentState.error_message (graph.values (graph.final r2))
         = Some "rate limited").
Proof.
  intros w pc s ck r1 r2.
  pose proof (approval_publishes_the_pending_draft w (ResumeStr "approve")
                (ck TWITTER) (pc TWITTER)
                (HumanFeedback.mk approve None None)
                eq_refl eq_refl eq_refl (or_introl eq_refl)) as H.
  pose proof (approval_publishes_the_pending_draft w (ResumeStr "edit:   ")
                (ck LINKEDIN) (pc LINKEDIN)
                (HumanFeedback.mk edit (Some "") None)
                eq_refl eq_refl eq_refl (or_intror (conj eq_refl eq_refl))) as H'.
  cbv zeta in H, H'.
  destruct H as (H1 & _ & H3 & H4 & H5 & H6).
  destruct H' as (H1' & _ & H3' & _ & H5' & H6').
  subst r1 r2. rewrite H3, H3'.
  exact (conj (conj H1 (conj eq_refl (conj H4 (conj H5 H6))))
           (conj H1' (conj eq_refl (conj H5' H6')))).
Defined.

Lemma edit_publishes_the_edited_draft_run
    (w : world) (v : resume_value) (ck : graph.checkpoint)
    (pc : PostContent.t) (fb : HumanFeedback.t) (txt : string) :
  graph.next ck = graph.Node graph.request_approval ->
  AgentState.post_content (graph.values ck) = Some pc ->
  nodes._parse_human_response v = Ok fb ->
  HumanFeedback.action fb = edit ->
  nodes.truthy_text (HumanFeedback.edited_text fb) = Some txt ->
  let s := graph.values ck in
  let r := graph.ainvoke_resume w v ck in
  let sf := graph.values (graph.final r) in
  let edited :=
    {| PostContent.text := txt;
       PostContent.platform := AgentState.platform s;
       PostContent.hashtags := PostContent.hashtags pc;
       PostContent.created_at := utcnow w 1 |} in
  graph.outcome r = graph.Finished
  /\ graph.trace r
     = [ graph.NodeRun graph.request_approval;
         graph.NodeRun graph.process_feedback;
         graph.NodeRun graph.publish;
         graph.PublishCall (AgentState.platform s, PostContent.formatted_text edited) ]
  /\ AgentState.post_content sf = Some edited
  /\ match connector w 2 (AgentState.platform s) (PostContent.formatted_text edited) with
     | PublishOk url =>
         AgentState.status sf = PUBLISHED
         /\ AgentState.published_url sf = result_get_url url
     | PublishError e =>
         AgentState.status sf = FAILED /\ AgentState.error_message sf = Some e
     end.
Proof.
  intros Hnext Hpc Hv Hact Htxt s r sf edited. subst r sf.
  rewrite (resume_reaches_feedback w v ck pc fb Hnext Hpc Hv). fold s.
  set (s1 := with_feedback s fb).
  assert (Hpc1 : AgentState.post_content s1 = Some pc) by exact Hpc.
  assert (Hu : nodes.process_feedback (utcnow w 1) s1
               = [ set_post_content (Some edited); set_status APPROVED ]).
  { unfold nodes.process_feedback.
    change (AgentState.human_feedback s1) with (Some fb). cbv beta iota.
    rewrite Hact, Hpc1, Htxt. reflexivity. }
  rewrite run_step. cbn [graph.run_node]. rewrite Hu.
  cbn [graph.next_target]. set (s2 := apply_update s1 _).
  change (graph.path_map (nodes.should_regenerate s2))
    with (Some (graph.Node graph.publish)).
  cbv beta iota.
  rewrite run_step. cbn [graph.run_node]. unfold nodes.publish_post.
  change (AgentState.post_content s2) with (Some edited).
  change (AgentState.platform s2) with (AgentState.platform s).
  cbv beta iota zeta.
  destruct (connector w 2 (AgentState.platform s) (PostContent.formatted_text edited));
    cbn [graph.next_target]; rewrite run_END;
    cbn [graph.observe graph.final graph.outcome graph.trace graph.values
           graph.next app map];
    repeat split.
Qed.

(** X14: when a suspended thread is resumed with an edit that carries a
    text, what is published is the edited text followed by the hashtags of
    the pending draft, once, and the final state holds the edited draft. *)
Theorem edit_publishes_the_edited_draft
    (w : world) (v : resume_value) (ck : graph.checkpoint)
    (pc : PostContent.t) (fb : HumanFeedback.t) (txt : string) :
  graph.next ck = graph.Node graph.request_approval ->
  AgentState.post_content (graph.values ck) = Some pc ->
  nodes._parse_human_response v = Ok fb ->
  HumanFeedback.action fb = edit ->
  nodes.truthy_text (HumanFeedback.edited_text fb) = Some txt ->
  let s := graph.values ck in
  let r := graph.ainvoke_resume w v ck in
  let sf := graph.values (graph.final r) in
  let edited :=
    {| PostContent.text := txt;
       PostContent.platform := AgentState.platform s;
       PostContent.hashtags := PostContent.hashtags pc;
       PostContent.created_at := utcnow w 1 |} in
  graph.outcome r = graph.Finished
  /\ graph.trace r
     = [ graph.NodeRun graph.request_approval;
         graph.NodeRun graph.process_feedback;
         graph.NodeRun graph.publish;
         graph.PublishCall (AgentState.platform s, PostContent.formatted_text edited) ]
  /\ AgentState.post_content sf = Some edited
  /\ match connector w 2 (AgentState.platform s) (PostContent.formatted_text edited) with
     | PublishOk url =>
         AgentState.status sf = PUBLISHED
         /\ AgentState.published_url sf = result_get_url url
     | PublishError e =>
         AgentState.status sf = FAILED /\ AgentState.error_message sf = Some e
     end.
Proof. exact (edit_publishes_the_edited_draft_run w v ck pc fb txt). Qed.

Lemma edit_publishes_the_edited_draft_witness :
  let w := {| llm_post := fun _ => LlmContent "Hello World";
              llm_tags := fun _ => LlmContent "ai";
              utcnow := fun _ => 0;
              connector := fun _ _ _ => PublishOk (Some (Some "https://x/1")) |} in
  let pc := PostContent.mk "Hello World" TWITTER ["ai"] 0 in
  let s := AgentState.mk [] "AI safety" TWITTER "casual" "" (Some pc)
             PENDING_APPROVAL None 1 3 None None "t1" in
  let ck := {| graph.values := s; graph.next := graph.Node graph.request_approval |} in
  let v := ResumeDict (<["action" := PyStr "edit"]>
                         (<["edited_text" := PyStr "New copy"]> ∅)) in
  let r := graph.ainvoke_resume w v ck in
  publish_calls (graph.trace r)
  = [ (TWITTER, "New copy" +:+ PyStr.nl +:+ PyStr.nl +:+ "#ai") ]
  /\ AgentState.status (graph.values (graph.final r)) = PUBLISHED.
Proof.
  intros w pc s ck v r.
  pose proof (edit_publishes_the_edited_draft w v ck pc
                (HumanFeedback.mk edit (Some "New copy") None) "New copy"
                eq_refl eq_refl ltac:(vm_compute; reflexivity) eq_refl eq_refl) as H.
  cbv zeta in H. destruct H as (_ & H2 & _ & H4).
  subst r. rewrite H2. split; [reflexivity|]. exact (proj1 H4).
Defined.

Lemma rejection_regenerates_or_fails_without_publishing_run
    (w : world) (v : resume_value) (ck : graph.checkpoint)
    (pc : PostContent.t) (fb : HumanFeedback.t) :
  graph.next ck = graph.Node graph.request_approval ->
  AgentState.post_content (graph.values ck) = Some pc ->
  nodes._parse_human_response v = Ok fb ->
  HumanFeedback.action fb = reject ->
  let s := graph.values ck in
  let r := graph.ainvoke_resume w v ck in
  let sf := graph.values (graph.final r) in
  publish_calls (graph.trace r) = []
  /\ AgentState.status sf <> PUBLISHED
  /\ if decide (AgentState.generation_attempts s < AgentState.max_attempts s)
     then
       AgentState.human_feedback sf = None
       /\ match llm_post w 2, llm_tags w 2 with
          | LlmContent c1, LlmContent c2 =>
              (exists p, graph.outcome r = graph.Interrupted p
                         /\ generation_attempt p = AgentState.generation_attempts s + 1)
              /\ graph.next (graph.final r) = graph.Node graph.request_approval
              /\ AgentState.status sf = PENDING_APPROVAL
              /\ AgentState.generation_attempts sf = AgentState.generation_attempts s + 1
              /\ AgentState.post_content sf
                 = Some {| PostContent.text := PyStr.strip c1;
                           PostContent.platform := AgentState.platform s;
                           PostContent.hashtags :=
                             take (nodes.num_hashtags (AgentState.platform s))
                               (nodes.parse_hashtags c2);
                           PostContent.created_at := utcnow w 2 |}
          | LlmError e, _ | LlmContent _, LlmError e =>
              graph.outcome r = graph.Raised e
              /\ graph.next (graph.final r) = graph.Node graph.generate
              /\ AgentState.status sf = DRAFT
              /\ AgentState.generation_attempts sf = AgentState.generation_attempts s
              /\ AgentState.post_content sf = Some pc
          end
     else
       graph.outcome r = graph.Finished
       /\ graph.next (graph.final r) = graph.END
       /\ AgentState.status sf = FAILED
       /\ AgentState.generation_attempts sf = AgentState.generation_attempts s
       /\ AgentState.post_content sf = Some pc.
Proof.
  intros Hnext Hpc Hv Hact s r sf. subst r sf.
  rewrite (resume_reaches_feedback w v ck pc fb Hnext Hpc Hv). fold s.
  set (s1 := with_feedback s fb).
  rewrite run_step. cbn [graph.run_node].
  rewrite (process_feedback_reject _ s1 fb eq_refl Hact).
  change (AgentState.generation_attempts s1) with (AgentState.generation_attempts s).
  change (AgentState.max_attempts s1) with (AgentState.max_attempts s).
  destruct (decide (AgentState.generation_attempts s < AgentState.max_attempts s)).
  - cbn [graph.next_target]. set (s2 := apply_update s1 _).
    change (graph.path_map (nodes.should_regenerate s2))
      with (Some (graph.Node graph.generate)).
    cbv beta iota.
    rewrite run_step. cbn [graph.run_node]. unfold nodes.generate_post.
    destruct (llm_post w 2) as [c1|e1].
    + destruct (llm_tags w 2) as [c2|e2].
      * cbn [graph.next_target]. set (s3 := apply_update s2 _).
        rewrite run_step. cbn [graph.run_node]. unfold nodes.request_approval.
        change (AgentState.post_content s3) with (Some
          {| PostContent.text := PyStr.strip c1;
             PostContent.platform := AgentState.platform s;
             PostContent.hashtags :=
               take (nodes.num_hashtags (AgentState.platform s)) (nodes.parse_hashtags c2);
             PostContent.created_at := utcnow w 2 |}).
        cbv beta iota.
        cbn [graph.observe graph.final graph.outcome graph.trace graph.values
               graph.next app].
        repeat split; try discriminate. eexists. split; reflexivity.
      * cbn [graph.observe graph.final graph.outcome graph.trace graph.values
               graph.next app].
        repeat split; try discriminate. exact Hpc.
    + cbn [graph.observe graph.final graph.outcome graph.trace graph.values
             graph.next app].
      repeat split; try discriminate. exact Hpc.
  - cbn [graph.next_target]. set (s2 := apply_update s1 _).
    change (graph.path_map (nodes.should_regenerate s2)) with (Some graph.END).
    cbv beta iota. rewrite run_END.
    cbn [graph.observe graph.final graph.outcome graph.trace graph.values
           graph.next app].
    repeat split; try discriminate. exact Hpc.
Qed.

(** X15: when a suspended thread is resumed with a rejection, nothing is
    published, whatever the budget and the model answer.  At the budget
    the thread finishes [FAILED].  Below it, if the model answers, the
    thread is suspended again with a new draft made from the answers, the
    counter one higher, the feedback cleared and the payload carrying the
    new attempt number; if a model call raises, the invocation raises and
    the checkpoint stays at the draft node with status [DRAFT], the
    counter unchanged, the feedback cleared and the old draft in place. *)
Theorem rejection_regenerates_or_fails_without_publishing
    (w : world) (v : resume_value) (ck : graph.checkpoint)
    (pc : PostContent.t) (fb : HumanFeedback.t) :
  graph.next ck = graph.Node graph.request_approval ->
  AgentState.post_content (graph.values ck) = Some pc ->
  nodes._parse_human_response v = Ok fb ->
  HumanFeedback.action fb = reject ->
  let s := graph.values ck in
  let r := graph.ainvoke_resume w v ck in
  let sf := graph.values (graph.final r) in
  publish_calls (graph.trace r) = []
  /\ AgentState.status sf <> PUBLISHED
  /\ if decide (AgentState.generation_attempts s < AgentState.max_attempts s)
     then
       AgentState.human_feedback sf = None
       /\ match llm_post w 2, llm_tags w 2 with
          | LlmContent c1, LlmContent c2 =>
              (exists p, graph.outcome r = graph.Interrupted p
                         /\ generation_attempt p = AgentState.generation_attempts s + 1)
              /\ graph.next (graph.final r) = graph.Node graph.request_approval
              /\ AgentState.status sf = PENDING_APPROVAL
              /\ AgentState.generation_attempts sf = AgentState.generation_attempts s + 1
              /\ AgentState.post_content sf
                 = Some {| PostContent.text := PyStr.strip c1;
                           PostContent.platform := AgentState.platform s;
                           PostContent.hashtags :=
                             take (nodes.num_hashtags (AgentState.platform s))
                               (nodes.parse_hashtags c2);
                           PostContent.created_at := utcnow w 2 |}
          | LlmError e, _ | LlmContent _, LlmError e =>
              graph.outcome r = graph.Raised e
              /\ graph.next (graph.final r) = graph.Node graph.generate
              /\ AgentState.status sf = DRAFT
              /\ AgentState.generation_attempts sf = AgentState.generation_attempts s
              /\ AgentState.post_content sf = Some pc
          end
     else
       graph.outcome r = graph.Finished
       /\ graph.next (graph.final r) = graph.END
       /\ AgentState.status sf = FAILED
       /\ AgentState.generation_attempts sf = AgentState.generation_attempts s
       /\ AgentState.post_content sf = Some pc.
Proof. exact (rejection_regenerates_or_fails_without_publishing_run w v ck pc fb). Qed.

Lemma rejection_regenerates_or_fails_without_publishing_witness :
  let w := {| llm_post := fun _ => LlmError "model unavailable";
              llm_tags := fun _ => LlmContent "ai";
              utcnow := fun _ => 0;
              connector := fun _ _ _ => PublishOk None |} in
  let pc := PostContent.mk "Hello World" TWITTER ["ai"] 0 in
  let s := AgentState.mk [] "AI safety" TWITTER "casual" "" (Some pc)
             PENDING_APPROVAL None 1 3 None None "t1" in
  let ck := {| graph.values := s; graph.next := graph.Node graph.request_approval |} in
  let r := graph.ainvoke_resume w (ResumeStr "reject") ck in
  graph.outcome r = graph.Raised "model unavailable"
  /\ graph.next (graph.final r) = graph.Node graph.generate
  /\ AgentState.status (graph.values (graph.final r)) = DRAFT
  /\ AgentState.generation_attempts (graph.values (graph.final r)) = 1
  /\ AgentState.post_content (graph.values (graph.final r)) = Some pc.
Proof.
  intros w pc s ck r.
  pose proof (rejection_regenerates_or_fails_without_publishing w (ResumeStr "reject")
                ck pc (HumanFeedback.mk reject None None)
                eq_refl eq_refl eq_refl eq_refl) as H.
  cbv zeta in H. destruct H as (_ & _ & H).
  exact (proj2 H).
Defined.

(** X16: a resume value that the normalizer refuses makes the invocation
    raise at the approval node; no node completes and the checkpoint is
    the one the thread had. *)
Theorem refused_resume_value_leaves_thread_suspended
    (w : world) (v : resume_value) (ck : graph.checkpoint)
    (pc : PostContent.t) (e : string) :
  graph.next ck = graph.Node graph.request_approval ->
  AgentState.post_content (graph.values ck) = Some pc ->
  nodes._parse_human_response v = Exception e ->
  graph.ainvoke_resume w v ck
  = {| graph.final := ck; graph.outcome := graph.Raised e; graph.trace := [] |}.
Proof.
  intros Hnext Hpc Hv.
  unfold graph.ainvoke_resume, graph.recursion_limit. rewrite Hnext.
  rewrite run_step. cbn [graph.run_node]. unfold nodes.request_approval.
  rewrite Hpc, Hv. destruct ck as [vals nxt]. cbn in *. subst nxt. reflexivity.
Qed.

Lemma refused_resume_value_leaves_thread_suspended_witness :
  let w := {| llm_post := fun _ => LlmContent "Hello World";
              llm_tags := fun _ => LlmContent "ai";
              utcnow := fun _ => 0;
              connector := fun _ _ _ => PublishOk None |} in
  let pc := PostContent.mk "Hello World" TWITTER ["ai"] 0 in
  let s := AgentState.mk [] "AI safety" TWITTER "casual" "" (Some pc)
             PENDING_APPROVAL None 1 3 None None "t1" in
  let ck := {| graph.values := s; graph.next := graph.Node graph.request_approval |} in
  let v := ResumeDict (<["action" := PyStr "publish"]> ∅) in
  graph.ainvoke_resume w v ck
  = {| graph.final := ck; graph.outcome := graph.Raised "ValidationError";
       graph.trace := [] |}.
Proof.
  intros w pc s ck v.
  exact (refused_resume_value_leaves_thread_suspended w v ck pc "ValidationError"
           eq_refl eq_refl ltac:(vm_compute; reflexivity)).
Defined.

(** X17: the first invocation of a thread never finishes and never
    publishes.  If both model calls answer, it suspends at the approval
    node after one draft, with the counter one higher and the payload
    carrying that number; if one raises, the invocation raises with that
    message and the checkpoint holds the input state, unchanged, at the
    draft node. *)
Theorem first_invocation_suspends_or_raises (w : world) (s : AgentState.t) :
  let r := graph.ainvoke_input w s in
  let sf := graph.values (graph.final r) in
  publish_calls (graph.trace r) = []
  /\ match llm_post w 0, llm_tags w 0 with
     | LlmContent c1, LlmContent c2 =>
         (exists p, graph.outcome r = graph.Interrupted p
                    /\ generation_attempt p = AgentState.generation_attempts s + 1)
         /\ graph.next (graph.final r) = graph.Node graph.request_approval
         /\ graph.trace r = [ graph.NodeRun graph.generate ]
         /\ AgentState.status sf = PENDING_APPROVAL
         /\ AgentState.generation_attempts sf = AgentState.generation_attempts s + 1
         /\ AgentState.human_feedback sf = AgentState.human_feedback s
     | LlmError e, _ | LlmContent _, LlmError e =>
         r = {| graph.final := {| graph.values := s;
                                  graph.next := graph.Node graph.generate |};
                graph.outcome := graph.Raised e;
                graph.trace := [] |}
     end.
Proof.
  cbv zeta. unfold graph.ainvoke_input, graph.recursion_limit, graph.entry_point.
  rewrite run_step. cbn [graph.run_node]. unfold nodes.generate_post.
  destruct (llm_post w 0) as [c1|e1]; [|split; reflexivity].
  destruct (llm_tags w 0) as [c2|e2]; [|split; reflexivity].
  cbn [graph.next_target]. set (s1 := apply_update s _).
  rewrite run_step. cbn [graph.run_node]. unfold nodes.request_approval.
  change (AgentState.post_content s1) with (Some
    {| PostContent.text := PyStr.strip c1;
       PostContent.platform := AgentState.platform s;
       PostContent.hashtags :=
         take (nodes.num_hashtags (AgentState.platform s)) (nodes.parse_hashtags c2);
       PostContent.created_at := utcnow w 0 |}).
  cbv beta iota.
  cbn [graph.observe graph.final graph.outcome graph.trace graph.values graph.next app].
  repeat split. eexists. split; reflexivity.
Qed.

End resumes_by_answer.

Section pending_threads.

Local Arguments graph.run : simpl never.
Local Arguments String.append : simpl never.
Local Arguments PostContent.formatted_text : simpl never.
Local Arguments PostContent.char_count : simpl never.
Local Arguments nodes.parse_hashtags : simpl never.
Local Arguments PyStr.strip : simpl never.
Local Arguments Z.add : simpl never.

(** An invocation that starts at the draft node raises there, leaving the
    state as it was, or suspends at the approval node. *)
Lemma run_from_generate fuel w step resume s :
  let r := graph.run (S (S fuel)) w step resume (graph.Node graph.generate) s in
  (exists e, r = {| graph.final := {| graph.values := s;
                                      graph.next := graph.Node graph.generate |};
                    graph.outcome := graph.Raised e; graph.trace := [] |})
  \/ ((exists p, graph.outcome r = graph.Interrupted p)
      /\ api_pending.suspended (graph.final r)).
Proof.
  cbv zeta. rewrite run_step. cbn [graph.run_node]. unfold nodes.generate_post.
  destruct (llm_post w step) as [c1|e1]; [|left; eauto].
  destruct (llm_tags w step) as [c2|e2]; [|left; eauto].
  right. cbn [graph.next_target]. set (s1 := apply_update s _).
  rewrite run_step. cbn [graph.run_node]. unfold nodes.request_approval.
  change (AgentState.post_content s1) with (Some
    {| PostContent.text := PyStr.strip c1;
       PostContent.platform := AgentState.platform s;
       PostContent.hashtags :=
         take (nodes.num_hashtags (AgentState.platform s)) (nodes.parse_hashtags c2);
       PostContent.created_at := utcnow w step |}).
  cbv beta iota.
  cbn [graph.observe graph.final graph.outcome graph.trace graph.values graph.next app].
  split; [eauto|]. split; [reflexivity|]. split; [eauto|reflexivity].
Qed.

Lemma resumed_thread_stalls_suspends_or_terminates_run
    (w : world) (request : api.ApprovalRequest) (ck : graph.checkpoint) :
  api_pending.suspended ck \/ api_pending.stalled ck ->
  let r := graph.ainvoke_resume w (ResumeDict (api.feedback_payload request)) ck in
  ((exists e, graph.outcome r = graph.Raised e)
   /\ api_pending.stalled (graph.final r))
  \/ ((exists p, graph.outcome r = graph.Interrupted p)
      /\ api_pending.suspended (graph.final r))
  \/ (graph.outcome r = graph.Finished
      /\ terminal (AgentState.status (graph.values (graph.final r))) = true).
Proof.
  intros [(Hnext & [pc Hpc] & Hst)|(Hnext & Hst)] r; subst r.
  - pose proof (feedback_payload_round_trip_run request) as Hv.
    set (fb := HumanFeedback.mk _ _ _) in Hv.
    destruct (HumanFeedback.action fb) eqn:Hact.
    + destruct (approval_publishes_the_pending_draft_run w _ ck pc fb Hnext Hpc Hv
                  (or_introl Hact)) as (Hout & _ & _ & _ & Hpub).
      right. right. split; [exact Hout|].
      destruct (connector w 2 _ _); destruct Hpub as [-> _]; reflexivity.
    + pose proof (rejection_regenerates_or_fails_without_publishing_run w _ ck pc fb
                    Hnext Hpc Hv Hact) as H.
      cbv zeta in H. destruct H as (_ & _ & H).
      destruct (decide _).
      * destruct H as [_ H].
        destruct (llm_post w 2) as [c1|e1]; [destruct (llm_tags w 2) as [c2|e2]|].
        -- destruct H as ([p [Hp _]] & Hn & Hs & _ & Hd).
           right. left. split; [eauto|]. split; [exact Hn|]. split; [eauto|exact Hs].
        -- destruct H as (Ho & Hn & Hs & _). left. split; [eauto|]. split; assumption.
        -- destruct H as (Ho & Hn & Hs & _). left. split; [eauto|]. split; assumption.
      * destruct H as (Ho & _ & Hs & _). right. right. split; [exact Ho|].
        rewrite Hs. reflexivity.
    + destruct (nodes.truthy_text (HumanFeedback.edited_text fb)) as [txt|] eqn:Htxt.
      * destruct (edit_publishes_the_edited_draft_run w _ ck pc fb txt Hnext Hpc Hv
                    Hact Htxt) as (Hout & _ & _ & Hpub).
        right. right. split; [exact Hout|].
        destruct (connector w 2 _ _); destruct Hpub as [-> _]; reflexivity.
      * destruct (approval_publishes_the_pending_draft_run w _ ck pc fb Hnext Hpc Hv
                    (or_intror (conj Hact Htxt))) as (Hout & _ & _ & _ & Hpub).
        right. right. split; [exact Hout|].
        destruct (connector w 2 _ _); destruct Hpub as [-> _]; reflexivity.
  - unfold graph.ainvoke_resume, graph.recursion_limit. rewrite Hnext.
    destruct (run_from_generate 23 w 0 (Some (ResumeDict (api.feedback_payload request)))
                (graph.values ck)) as [[e He]|[Hp Hsusp]].
    + left. rewrite He. split; [eauto|]. split; [reflexivity|exact Hst].
    + right. left. split; assumption.
Qed.

(** X18: resuming, through the approval endpoint's payload, a thread that
    is suspended at the approval node or stalled at the draft node has
    three possible results only: the invocation raises and the thread is
    stalled at the draft node; it suspends again at the approval node with
    a draft and status [PENDING_APPROVAL]; or it finishes with a terminal
    status. *)
Theorem resumed_thread_stalls_suspends_or_terminates
    (w : world) (request : api.ApprovalRequest) (ck : graph.checkpoint) :
  api_pending.suspended ck \/ api_pending.stalled ck ->
  let r := graph.ainvoke_resume w (ResumeDict (api.feedback_payload request)) ck in
  ((exists e, graph.outcome r = graph.Raised e)
   /\ api_pending.stalled (graph.final r))
  \/ ((exists p, graph.outcome r = graph.Interrupted p)
      /\ api_pending.suspended (graph.final r))
  \/ (graph.outcome r = graph.Finished
      /\ terminal (AgentState.status (graph.values (graph.final r))) = true).
Proof. exact (resumed_thread_stalls_suspends_or_terminates_run w request ck). Qed.

Lemma resumed_thread_stalls_suspends_or_terminates_witness :
  let w := {| llm_post := fun _ => LlmContent "Hello World";
              llm_tags := fun _ => LlmContent "ai";
              utcnow := fun _ => 0;
              connector := fun _ _ _ => PublishOk None |} in
  let s := AgentState.mk [] "AI safety" TWITTER "casual" "" None
             DRAFT None 1 3 None None "t1" in
  let ck := {| graph.values := s; graph.next := graph.Node graph.generate |} in
  let request := {| api.action := approve; api.edited_text := None;
                    api.feedback_message := None |} in
  let r := graph.ainvoke_resume w (ResumeDict (api.feedback_payload request)) ck in
  ((exists e, graph.outcome r = graph.Raised e)
   /\ api_pending.stalled (graph.final r))
  \/ ((exists p, graph.outcome r = graph.Interrupted p)
      /\ api_pending.suspended (graph.final r))
  \/ (graph.outcome r = graph.Finished
      /\ terminal (AgentState.status (graph.values (graph.final r))) = true).
Proof.
  intros w s ck request.
  exact (resumed_thread_stalls_suspends_or_terminates w request ck
           (or_intror (conj eq_refl eq_refl))).
Defined.

End pending_threads.

Section server_invariants.

Lemma generate_post_well_formed w thread_id request srv :
  api_pending.well_formed srv ->
  api.checkpointer srv !! thread_id = None ->
  api_pending.well_formed (api.generate_post w thread_id request srv).2.
Proof.
  intros Hsrv Hfresh.
  assert (Hother : forall tid entry,
            api.pending_threads srv !! tid = Some entry -> tid <> thread_id).
  { intros tid entry Hp ->. destruct (Hsrv _ _ Hp) as [(ck & Hck & _) _]. congruence. }
  unfold api.generate_post. set (s0 := AgentState.create _ _ _ _ _).
  unfold graph.ainvoke_input, graph.recursion_limit, graph.entry_point.
  destruct (run_from_generate 23 w 0 None s0) as [[e He]|[[p Hp] Hsusp]].
  - rewrite He. cbn [graph.outcome graph.final snd].
    intros tid entry Hpend. cbn [api.pending_threads api.checkpointer] in *.
    rewrite lookup_insert_ne by (intros <-; exact (Hother _ _ Hpend eq_refl)).
    exact (Hsrv _ _ Hpend).
  - rewrite Hp.
    assert (Hgoal : api_pending.well_formed
      {| api.checkpointer :=
           <[thread_id := graph.final (graph.run 25 w 0 None (graph.Node graph.generate) s0)]>
             (api.checkpointer srv);
         api.pending_threads :=
           <[thread_id := {| api.topic := api.gen_topic request;
                             api.platform := platform_value (api.gen_platform request);
                             api.result :=
                               graph.values
                                 (graph.final
                                    (graph.run 25 w 0 None (graph.Node graph.generate) s0)) |}]>
             (api.pending_threads srv) |}).
    { intros tid entry. cbn [api.pending_threads api.checkpointer].
      destruct (decide (tid = thread_id)) as [->|Hne].
      - rewrite !lookup_insert_eq. intros [= <-]. cbn [api.result].
        split; [eauto|]. destruct Hsusp as (_ & Hd & Hs). auto.
      - rewrite !lookup_insert_ne by congruence. apply Hsrv. }
    destruct (AgentState.post_content _); exact Hgoal.
Qed.

Lemma approve_post_well_formed w thread_id request srv :
  api_pending.well_formed srv ->
  api_pending.well_formed (api.approve_post w thread_id request srv).2.
Proof.
  intros Hsrv. unfold api.approve_post.
  destruct (api.pending_threads srv !! thread_id) as [entry|] eqn:Hp; [|exact Hsrv].
  destruct (Hsrv _ _ Hp) as ((ck & Hck & Hshape) & Hdraft & Hstatus). rewrite Hck.
  pose proof (resumed_thread_stalls_suspends_or_terminates_run w request ck Hshape) as Hr.
  cbv zeta in Hr. set (r := graph.ainvoke_resume w _ ck) in *.
  destruct Hr as [[[e He] Hstall]|[[[p Hpl] Hsusp]|[Hfin Hterm]]].
  - rewrite He. cbn [snd]. intros tid entry'. cbn [api.pending_threads api.checkpointer].
    destruct (decide (tid = thread_id)) as [->|Hne].
    + rewrite lookup_insert_eq, Hp. intros [= <-]. split; [eauto|]. auto.
    + rewrite lookup_insert_ne by congruence. apply Hsrv.
  - rewrite Hpl. destruct Hsusp as (Hn & Hd & Hs).
    rewrite Hs. cbn [terminal snd].
    intros tid entry'. cbn [api.pending_threads api.checkpointer].
    destruct (decide (tid = thread_id)) as [->|Hne].
    + rewrite !lookup_insert_eq. intros [= <-]. cbn [api.result].
      split; [|auto]. eexists. split; [reflexivity|]. left. split; auto.
    + rewrite !lookup_insert_ne by congruence. apply Hsrv.
  - rewrite Hfin, Hterm. cbn [snd].
    intros tid entry'. cbn [api.pending_threads api.checkpointer].
    destruct (decide (tid = thread_id)) as [->|Hne].
    + rewrite lookup_delete_eq. discriminate.
    + rewrite lookup_delete_ne, lookup_insert_ne by congruence. apply Hsrv.
Qed.

Lemma reachable_well_formed srv : api.reachable srv -> api_pending.well_formed srv.
Proof.
  induction 1 as [|srv w tid request _ IH Hfresh|srv w tid request _ IH].
  - intros tid entry. cbn. rewrite lookup_empty. discriminate.
  - apply generate_post_well_formed; assumption.
  - apply approve_post_well_formed, IH.
Qed.

(** X19: on every server state that the two endpoints can produce, each
    pending thread has a checkpoint that is either suspended at the
    approval node (with a draft and status [PENDING_APPROVAL]) or stalled
    at the draft node (status [DRAFT]), and the result stored with the
    thread has a draft and the status [PENDING_APPROVAL]. *)
Theorem pending_threads_are_suspended_or_stalled
    (srv : api.server) (thread_id : string) (entry : api.pending_thread) :
  api.reachable srv ->
  api.pending_threads srv !! thread_id = Some entry ->
  (exists ck, api.checkpointer srv !! thread_id = Some ck
              /\ (api_pending.suspended ck \/ api_pending.stalled ck))
  /\ (exists pc, AgentState.post_content (api.result entry) = Some pc)
  /\ AgentState.status (api.result entry) = PENDING_APPROVAL.
Proof.
  intros Hreach Hp. exact (reachable_well_formed srv Hreach thread_id entry Hp).
Qed.

Lemma pending_threads_are_suspended_or_stalled_witness :
  let w := {| llm_post := fun _ => LlmContent "Hello World";
              llm_tags := fun _ => LlmContent "ai";
              utcnow := fun _ => 0;
              connector := fun _ _ _ => PublishOk None |} in
  let generate := {| api.gen_topic := "AI safety"; api.gen_platform := LINKEDIN;
                     api.gen_tone := "casual"; api.gen_additional_context := "" |} in
  let srv := (api.generate_post w "t1" generate api.startup).2 in
  let entry := {| api.topic := "AI safety"; api.platform := "linkedin";
                  api.result :=
                    graph.values
                      (graph.final
                         (graph.ainvoke_input w
                            (AgentState.create "AI safety" LINKEDIN "casual" "" "t1"))) |} in
  (exists ck, api.checkpointer srv !! "t1" = Some ck
              /\ (api_pending.suspended ck \/ api_pending.stalled ck))
  /\ (exists pc, AgentState.post_content (api.result entry) = Some pc)
  /\ AgentState.status (api.result entry) = PENDING_APPROVAL.
Proof.
  intros w generate srv entry.
  apply (pending_threads_are_suspended_or_stalled srv "t1" entry).
  - apply api.reach_generate; [apply api.reach_startup | reflexivity].
  - vm_compute. reflexivity.
Defined.

Lemma omap_total_length {A B} (f : A -> option B) (l : list A) :
  Forall (fun x => is_Some (f x)) l -> List.length (omap f l) = List.length l.
Proof.
  induction 1 as [|x l [y Hy] _ IH]; [reflexivity|].
  cbn. rewrite Hy. cbn. rewrite IH. reflexivity.
Qed.

(** X20: on every server state that the two endpoints can produce, the
    listing of pending posts has exactly one entry per pending thread: a
    thread is listed if and only if it is pending, which is if and only if
    a resume of it is not refused as unknown; and every entry's character
    count is the length of its text. *)
Theorem list_pending_posts_lists_every_pending_thread
    (srv : api.server) (thread_id : string) (w : world)
    (request : api.ApprovalRequest) :
  api.reachable srv ->
  ((exists post, post ∈ api_pending.list_pending_posts srv
                 /\ api_pending.thread_id post = thread_id)
   <-> is_Some (api.pending_threads srv !! thread_id))
  /\ (is_Some (api.pending_threads srv !! thread_id)
      <-> api.approve_post w thread_id request srv
          <> (api.HTTPException 404 "Thread not found", srv))
  /\ List.length (api_pending.list_pending_posts srv) = size (api.pending_threads srv)
  /\ Forall (fun post => api_pending.char_count post
                         = PyStr.len (api_pending.post_text post))
       (api_pending.list_pending_posts srv).
Proof.
  intros Hreach. pose proof (reachable_well_formed srv Hreach) as Hwf.
  assert (Hlisted : forall tid entry,
            api.pending_threads srv !! tid = Some entry ->
            exists post, api_pending.pending_post tid entry = Some post
                         /\ api_pending.thread_id post = tid
                         /\ api_pending.char_count post
                            = PyStr.len (api_pending.post_text post)).
  { intros tid entry Hp. destruct (Hwf _ _ Hp) as (_ & [pc Hpc] & Hst).
    unfold api_pending.pending_post. rewrite Hpc, Hst.
    rewrite decide_True by reflexivity. eexists. repeat split. }
  assert (Hid : forall tid entry post,
            api_pending.pending_post tid entry = Some post ->
            api_pending.thread_id post = tid
            /\ api_pending.char_count post = PyStr.len (api_pending.post_text post)).
  { intros tid entry post. unfold api_pending.pending_post.
    destruct (AgentState.post_content _); [|discriminate].
    destruct (decide _); [|discriminate]. intros [= <-]. split; reflexivity. }
  split; [|split; [|split]].
  - unfold api_pending.list_pending_posts. split.
    + intros (post & Hin & Htid).
      apply list_elem_of_omap in Hin as ([tid entry] & Hin & Hpost).
      apply elem_of_map_to_list in Hin. cbn in Hpost.
      destruct (Hid _ _ _ Hpost) as [Heq _]. rewrite <- Htid, Heq. eauto.
    + intros [entry Hp]. destruct (Hlisted _ _ Hp) as (post & Hpost & Htid & _).
      exists post. split; [|exact Htid].
      apply list_elem_of_omap. exists (thread_id, entry).
      split; [apply elem_of_map_to_list; exact Hp|exact Hpost].
  - unfold api.approve_post. split.
    + intros [entry Hp]. rewrite Hp.
      destruct (api.checkpointer srv !! thread_id); [|discriminate].
      destruct (graph.outcome _); discriminate.
    + destruct (api.pending_threads srv !! thread_id); [eauto|]. intros H. contradiction.
  - unfold api_pending.list_pending_posts.
    rewrite omap_total_length, length_map_to_list; [reflexivity|].
    apply Forall_forall. intros [tid entry] Hin.
    apply elem_of_map_to_list in Hin.
    destruct (Hlisted _ _ Hin) as (post & Hpost & _). exists post. exact Hpost.
  - apply Forall_forall. intros post Hin.
    apply list_elem_of_omap in Hin as ([tid entry] & _ & Hpost).
    exact (proj2 (Hid _ _ _ Hpost)).
Qed.

Lemma list_pending_posts_lists_every_pending_thread_witness :
  let w := {| llm_post := fun _ => LlmContent "Hello World";
              llm_tags := fun _ => LlmContent "ai";
              utcnow := fun _ => 0;
              connector := fun _ _ _ => PublishOk None |} in
  let generate := {| api.gen_topic := "AI safety"; api.gen_platform := LINKEDIN;
                     api.gen_tone := "casual"; api.gen_additional_context := "" |} in
  let approval := {| api.action := approve; api.edited_text := None;
                     api.feedback_message := None |} in
  let srv := (api.generate_post w "t1" generate api.startup).2 in
  List.length (api_pending.list_pending_posts srv) = size (api.pending_threads srv)
  /\ Forall (fun post => api_pending.char_count post
                         = PyStr.len (api_pending.post_text post))
       (api_pending.list_pending_posts srv).
Proof.
  intros w generate approval srv.
  assert (Hreach : api.reachable srv).
  { apply api.reach_generate; [apply api.reach_startup | reflexivity]. }
  exact (proj2 (proj2 (list_pending_posts_lists_every_pending_thread
                         srv "t1" w approval Hreach))).
Defined.



(** X22: the generation endpoint registers a thread as pending exactly
    when both model calls answer: the entry then records the request's
    topic and platform and a result with the new draft, the status
    [PENDING_APPROVAL], the counter 1 and the budget 3.  When a model call
    raises, the answer is [HTTPException(500, message)], the pending
    threads are unchanged, and the checkpoint of the thread holds the
    initial state at the draft node.  No other thread is touched. *)
Theorem generate_post_registers_the_thread_when_drafted
    (w : world) (thread_id : string) (request : api.GeneratePostRequest)
    (srv : api.server) (other : string) :
  let out := api.generate_post w thread_id request srv in
  let initial :=
    AgentState.create (api.gen_topic request) (api.gen_platform request)
      (api.gen_tone request) (api.gen_additional_context request) thread_id in
  match llm_post w 0, llm_tags w 0 with
  | LlmContent c1, LlmContent c2 =>
      exists entry,
        api.pending_threads out.2 !! thread_id = Some entry
        /\ api.topic entry = api.gen_topic request
        /\ api.platform entry = platform_value (api.gen_platform request)
        /\ AgentState.status (api.result entry) = PENDING_APPROVAL
        /\ AgentState.generation_attempts (api.result entry) = 1
        /\ AgentState.max_attempts (api.result entry) = 3
        /\ AgentState.post_content (api.result entry)
           = Some {| PostContent.text := PyStr.strip c1;
                     PostContent.platform := api.gen_platform request;
                     PostContent.hashtags :=
                       take (nodes.num_hashtags (api.gen_platform request))
                         (nodes.parse_hashtags c2);
                     PostContent.created_at := utcnow w 0 |}
        /\ api.checkpointer out.2 !! thread_id
           = Some {| graph.values := api.result entry;
                     graph.next := graph.Node graph.request_approval |}
  | LlmError e, _ | LlmContent _, LlmError e =>
      out.1 = api.HTTPException 500 e
      /\ api.pending_threads out.2 = api.pending_threads srv
      /\ api.checkpointer out.2 !! thread_id
         = Some {| graph.values := initial; graph.next := graph.Node graph.generate |}
  end
  /\ (if decide (other = thread_id) then True
      else api.pending_threads out.2 !! other = api.pending_threads srv !! other
           /\ api.checkpointer out.2 !! other = api.checkpointer srv !! other).
Proof.
  cbv zeta. unfold api.generate_post.
  set (s0 := AgentState.create _ _ _ _ _).
  unfold graph.ainvoke_input, graph.recursion_limit, graph.entry_point.
  rewrite run_step. cbn [graph.run_node]. unfold nodes.generate_post.
  destruct (llm_post w 0) as [c1|e1].
  - destruct (llm_tags w 0) as [c2|e2].
    + cbn [graph.next_target]. rewrite run_step. cbn -[String.append].
      split.
      * rewrite !lookup_insert_eq. eexists. split; [reflexivity|]. repeat split.
      * destruct (decide _); [exact I|]. rewrite !lookup_insert_ne by congruence. auto.
    + cbn [graph.outcome graph.final fst snd api.pending_threads api.checkpointer].
      split.
      * rewrite lookup_insert_eq. repeat split.
      * destruct (decide _); [exact I|]. rewrite !lookup_insert_ne by congruence. auto.
  - cbn [graph.outcome graph.final fst snd api.pending_threads api.checkpointer].
    split.
    + rewrite lookup_insert_eq. repeat split.
    + destruct (decide _); [exact I|]. rewrite !lookup_insert_ne by congruence. auto.
Qed.

End server_invariants.

Section platform_connectors.

Local Arguments String.append : simpl never.
Local Arguments PyStr.of_int : simpl never.
Local Arguments PyStr.strip : simpl never.

Lemma truthy_nonempty s : PyStr.truthy s = true <-> s <> "".
Proof. destruct s; cbn; split; first [discriminate | congruence | auto]. Qed.

Lemma validate_content_cases p content :
  (PyStr.len content > connectors.max_length p
   /\ connectors.validate_content p content = (false, exceeds_message p))
  \/ (PyStr.len content <= connectors.max_length p
      /\ PyStr.strip content = ""
      /\ connectors.validate_content p content = (false, "Content cannot be empty"))
  \/ (PyStr.len content <= connectors.max_length p
      /\ PyStr.strip content <> ""
      /\ connectors.validate_content p content = (true, "")).
Proof.
  unfold connectors.validate_content, exceeds_message.
  destruct (Z.gtb_spec (PyStr.len content) (connectors.max_length p)) as [Hgt|Hle].
  - left. split; [lia|reflexivity].
  - right. destruct (PyStr.strip content) as [|c rest] eqn:Hs; cbn.
    + left. auto.
    + right. split; [exact Hle|]. split; [discriminate|reflexivity].
Qed.

(** X23: content is accepted by the connector's validation exactly when
    it is no longer than the platform's limit (280 on Twitter, 3000 on
    LinkedIn) and not blank; the message is then empty.  Content over the
    limit is refused with the message that names the platform and the
    limit, also when it is blank; blank content within the limit is
    refused as empty. *)
Theorem validate_content_accepts_within_limit_and_not_blank
    (p : Platform) (content : string) :
  ((connectors.validate_content p content).1 = true
   <-> PyStr.len content <= connectors.max_length p /\ PyStr.strip content <> "")
  /\ (if decide (PyStr.len content <= connectors.max_length p)
      then if decide (PyStr.strip content = "")
           then connectors.validate_content p content = (false, "Content cannot be empty")
           else connectors.validate_content p content = (true, "")
      else connectors.validate_content p content
           = (false,
              "Content exceeds " +:+ connectors.platform_name p +:+ " limit of "
              +:+ (match p with TWITTER => "280" | LINKEDIN => "3000" end)
              +:+ " characters")).
Proof.
  destruct (validate_content_cases p content)
    as [[Hgt Hv]|[(Hle & Hs & Hv)|(Hle & Hs & Hv)]]; rewrite Hv; cbn [fst].
  - split; [split; [discriminate|lia]|].
    rewrite decide_False by lia. destruct p; reflexivity.
  - split; [split; [discriminate|tauto]|].
    rewrite decide_True by lia. rewrite decide_True by exact Hs. reflexivity.
  - split; [tauto|].
    rewrite decide_True by lia. rewrite decide_False by exact Hs. reflexivity.
Qed.

Lemma publish_cases env p content :
  match connectors.publish env p content with
  | PublishOk url =>
      (connectors.validate_content p content).1 = true
      /\ configured env p = true
      /\ match p with
         | TWITTER =>
             exists tweet_id,
               connectors.create_tweet env content = connectors.Replied tweet_id
               /\ url = Some (Some ("https://twitter.com/user/status/" +:+ tweet_id))
         | LINKEDIN =>
             exists sub id,
               connectors.linkedin_userinfo env = connectors.Replied sub
               /\ connectors.linkedin_ugc_post env ("urn:li:person:" +:+ sub) content
                  = connectors.Replied id
               /\ url = Some (Some ("https://www.linkedin.com/feed/update/"
                                    +:+ default "" id))
         end
  | PublishError e =>
      ((connectors.validate_content p content).1 = false
       /\ e = (connectors.validate_content p content).2)
      \/ ((connectors.validate_content p content).1 = true
          /\ configured env p = false /\ e = not_configured_message p)
      \/ ((connectors.validate_content p content).1 = true
          /\ configured env p = true
          /\ match p with
             | TWITTER => connectors.create_tweet env content = connectors.Failed e
             | LINKEDIN =>
                 connectors.linkedin_userinfo env = connectors.Failed e
                 \/ exists sub,
                      connectors.linkedin_userinfo env = connectors.Replied sub
                      /\ connectors.linkedin_ugc_post env ("urn:li:person:" +:+ sub) content
                         = connectors.Failed e
             end)
  end.
Proof.
  destruct p; cbn [connectors.publish configured not_configured_message];
    [unfold connectors.twitter_publish|unfold connectors.linkedin_publish].
  - destruct (connectors.validate_content TWITTER content) as [[] msg]; cbn [negb fst snd];
      [|left; auto].
    destruct (config.twitter_configured _); cbn [negb]; [|right; left; auto].
    destruct (connectors.create_tweet env content) as [id|e] eqn:Hc.
    + repeat split. eauto.
    + right. right. auto.
  - destruct (connectors.validate_content LINKEDIN content) as [[] msg]; cbn [negb fst snd];
      [|left; auto].
    destruct (config.linkedin_configured _); cbn [negb]; [|right; left; auto].
    destruct (connectors.linkedin_userinfo env) as [sub|e] eqn:Hu;
      [|right; right; auto].
    destruct (connectors.linkedin_ugc_post env _ content) as [id|e] eqn:Hp.
    + repeat split. eauto.
    + right. right. split; [reflexivity|]. split; [reflexivity|]. right. eauto.
Qed.

(** X24: a connector reports success only for content that passes the
    validation, with configured credentials, after the platform's API has
    answered; the url is then built from the identifier the API returned
    (on LinkedIn from the empty string when the reply has none).  Every
    failure is one of: the validation message, the message that the
    credentials are not configured, or the exception of an API call. *)
Theorem publish_succeeds_only_after_validation_and_api_reply
    (env : connectors.environment) (p : Platform) (content : string) :
  match connectors.publish env p content with
  | PublishOk url =>
      (connectors.validate_content p content).1 = true
      /\ (match p with
          | TWITTER => config.twitter_configured (connectors.settings env)
          | LINKEDIN => config.linkedin_configured (connectors.settings env)
          end) = true
      /\ match p with
         | TWITTER =>
             exists tweet_id,
               connectors.create_tweet env content = connectors.Replied tweet_id
               /\ url = Some (Some ("https://twitter.com/user/status/" +:+ tweet_id))
         | LINKEDIN =>
             exists sub id,
               connectors.linkedin_userinfo env = connectors.Replied sub
               /\ connectors.linkedin_ugc_post env ("urn:li:person:" +:+ sub) content
                  = connectors.Replied id
               /\ url = Some (Some ("https://www.linkedin.com/feed/update/"
                                    +:+ default "" id))
         end
  | PublishError e =>
      e = (connectors.validate_content p content).2
      \/ e = (match p with
              | TWITTER => connectors.twitter_not_configured
              | LINKEDIN => connectors.linkedin_not_configured
              end)
      \/ match p with
         | TWITTER => connectors.create_tweet env content = connectors.Failed e
         | LINKEDIN =>
             connectors.linkedin_userinfo env = connectors.Failed e
             \/ exists sub,
                  connectors.linkedin_ugc_post env ("urn:li:person:" +:+ sub) content
                  = connectors.Failed e
         end
  end.
Proof.
  pose proof (publish_cases env p content) as H.
  destruct (connectors.publish env p content) as [url|e].
  - destruct H as (Hv & Hc & Hu). split; [exact Hv|]. split; [|exact Hu].
    destruct p; exact Hc.
  - destruct H as [[_ ->]|[(_ & _ & ->)|(_ & _ & H)]]; [auto| |].
    + right. left. destruct p; reflexivity.
    + right. right. destruct p; [exact H|].
      destruct H as [H|(sub & _ & H)]; eauto.
Qed.

(** X25: the validation comes first: for content that does not pass it,
    the connector fails with the validation message whatever the settings
    and whatever the platform's API would answer; and with credentials
    that are not configured, valid content fails with the corresponding
    message whatever the API would answer. *)
Theorem publish_checks_content_then_credentials
    (env env' : connectors.environment) (p : Platform) (content : string) :
  (if (connectors.validate_content p content).1
   then if (match p with
            | TWITTER => config.twitter_configured (connectors.settings env)
            | LINKEDIN => config.linkedin_configured (connectors.settings env)
            end)
        then True
        else connectors.publish env p content
             = PublishError (match p with
                             | TWITTER => connectors.twitter_not_configured
                             | LINKEDIN => connectors.linkedin_not_configured
                             end)
   else connectors.publish env p content
        = PublishError (connectors.validate_content p content).2
        /\ connectors.publish env' p content = connectors.publish env p content).
Proof.
  destruct p; cbn [connectors.publish];
    [unfold connectors.twitter_publish|unfold connectors.linkedin_publish].
  - destruct (connectors.validate_content TWITTER content) as [[] msg];
      cbn [negb fst snd]; [|split; reflexivity].
    destruct (config.twitter_configured _); [exact I|reflexivity].
  - destruct (connectors.validate_content LINKEDIN content) as [[] msg];
      cbn [negb fst snd]; [|split; reflexivity].
    destruct (config.linkedin_configured _); [exact I|reflexivity].
Qed.

(** X26: with the repository's connectors as the publish collaborator, the
    publish node on a draft whose character count exceeds the limit of the
    state's platform ends in status [FAILED] with the message that names
    the platform and its limit, leaves [published_url] as it was, and does
    so whatever the settings and the platform's API are: an over-long
    draft is never posted, not even truncated. *)
Theorem publish_post_fails_on_over_long_draft
    (env : connectors.environment) (s : AgentState.t) (pc : PostContent.t) :
  AgentState.post_content s = Some pc ->
  PostContent.char_count pc > connectors.max_length (AgentState.platform s) ->
  let res := nodes.publish_post (connectors.publish env) s in
  let s' := apply_update s res.1 in
  AgentState.status s' = FAILED
  /\ AgentState.error_message s'
     = Some ("Content exceeds " +:+ connectors.platform_name (AgentState.platform s)
             +:+ " limit of " +:+ PyStr.of_int (connectors.max_length (AgentState.platform s))
             +:+ " characters")
  /\ AgentState.published_url s' = AgentState.published_url s
  /\ AgentState.post_content s' = Some pc.
Proof.
  intros Hpc Hlong res s'. subst res s'.
  unfold nodes.publish_post. rewrite Hpc.
  assert (Hpub : connectors.publish env (AgentState.platform s)
                   (PostContent.formatted_text pc)
                 = PublishError (exceeds_message (AgentState.platform s))).
  { destruct (validate_content_cases (AgentState.platform s)
                (PostContent.formatted_text pc)) as [[_ Hv]|[(Hle & _)|(Hle & _)]];
      [|unfold PostContent.char_count in Hlong; lia..].
    destruct (AgentState.platform s); cbn [connectors.publish];
      [unfold connectors.twitter_publish|unfold connectors.linkedin_publish];
      rewrite Hv; reflexivity. }
  rewrite Hpub. cbn. repeat split. exact Hpc.
Qed.

Lemma publish_post_fails_on_over_long_draft_witness :
  let env := {| connectors.settings :=
                  {| config.openai_api_key := ""; config.anthropic_api_key := "";
                     config.llm_provider := config.openai; config.llm_model := "gpt-4o";
                     config.twitter_api_key := "k"; config.twitter_api_secret := "s";
                     config.twitter_access_token := "t";
                     config.twitter_access_secret := "a";
                     config.twitter_bearer_token := "";
                     config.linkedin_client_id := ""; config.linkedin_client_secret := "";
                     config.linkedin_access_token := "";
                     config.database_url := "sqlite:///./data/agent.db";
                     config.host := "0.0.0.0"; config.port := 8000;
                     config.debug := false |};
                connectors.create_tweet := fun _ => connectors.Replied "1";
                connectors.linkedin_userinfo := connectors.Failed "unused";
                connectors.linkedin_ugc_post := fun _ _ => connectors.Failed "unused" |} in
  let long := String.concat "" (repeat "0123456789" 28) in
  let pc := PostContent.mk long TWITTER ["ai"] 0 in
  let s := AgentState.mk [] "AI safety" TWITTER "casual" "" (Some pc)
             APPROVED None 1 3 None None "t1" in
  AgentState.status (apply_update s (nodes.publish_post (connectors.publish env) s).1)
  = FAILED
  /\ AgentState.error_message
       (apply_update s (nodes.publish_post (connectors.publish env) s).1)
     = Some "Content exceeds Twitter/X limit of 280 characters".
Proof.
  intros env long pc s.
  pose proof (publish_post_fails_on_over_long_draft env s pc eq_refl
                ltac:(vm_compute; reflexivity)) as H.
  cbv zeta in H. destruct H as (H1 & H2 & _).
  split; [exact H1|]. rewrite H2. vm_compute. reflexivity.
Defined.

End platform_connectors.
